(** * Speech-to-speech translation app: orchestration core

    A shallow embedding of [src/app.py]: the translation fallback policy
    ([translate_text]), the speech-synthesis fallback chain ([ms_speak],
    [speak_text]) and the [/translate] request handler ([translate]).

    Python code that raises, catches and logs is embedded in a small
    state-and-exception monad over a [World]: the file system, the source of
    temporary file names, and a chronological trace of everything the code
    does to the outside (log records, calls to external collaborators, lines
    printed).  The external collaborators themselves (the translation engine,
    the three text-to-speech engines with the audio mixer, the speech
    recognizer) are records of functions, [TranslationEngine],
    [SpeechEngines] and [Recognizer]: each field says what a call returns or
    raises and what it writes to the file it was given.  Exceptions are the
    ones [except Exception] catches. *)

From stdpp Require Import gmap strings list fin_maps pretty.

Open Scope string_scope.

(** ** Python values and exceptions *)

(** [repr(s)] of a string, as CPython writes it: between double quotes
    when the string has an apostrophe and no double quote, between
    apostrophes otherwise; a backslash and the enclosing quote are escaped
    with a backslash, tab, newline and carriage return are written [\t],
    [\n] and [\r], every other control character [\xhh].  Strings are
    sequences of bytes here, and a byte above 127 is kept as it is, as
    Python keeps a printable character. *)
Definition apostrophe : Ascii.ascii := Ascii.ascii_of_nat 39.
Definition double_quote : Ascii.ascii := Ascii.ascii_of_nat 34.
Definition backslash : Ascii.ascii := Ascii.ascii_of_nat 92.

Fixpoint has_char (c : Ascii.ascii) (s : string) : bool :=
  match s with
  | EmptyString => false
  | String c' rest => Ascii.eqb c c' || has_char c rest
  end.

Definition hex_digit (n : nat) : Ascii.ascii :=
  Ascii.ascii_of_nat (if (n <? 10)%nat then 48 + n else 87 + n).

Definition repr_char (quote c : Ascii.ascii) (rest : string) : string :=
  let n := Ascii.nat_of_ascii c in
  if Ascii.eqb c backslash || Ascii.eqb c quote then String backslash (String c rest)
  else if (n =? 9)%nat then String backslash ("t" +:+ rest)
  else if (n =? 10)%nat then String backslash ("n" +:+ rest)
  else if (n =? 13)%nat then String backslash ("r" +:+ rest)
  else if (n <? 32)%nat || (n =? 127)%nat then
    String backslash
      ("x" +:+ String (hex_digit (n / 16)) (String (hex_digit (n mod 16)) rest))
  else String c rest.

Fixpoint repr_body (quote : Ascii.ascii) (s : string) : string :=
  match s with
  | EmptyString => String quote EmptyString
  | String c rest => repr_char quote c (repr_body quote rest)
  end.

Definition py_repr (s : string) : string :=
  let quote := if has_char apostrophe s && negb (has_char double_quote s)
               then double_quote else apostrophe in
  String quote (repr_body quote s).

(** Exceptions caught by [except Exception].  [str(e)] of a [KeyError] is the
    repr of the missing key; every other exception carries its message. *)
Inductive exn : Type :=
| KeyError (key : string)
| Exception (msg : string).

Definition str (e : exn) : string :=
  match e with
  | KeyError key => py_repr key
  | Exception msg => msg
  end.

Inductive outcome (A : Type) : Type :=
| Ret (a : A)
| Raise (e : exn).
Arguments Ret {A} a.
Arguments Raise {A} e.

(** ** The world outside the interpreter *)

Inductive level : Type := INFO | WARNING | ERROR.

(** What a collaborator does to the file it was told to write. *)
Inductive file_effect : Type :=
| Untouched
| Removed
| Written (size : N).

Inductive event : Type :=
| Log (lv : level) (msg : string)
| Print (line : string)
| EvGetTranslation (from_code to_code : string)
| EvTranslate (from_code to_code text : string)
| EvSapiVoices
| EvSapiSpeak (text output_file : string) (voice : option string)
| EvSubprocess (cmd : list string)
| EvPyttsx3Init
| EvPyttsx3Save (text output_file : string) (voice : option string)
| EvMixerPlay (path : string)
| EvSleep
| EvMixerQuit
| EvModelLoad (path : string)
| EvCapture
| EvChunk.

Record World : Type := mkWorld {
  fs : gmap string N;       (* path -> size in bytes *)
  tmp_counter : nat;        (* next name handed out by tempfile *)
  trace : list event        (* chronological, oldest first *)
}.

(** ** The monad *)

Definition M (A : Type) : Type := World -> outcome A * World.

Definition ret {A} (a : A) : M A := fun w => (Ret a, w).
Definition raise {A} (e : exn) : M A := fun w => (Raise e, w).

Definition bind {A B} (m : M A) (k : A -> M B) : M B :=
  fun w =>
    match m w with
    | (Ret a, w') => k a w'
    | (Raise e, w') => (Raise e, w')
    end.

(** [try: body except Exception as e: handler e] *)
Definition try_except {A} (body : M A) (handler : exn -> M A) : M A :=
  fun w =>
    match body w with
    | (Ret a, w') => (Ret a, w')
    | (Raise e, w') => handler e w'
    end.

Declare Scope py_scope.
Delimit Scope py_scope with py.
Notation "'let*' x ':=' m 'in' k" := (bind m (fun x => k))
  (at level 10, x name, m at level 100, k at level 200) : py_scope.
Notation "m ';;' k" := (bind m (fun _ => k))
  (at level 100, k at level 200, right associativity) : py_scope.
Open Scope py_scope.

Definition emit (e : event) : M unit :=
  fun w => (Ret tt, mkWorld (fs w) (tmp_counter w) (trace w ++ [e])).

Definition logger (lv : level) (msg : string) : M unit := emit (Log lv msg).

(** A collaborator's answer, computed outside, enters the flow here. *)
Definition lift {A} (o : outcome A) : M A := fun w => (o, w).

(** [d[k]] on a dict: [KeyError] when the key is absent. *)
Definition dict_get {V} (d : gmap string V) (k : string) : M V :=
  match d !! k with
  | Some v => ret v
  | None => raise (KeyError k)
  end.

(** ** Translation *)

(** An installed argostranslate language, keyed in [lang_dict] by its code. *)
Record Language : Type := mkLanguage { code : string; name : string }.

(** The translation engine, an external collaborator. *)
Record TranslationEngine : Type := mkEngine {
  Translation : Type;
  (* [a.get_translation(b)] *)
  get_translation : Language -> Language -> outcome Translation;
  (* [t.translate(text)] *)
  translate_run : Translation -> string -> outcome string
}.

Section Translate.
Variable lang_dict : gmap string Language.
Variable engine : TranslationEngine.

Definition call_get_translation (a b : Language) : M (Translation engine) :=
  emit (EvGetTranslation (code a) (code b));;
  lift (get_translation engine a b).

Definition call_translate (from_code to_code : string)
    (t : Translation engine) (text : string) : M string :=
  emit (EvTranslate from_code to_code text);;
  lift (translate_run engine t text).

(** [translate_text], lines 138-186. *)
Definition translate_text (text source target : string) : M string :=
  if bool_decide (text = "") then ret "No text recognized"
  else if bool_decide (source = target) then ret text
  else
    try_except
      (if bool_decide (lang_dict !! source = None) then
         logger ERROR ("Source language " +:+ source +:+ " not installed");;
         ret ("[Translation failed: " +:+ source +:+ " language not installed]")
       else if bool_decide (lang_dict !! target = None) then
         logger ERROR ("Target language " +:+ target +:+ " not installed");;
         ret ("[Translation failed: " +:+ target +:+ " language not installed]")
       else
         try_except
           (let* src := dict_get lang_dict source in
            let* tgt := dict_get lang_dict target in
            let* translation := call_get_translation src tgt in
            let* result := call_translate source target translation text in
            logger INFO ("Translated '" +:+ text +:+ "' from " +:+ source
                         +:+ " to " +:+ target +:+ ": '" +:+ result +:+ "'");;
            ret result)
           (fun direct_error =>
              logger WARNING ("Direct translation failed: " +:+ str direct_error);;
              let* two_step :=
                (if bool_decide (source <> "en") && bool_decide (target <> "en") then
                   try_except
                     (logger INFO "Attempting two-step translation via English";;
                      let* src := dict_get lang_dict source in
                      let* en := dict_get lang_dict "en" in
                      let* en_translation := call_get_translation src en in
                      let* english_text := call_translate source "en" en_translation text in
                      logger INFO ("First step: " +:+ source +:+ " -> en: '"
                                   +:+ english_text +:+ "'");;
                      let* en' := dict_get lang_dict "en" in
                      let* tgt := dict_get lang_dict target in
                      let* target_translation := call_get_translation en' tgt in
                      let* result := call_translate "en" target target_translation english_text in
                      logger INFO ("Second step: en -> " +:+ target +:+ ": '"
                                   +:+ result +:+ "'");;
                      ret (Some result))
                     (fun two_step_error =>
                        logger ERROR ("Two-step translation also failed: "
                                      +:+ str two_step_error);;
                        ret None)
                 else ret None) in
              match two_step with
              | Some result => ret result
              | None => raise direct_error
              end))
      (fun e =>
         logger ERROR ("Translation error: " +:+ str e);;
         ret ("[Translation Failed: " +:+ str e +:+ "]")).
End Translate.

(** ** String helpers *)

Definition nl : string := String (Ascii.ascii_of_nat 10) "".

(** [needle in hay] on strings. *)
Fixpoint contains (needle hay : string) : bool :=
  String.prefix needle hay ||
  match hay with
  | EmptyString => false
  | String _ rest => contains needle rest
  end.

(** [s.lower()], on the ASCII letters. *)
Definition lower_ascii (c : Ascii.ascii) : Ascii.ascii :=
  let n := Ascii.nat_of_ascii c in
  if (65 <=? n)%nat && (n <=? 90)%nat then Ascii.ascii_of_nat (n + 32) else c.

Fixpoint lower (s : string) : string :=
  match s with
  | EmptyString => EmptyString
  | String c rest => String (lower_ascii c) (lower rest)
  end.

(** [str(b)] of a Python bool. *)
Definition str_bool (b : bool) : string := if b then "True" else "False".

(** ** Files *)

Definition apply_effect (path : string) (eff : file_effect)
    (files : gmap string N) : gmap string N :=
  match eff with
  | Untouched => files
  | Removed => delete path files
  | Written size => <[path := size]> files
  end.

Definition touch (path : string) (eff : file_effect) : M unit :=
  fun w => (Ret tt, mkWorld (apply_effect path eff (fs w)) (tmp_counter w) (trace w)).

Definition tmp_name (n : nat) (suffix : string) : string :=
  "/tmp/tmp" +:+ pretty n +:+ suffix.

(** [tempfile.NamedTemporaryFile(delete=False, suffix=...)]: a new, empty
    file under a name not handed out before; returns the name. *)
Definition NamedTemporaryFile (suffix : string) : M string :=
  fun w =>
    let path := tmp_name (tmp_counter w) suffix in
    (Ret path, mkWorld (<[path := 0%N]> (fs w)) (S (tmp_counter w)) (trace w)).

(** [f.write(text); f.close()] on a file opened for writing. *)
Definition write_close (path text : string) : M unit :=
  touch path (Written (N.of_nat (String.length text))).

Definition os_path_exists (path : string) : M bool :=
  fun w => (Ret (bool_decide (is_Some (fs w !! path))), w).

Definition os_path_getsize (path : string) : M N :=
  fun w =>
    match fs w !! path with
    | Some size => (Ret size, w)
    | None => (Raise (Exception ("No such file or directory: '" +:+ path +:+ "'")), w)
    end.

(** [os.unlink(path)]: removing a file that is there succeeds. *)
Definition os_unlink (path : string) : M unit :=
  fun w =>
    match fs w !! path with
    | Some _ => (Ret tt, mkWorld (delete path (fs w)) (tmp_counter w) (trace w))
    | None => (Raise (Exception ("No such file or directory: '" +:+ path +:+ "'")), w)
    end.

(** [os.path.exists(p) and os.path.getsize(p) > 1000] *)
Definition exists_and_big (path : string) : M bool :=
  let* ex := os_path_exists path in
  if ex then
    let* size := os_path_getsize path in
    ret (1000 <? size)%N
  else ret false.

(** ** Speech synthesis *)

Definition ESPEAK_PATH : string :=
  "C:\Program Files (x86)\eSpeak\command_line\espeak.exe".

Record CompletedProcess : Type := mkProcess { returncode : Z; stderr : string }.

(** The text-to-speech engines and the audio mixer.  An engine call answers
    with what it did to the output file and with how it ended.
    - [sapi_voices]: [import win32com.client], [Dispatch("SAPI.SpVoice")] and
      the descriptions of [GetVoices()];
    - [sapi_speak text voice]: opening the file stream, [Speak], [Close],
      with the voice selected ([None]: the default voice);
    - [subprocess_run cmd]: [subprocess.run(cmd, ...)], which raises when
      the executable cannot be started;
    - [pyttsx3_voices]: [pyttsx3.init()], the two [setProperty] calls and the
      ids of [getProperty('voices')];
    - [pyttsx3_save text voice]: [save_to_file] and [runAndWait];
    - [mixer_play path]: [mixer.init()], [music.load(path)], [music.play()];
      answers the number of times [get_busy()] will say the music is still
      playing. *)
Record SpeechEngines : Type := mkSpeech {
  sapi_voices : outcome (list string);
  sapi_speak : string -> option string -> file_effect * outcome unit;
  subprocess_run : list string -> file_effect * outcome CompletedProcess;
  pyttsx3_voices : outcome (list string);
  pyttsx3_save : string -> option string -> file_effect * outcome unit;
  mixer_play : string -> outcome nat
}.

Definition ms_lang_map : gmap string string :=
  list_to_map [("en", "English"); ("hi", "Hindi"); ("es", "Spanish");
               ("de", "German"); ("ja", "Japanese"); ("zh", "Chinese")].

Definition espeak_voice_map : gmap string string :=
  list_to_map [("en", "en"); ("hi", "hi"); ("es", "es");
               ("de", "de"); ("ja", "en+f5"); ("zh", "en+f5")].

Definition extra_params : list string := ["-s"; "130"; "-p"; "50"].

(** [while pygame.mixer.music.get_busy(): time.sleep(0.1)] *)
Fixpoint wait_while_busy (polls : nat) : M unit :=
  match polls with
  | O => ret tt
  | S polls' => emit EvSleep;; wait_while_busy polls'
  end.

Section Speak.
Variable tts : SpeechEngines.

(** [ms_speak], lines 332-397. *)
Definition ms_speak (text lang output_file : string) : M bool :=
  try_except
    (emit EvSapiVoices;;
     let* voices := lift (sapi_voices tts) in
     let search_lang := default "" (ms_lang_map !! lang) in
     let voice := List.find (fun desc => contains (lower search_lang) (lower desc)) voices in
     match voice with
     | Some desc => logger INFO ("Found SAPI voice for " +:+ lang +:+ ": " +:+ desc)
     | None => logger INFO ("No specific SAPI voice found for " +:+ lang
                            +:+ ", using default voice")
     end;;
     emit (EvSapiSpeak text output_file voice);;
     touch output_file (fst (sapi_speak tts text voice));;
     lift (snd (sapi_speak tts text voice));;
     let* result := exists_and_big output_file in
     logger INFO ("Microsoft Speech API result: " +:+ str_bool result);;
     ret result)
    (fun e =>
       logger ERROR ("Microsoft Speech API error: " +:+ str e);;
       ret false).

(** Lines 207-219: the first engine. *)
Definition try_ms_speech (text lang temp_filename : string) (tts_success : bool) : M bool :=
  if negb tts_success then
    try_except
      (logger INFO ("Trying Microsoft Speech API for " +:+ lang);;
       let* result := ms_speak text lang temp_filename in
       if result then
         logger INFO "Microsoft Speech API TTS succeeded";;
         ret true
       else ret tts_success)
      (fun e =>
         logger ERROR ("Microsoft Speech API error: " +:+ str e);;
         ret tts_success)
  else ret tts_success.

(** Lines 221-267: the second engine. *)
Definition try_espeak (text lang temp_filename : string) (tts_success : bool) : M bool :=
  if negb tts_success then
    try_except
      (logger INFO ("Trying eSpeak for " +:+ lang);;
       let* text_path := NamedTemporaryFile "" in
       write_close text_path text;;
       let voice := default "en" (espeak_voice_map !! lang) in
       let cmd := ([ESPEAK_PATH; "-v"; voice; "-w"; temp_filename]
                     ++ extra_params ++ ["-f"; text_path])%list in
       logger INFO ("Running eSpeak command: " +:+ String.concat " " cmd);;
       emit (EvSubprocess cmd);;
       touch temp_filename (fst (subprocess_run tts cmd));;
       let* process := lift (snd (subprocess_run tts cmd)) in
       os_unlink text_path;;
       (if bool_decide (returncode process <> 0%Z) then
          logger ERROR ("eSpeak error: " +:+ stderr process);;
          raise (Exception ("eSpeak failed: " +:+ stderr process))
        else ret tt);;
       let* ok := exists_and_big temp_filename in
       if ok then
         logger INFO "eSpeak TTS saved to file successfully";;
         ret true
       else ret tts_success)
      (fun e =>
         logger ERROR ("eSpeak error: " +:+ str e);;
         ret tts_success)
  else ret tts_success.

(** Lines 269-296: the third engine. *)
Definition try_pyttsx3 (text lang temp_filename : string) (tts_success : bool) : M bool :=
  if negb tts_success then
    try_except
      (logger INFO ("Trying pyttsx3 for language: " +:+ lang);;
       emit EvPyttsx3Init;;
       let* voices := lift (pyttsx3_voices tts) in
       let voice := List.find (fun id => contains lang (lower id)) voices in
       match voice with
       | Some id => logger INFO ("Found matching voice: " +:+ id)
       | None => ret tt
       end;;
       emit (EvPyttsx3Save text temp_filename voice);;
       touch temp_filename (fst (pyttsx3_save tts text voice));;
       lift (snd (pyttsx3_save tts text voice));;
       let* ok := exists_and_big temp_filename in
       if ok then
         logger INFO "pyttsx3 TTS saved to file successfully";;
         ret true
       else ret tts_success)
      (fun e =>
         logger ERROR ("pyttsx3 error: " +:+ str e);;
         ret tts_success)
  else ret tts_success.

(** Lines 298-316: playback of the artifact. *)
Definition play_audio (temp_filename : string) (tts_success : bool) : M bool :=
  if tts_success then
    try_except
      (emit (EvMixerPlay temp_filename);;
       let* polls := lift (mixer_play tts temp_filename) in
       wait_while_busy polls;;
       emit EvMixerQuit;;
       logger INFO "Audio playback completed";;
       ret tts_success)
      (fun e =>
         logger ERROR ("Audio playback error: " +:+ str e);;
         ret false)
  else ret tts_success.

(** Lines 318-323. *)
Definition cleanup (temp_filename : string) : M unit :=
  try_except
    (let* ex := os_path_exists temp_filename in
     if ex then os_unlink temp_filename else ret tt)
    (fun e => logger ERROR ("Cleanup error: " +:+ str e)).

(** The three engines in order, lines 204-296. *)
Definition synthesize (text lang temp_filename : string) : M bool :=
  let* tts_success := try_ms_speech text lang temp_filename false in
  let* tts_success := try_espeak text lang temp_filename tts_success in
  try_pyttsx3 text lang temp_filename tts_success.

(** [speak_text], lines 188-330.  The bare [return] on empty text gives
    [None]; every other path gives the final [tts_success]. *)
Definition speak_text (text lang : string) : M (option bool) :=
  if bool_decide (text = "") then
    logger WARNING "No text to speak";;
    ret None
  else
    logger INFO ("Speaking in " +:+ lang +:+ ": '" +:+ text +:+ "'");;
    let* temp_filename := NamedTemporaryFile ".wav" in
    let* tts_success := synthesize text lang temp_filename in
    let* tts_success := play_audio temp_filename tts_success in
    cleanup temp_filename;;
    (if negb tts_success then
       emit (Print (nl +:+ "===> [SPEECH (" +:+ lang +:+ ")]: " +:+ text +:+ nl));;
       logger ERROR "All TTS methods failed - text output only"
     else ret tt);;
    ret (Some tts_success).
End Speak.

(** ** The request handler *)

Definition LANGUAGES : gmap string string :=
  list_to_map [("English", "en"); ("Hindi", "hi"); ("Spanish", "es");
               ("German", "de"); ("Japanese", "ja"); ("Chinese", "zh")].

Definition MODEL_PATHS : gmap string string :=
  list_to_map [("en", "models/vosk-model-small-en-us-0.15");
               ("hi", "models/vosk-model-small-hi-0.22");
               ("es", "models/vosk-model-small-es-0.42");
               ("de", "models/vosk-model-de-0.21");
               ("ja", "models/vosk-model-small-ja-0.22");
               ("zh", "models/vosk-model-small-cn-0.22")].

(** The values put into [jsonify]. *)
Inductive json : Type :=
| JStr (s : string)
| JBool (b : bool)
| JList (items : list string).

(** The speech recognizer and the microphone.
    - [vosk_model path]: [vosk.Model(path)];
    - [kaldi_recognizer]: [vosk.KaldiRecognizer(model, 16000)];
    - [raw_input_stream]: entering [sd.RawInputStream(...)];
    - [chunks_before_final]: how many queued chunks [AcceptWaveform] turns
      down before the one that ends the utterance;
    - [final_result]: [json.loads(recognizer.Result())]. *)
Record Recognizer : Type := mkRecognizer {
  vosk_model : string -> outcome unit;
  kaldi_recognizer : outcome unit;
  raw_input_stream : outcome unit;
  chunks_before_final : nat;
  final_result : gmap string string
}.

(** [data = q.get()] with [AcceptWaveform(data)] false, [pending] times. *)
Fixpoint feed_chunks (pending : nat) : M unit :=
  match pending with
  | O => ret tt
  | S pending' => emit EvChunk;; feed_chunks pending'
  end.

Section Handler.
Variable lang_dict : gmap string Language.
Variable engine : TranslationEngine.
Variable tts : SpeechEngines.
Variable rec : Recognizer.

(** [recognize_speech], lines 120-136. *)
Definition recognize_speech : M string :=
  emit EvCapture;;
  lift (raw_input_stream rec);;
  logger INFO "Listening...";;
  feed_chunks (chunks_before_final rec);;
  emit EvChunk;;
  let recognized_text := default "" (final_result rec !! "text") in
  logger INFO ("Recognized: '" +:+ recognized_text +:+ "'");;
  ret recognized_text.

Definition missing_models (source source_code target target_code : string)
    : list string :=
  ((if bool_decide (lang_dict !! source_code = None)
    then [source +:+ " (" +:+ source_code +:+ ")"] else [])
   ++
   (if bool_decide (lang_dict !! target_code = None)
    then [target +:+ " (" +:+ target_code +:+ ")"] else []))%list.

(** The [/translate] route, lines 403-480.  [data] is [request.json]. *)
Definition translate (data : gmap string string) : M (gmap string json) :=
  try_except
    (let* source := dict_get data "source" in
     let* target := dict_get data "target" in
     let* source_code := dict_get LANGUAGES source in
     let* target_code := dict_get LANGUAGES target in
     logger INFO ("Translating from " +:+ source +:+ " (" +:+ source_code +:+ ") to "
                  +:+ target +:+ " (" +:+ target_code +:+ ")");;
     let* model_path := dict_get MODEL_PATHS source_code in
     let* found := os_path_exists model_path in
     if negb found then
       let error_msg := "Model for " +:+ source +:+ " not found at " +:+ model_path +:+ "!" in
       logger ERROR error_msg;;
       ret {[ "error" := JStr error_msg ]}
     else
       let* load_failed :=
         try_except
           (emit (EvModelLoad model_path);;
            lift (vosk_model rec model_path);;
            logger INFO ("Successfully loaded model from " +:+ model_path);;
            ret None)
           (fun e =>
              let error_msg := "Failed to create model: " +:+ str e in
              logger ERROR error_msg;;
              ret (Some error_msg)) in
       match load_failed with
       | Some error_msg => ret {[ "error" := JStr error_msg ]}
       | None =>
         lift (kaldi_recognizer rec);;
         let* recognized := recognize_speech in
         logger INFO ("Recognized text: '" +:+ recognized +:+ "'");;
         if bool_decide (is_Some (lang_dict !! source_code))
            && bool_decide (is_Some (lang_dict !! target_code)) then
           try_except
             (let* translated := translate_text lang_dict engine recognized source_code target_code in
              logger INFO ("Translated text: '" +:+ translated +:+ "'");;
              speak_text tts translated target_code;;
              ret (list_to_map [("recognized", JStr recognized);
                                ("translated", JStr translated)]))
             (fun translation_error =>
                let error_msg := "Translation failed: " +:+ str translation_error in
                logger ERROR error_msg;;
                ret (list_to_map [("error", JStr error_msg);
                                  ("recognized", JStr recognized);
                                  ("can_translate", JBool false)]))
         else
           let missing := missing_models source source_code target target_code in
           let error_msg := "Missing translation models for: " +:+ String.concat ", " missing in
           logger ERROR error_msg;;
           ret (list_to_map [("error", JStr error_msg);
                             ("recognized", JStr recognized);
                             ("can_translate", JBool false);
                             ("missing_models", JList missing)])
       end)
    (fun e =>
       let error_msg := "Error in translation route: " +:+ str e in
       logger ERROR error_msg;;
       ret {[ "error" := JStr error_msg ]}).
End Handler.

(** ** Reading traces *)

Definition is_translation_event (e : event) : bool :=
  match e with
  | EvGetTranslation _ _ | EvTranslate _ _ _ => true
  | _ => false
  end.

Definition is_synthesis_event (e : event) : bool :=
  match e with
  | EvSapiVoices | EvSapiSpeak _ _ _ | EvSubprocess _
  | EvPyttsx3Init | EvPyttsx3Save _ _ _ => true
  | _ => false
  end.

Definition is_capture_event (e : event) : bool :=
  match e with
  | EvCapture | EvChunk => true
  | _ => false
  end.

(** The events a run added to the trace. *)
Definition emitted (before after : World) : list event :=
  drop (length (trace before)) (trace after).

(** One translation through the engine: [a.get_translation(b).translate(text)]. *)
Definition engine_translate (engine : TranslationEngine) (a b : Language)
    (text : string) : outcome string :=
  match get_translation engine a b with
  | Ret t => translate_run engine t text
  | Raise e => Raise e
  end.

(** The direct attempt of [translate_text] was made and raised. *)
Definition direct_failed (lang_dict : gmap string Language) (engine : TranslationEngine)
    (text source target : string) : Prop :=
  text <> "" /\ source <> target /\
  exists src tgt e,
    lang_dict !! source = Some src /\ lang_dict !! target = Some tgt /\
    engine_translate engine src tgt text = Raise e.

(** The two-step attempt cannot deliver: it is not applicable, English is
    not installed, or one of its two hops raises. *)
Definition two_step_unavailing (lang_dict : gmap string Language)
    (engine : TranslationEngine) (text source target : string)
    (src tgt : Language) : Prop :=
  source = "en" \/ target = "en" \/ lang_dict !! "en" = None \/
  exists en e2,
    lang_dict !! "en" = Some en /\
    (engine_translate engine src en text = Raise e2 \/
     exists mid, engine_translate engine src en text = Ret mid /\
                 engine_translate engine en tgt mid = Raise e2).

Definition two_step_banner : event :=
  Log INFO "Attempting two-step translation via English".

(** The run cannot raise. *)
Definition returns {A} (m : M A) : Prop :=
  forall w, exists a w', m w = (Ret a, w').

(** The run only appends to the trace, and only events satisfying [P]. *)
Definition emits_only (P : event -> Prop) {A} (m : M A) : Prop :=
  forall w, exists evs, trace (snd (m w)) = (trace w ++ evs)%list /\ Forall P evs.

(** [Q] holds of the outcome and the world the run from [w] ends in. *)
Definition post {A} (m : M A) (w : World) (Q : outcome A -> World -> Prop) : Prop :=
  Q (fst (m w)) (snd (m w)).

(** The check behind [tts_success = True], as a function and as a property. *)
Definition file_is_big (files : gmap string N) (path : string) : bool :=
  match files !! path with
  | Some size => (1000 <? size)%N
  | None => false
  end.

Definition big_file (files : gmap string N) (path : string) : Prop :=
  exists size, files !! path = Some size /\ (1000 < size)%N.

(** What a synthesis stage run with [tts_success = False] guarantees: it does
    not raise, and it says [True] only with a big enough file in place. *)
Definition stage_post (temp_filename : string)
    (o : outcome bool) (w' : World) : Prop :=
  exists b, o = Ret b /\ (b = true -> big_file (fs w') temp_filename).

(** A stage's verdict rests on the artifact: the verdict is a boolean, [True]
    only with a big enough file in place, hence [False] without one. *)
Definition artifact_checked (temp_filename : string) (s : outcome bool * World) : Prop :=
  (exists b, fst s = Ret b) /\
  (fst s = Ret true -> big_file (fs (snd s)) temp_filename) /\
  (~ big_file (fs (snd s)) temp_filename -> fst s = Ret false).

(** The stage said [True]. *)
Definition verified (o : outcome bool) : bool :=
  match o with
  | Ret true => true
  | _ => false
  end.

(** The line [speak_text] prints when no audio could be produced. *)
Definition fallback_line (text lang : string) : event :=
  Print (nl +:+ "===> [SPEECH (" +:+ lang +:+ ")]: " +:+ text +:+ nl).

(** Events that belong neither to translation nor to audio capture. *)
Definition speech_side (e : event) : Prop :=
  is_translation_event e = false /\ is_capture_event e = false.

(** Events that belong neither to synthesis nor to audio capture. *)
Definition translation_side (e : event) : Prop :=
  is_synthesis_event e = false /\ is_capture_event e = false.

(** Events that belong neither to translation nor to synthesis. *)
Definition recognition_side (e : event) : Prop :=
  is_translation_event e = false /\ is_synthesis_event e = false.

(** The request passes every check made before capture and the recognizer
    delivers an utterance. *)
Definition recognition_ready (rec : Recognizer) (data : gmap string string) (w : World)
    (source source_code target target_code : string) : Prop :=
  data !! "source" = Some source /\ data !! "target" = Some target /\
  LANGUAGES !! source = Some source_code /\ LANGUAGES !! target = Some target_code /\
  exists model_path size,
    MODEL_PATHS !! source_code = Some model_path /\
    fs w !! model_path = Some size /\
    vosk_model rec model_path = Ret tt /\
    kaldi_recognizer rec = Ret tt /\
    raw_input_stream rec = Ret tt.

(** ** Sample collaborators *)

Definition empty_world : World := mkWorld ∅ 0 [].

Definition sample_lang_dict : gmap string Language :=
  list_to_map [("en", mkLanguage "en" "English");
               ("hi", mkLanguage "hi" "Hindi");
               ("es", mkLanguage "es" "Spanish")].

(** An engine that finds every pair and translates with [f]. *)
Definition fake_engine (f : string -> string -> string -> outcome string)
    : TranslationEngine :=
  mkEngine (string * string)
           (fun a b => Ret (code a, code b))
           (fun t text => f (fst t) (snd t) text).

(** Every translation fails, with a message naming the pair. *)
Definition failing_engine : TranslationEngine :=
  fake_engine (fun a b _ => Raise (Exception ("no model " +:+ a +:+ "-" +:+ b))).

(** Only translations from or to English work. *)
Definition pivot_only_engine : TranslationEngine :=
  fake_engine (fun a b text =>
    if bool_decide (a = "en") || bool_decide (b = "en")
    then Ret (text +:+ ">" +:+ b)
    else Raise (Exception ("no model " +:+ a +:+ "-" +:+ b))).

(** Only English is installed. *)
Definition english_only_dict : gmap string Language :=
  {[ "en" := mkLanguage "en" "English" ]}.

(** A recognizer whose models load and that hears [text] after two chunks. *)
Definition sample_recognizer (text : string) : Recognizer :=
  mkRecognizer (fun _ => Ret tt) (Ret tt) (Ret tt) 2 {[ "text" := text ]}.

(** [request.json] of a well-formed request. *)
Definition request (source target : string) : gmap string string :=
  {[ "source" := source; "target" := target ]}.

(** A disk holding the recognition models and nothing else. *)
Definition models_world : World :=
  mkWorld (list_to_map [("models/vosk-model-small-en-us-0.15", 4096%N);
                        ("models/vosk-model-small-hi-0.22", 4096%N);
                        ("models/vosk-model-small-es-0.42", 4096%N)])
          0 [].

(** No engine delivers: no SAPI, eSpeak exits with an error, pyttsx3 has
    no driver. *)
Definition dead_tts : SpeechEngines :=
  mkSpeech (Raise (Exception "No module named 'win32com'"))
           (fun _ _ => (Untouched, Raise (Exception "unreachable")))
           (fun _ => (Untouched, Ret (mkProcess 1 "voice not found")))
           (Raise (Exception "No module named 'pyttsx3.drivers'"))
           (fun _ _ => (Untouched, Raise (Exception "unreachable")))
           (fun _ => Raise (Exception "mixer not initialized")).

(** A machine without SAPI and without the eSpeak executable, where
    pyttsx3 works and the audio plays. *)
Definition no_espeak_tts : SpeechEngines :=
  mkSpeech (Raise (Exception "No module named 'win32com'"))
           (fun _ _ => (Untouched, Raise (Exception "unreachable")))
           (fun _ => (Untouched,
                      Raise (Exception "[WinError 2] The system cannot find the file specified")))
           (Ret ["HKEY_LOCAL_MACHINE\SOFTWARE\Microsoft\Speech\Voices\Tokens\TTS_MS_EN-US_ZIRA_11.0"])
           (fun _ _ => (Written 48000, Ret tt))
           (fun _ => Ret 3).

(** SAPI and eSpeak both report success, the first leaving an empty file
    and the second a bare 44-byte header; pyttsx3 writes real audio. *)
Definition hollow_tts : SpeechEngines :=
  mkSpeech (Ret ["Microsoft Zira Desktop - English (United States)"])
           (fun _ _ => (Written 0, Ret tt))
           (fun _ => (Written 44, Ret (mkProcess 0 "")))
           (Ret [])
           (fun _ _ => (Written 48000, Ret tt))
           (fun _ => Ret 3).

(** ** More vocabulary *)

Definition is_translate_call (e : event) : bool :=
  match e with
  | EvTranslate _ _ _ => true
  | _ => false
  end.

(** A string with a dot in it; temporary names differ by it. *)
Fixpoint has_dot (s : string) : bool :=
  match s with
  | EmptyString => false
  | String c rest => Ascii.eqb c (Ascii.ascii_of_nat 46) || has_dot rest
  end.

(** From [w] to [w'] only the file [path] may have changed. *)
Definition only_touches (path : string) (w w' : World) : Prop :=
  tmp_counter w' = tmp_counter w /\
  forall p, p <> path -> fs w' !! p = fs w !! p.

(** The command line of the eSpeak stage. *)
Definition espeak_cmd (lang temp_filename text_path : string) : list string :=
  ([ESPEAK_PATH; "-v"; default "en" (espeak_voice_map !! lang); "-w"; temp_filename]
     ++ extra_params ++ ["-f"; text_path])%list.

Definition is_print (e : event) : bool :=
  match e with
  | Print _ => true
  | _ => false
  end.

(** Calls of the second and of the third speech engine. *)
Definition is_espeak_event (e : event) : bool :=
  match e with
  | EvSubprocess _ => true
  | _ => false
  end.

Definition is_pyttsx3_event (e : event) : bool :=
  match e with
  | EvPyttsx3Init | EvPyttsx3Save _ _ _ => true
  | _ => false
  end.

(** The world in which [speak_text] starts its engines: the wav file has
    been created, empty. *)
Definition speak_start (text lang : string) (w : World) : World :=
  mkWorld (<[tmp_name (tmp_counter w) ".wav" := 0%N]> (fs w)) (S (tmp_counter w))
          (trace w ++ [Log INFO ("Speaking in " +:+ lang +:+ ": '" +:+ text +:+ "'")]).

(** ** [speak_text] when a file may resist removal *)

(** [os.unlink(path)] on a machine where some files cannot be removed (a
    file still open in another program, a missing permission):
    [refuse path] is the exception raised for such a file, which then
    stays. *)
Definition os_unlink_or (refuse : string -> option exn) (path : string) : M unit :=
  match refuse path with
  | Some e => raise e
  | None => os_unlink path
  end.

Section SpeakVia.
Variable tts : SpeechEngines.
(** [os.unlink] *)
Variable unlink : string -> M unit.

(** Lines 221-267, removing the text file with [unlink]. *)
Definition try_espeak_via (text lang temp_filename : string) (tts_success : bool) : M bool :=
  if negb tts_success then
    try_except
      (logger INFO ("Trying eSpeak for " +:+ lang);;
       let* text_path := NamedTemporaryFile "" in
       write_close text_path text;;
       let voice := default "en" (espeak_voice_map !! lang) in
       let cmd := ([ESPEAK_PATH; "-v"; voice; "-w"; temp_filename]
                     ++ extra_params ++ ["-f"; text_path])%list in
       logger INFO ("Running eSpeak command: " +:+ String.concat " " cmd);;
       emit (EvSubprocess cmd);;
       touch temp_filename (fst (subprocess_run tts cmd));;
       let* process := lift (snd (subprocess_run tts cmd)) in
       unlink text_path;;
       (if bool_decide (returncode process <> 0%Z) then
          logger ERROR ("eSpeak error: " +:+ stderr process);;
          raise (Exception ("eSpeak failed: " +:+ stderr process))
        else ret tt);;
       let* ok := exists_and_big temp_filename in
       if ok then
         logger INFO "eSpeak TTS saved to file successfully";;
         ret true
       else ret tts_success)
      (fun e =>
         logger ERROR ("eSpeak error: " +:+ str e);;
         ret tts_success)
  else ret tts_success.

(** Lines 318-323, removing the wav file with [unlink]. *)
Definition cleanup_via (temp_filename : string) : M unit :=
  try_except
    (let* ex := os_path_exists temp_filename in
     if ex then unlink temp_filename else ret tt)
    (fun e => logger ERROR ("Cleanup error: " +:+ str e)).

Definition synthesize_via (text lang temp_filename : string) : M bool :=
  let* tts_success := try_ms_speech tts text lang temp_filename false in
  let* tts_success := try_espeak_via text lang temp_filename tts_success in
  try_pyttsx3 tts text lang temp_filename tts_success.

(** [speak_text], lines 188-330, with [unlink] for [os.unlink]. *)
Definition speak_text_via (text lang : string) : M (option bool) :=
  if bool_decide (text = "") then
    logger WARNING "No text to speak";;
    ret None
  else
    logger INFO ("Speaking in " +:+ lang +:+ ": '" +:+ text +:+ "'");;
    let* temp_filename := NamedTemporaryFile ".wav" in
    let* tts_success := synthesize_via text lang temp_filename in
    let* tts_success := play_audio tts temp_filename tts_success in
    cleanup_via temp_filename;;
    (if negb tts_success then
       emit (Print (nl +:+ "===> [SPEECH (" +:+ lang +:+ ")]: " +:+ text +:+ nl));;
       logger ERROR "All TTS methods failed - text output only"
     else ret tt);;
    ret (Some tts_success).
End SpeakVia.

(** The mixer still holds the wav file open. *)
Definition wav_held_open (path : string) : option exn :=
  if String.prefix "/tmp/tmp" path && contains ".wav" path
  then Some (Exception "[WinError 32] The process cannot access the file because it is being used by another process")
  else None.

(** ** More sample collaborators *)

(** pyttsx3 writes real audio, but the machine has no audio device. *)
Definition mute_tts : SpeechEngines :=
  mkSpeech (Raise (Exception "No module named 'win32com'"))
           (fun _ _ => (Untouched, Raise (Exception "unreachable")))
           (fun _ => (Untouched, Ret (mkProcess 1 "voice not found")))
           (Ret [])
           (fun _ _ => (Written 48000, Ret tt))
           (fun _ => Raise (Exception "No available audio device")).

(** ** More vocabulary for the request handler *)

(** The first key that [translate] fails to find: in the request, then in
    [LANGUAGES]. *)
Definition request_key_error (data : gmap string string) : option string :=
  match data !! "source" with
  | None => Some "source"
  | Some source =>
    match data !! "target" with
    | None => Some "target"
    | Some target =>
      match LANGUAGES !! source with
      | None => Some source
      | Some _ =>
        match LANGUAGES !! target with
        | None => Some target
        | Some _ => None
        end
      end
    end
  end.

(** Text of ASCII characters only. *)
Fixpoint is_ascii (s : string) : bool :=
  match s with
  | EmptyString => true
  | String c rest => (Ascii.nat_of_ascii c <? 128)%nat && is_ascii rest
  end.

(** The request names two known languages; [model_path] is where the
    recognition model of the source language is looked for. *)
Definition request_resolves (data : gmap string string)
    (source source_code target target_code model_path : string) : Prop :=
  data !! "source" = Some source /\ data !! "target" = Some target /\
  LANGUAGES !! source = Some source_code /\ LANGUAGES !! target = Some target_code /\
  MODEL_PATHS !! source_code = Some model_path.

Definition error_response (msg : string) : gmap string json :=
  {[ "error" := JStr msg ]}.

(** ** The handler with its callees left open *)

Section HandlerVia.
Variable lang_dict : gmap string Language.
Variable engine : TranslationEngine.
Variable rec : Recognizer.
(** [recognize_speech(recognizer)] and [speak_text(text, lang)], taken as
    any computations: each comes back with a result or with an
    exception. *)
Variable recognize : M string.
Variable speak : string -> string -> M (option bool).

(** The [/translate] route, lines 403-480, calling [recognize] and
    [speak]. *)
Definition translate_via (data : gmap string string) : M (gmap string json) :=
  try_except
    (let* source := dict_get data "source" in
     let* target := dict_get data "target" in
     let* source_code := dict_get LANGUAGES source in
     let* target_code := dict_get LANGUAGES target in
     logger INFO ("Translating from " +:+ source +:+ " (" +:+ source_code +:+ ") to "
                  +:+ target +:+ " (" +:+ target_code +:+ ")");;
     let* model_path := dict_get MODEL_PATHS source_code in
     let* found := os_path_exists model_path in
     if negb found then
       let error_msg := "Model for " +:+ source +:+ " not found at " +:+ model_path +:+ "!" in
       logger ERROR error_msg;;
       ret {[ "error" := JStr error_msg ]}
     else
       let* load_failed :=
         try_except
           (emit (EvModelLoad model_path);;
            lift (vosk_model rec model_path);;
            logger INFO ("Successfully loaded model from " +:+ model_path);;
            ret None)
           (fun e =>
              let error_msg := "Failed to create model: " +:+ str e in
              logger ERROR error_msg;;
              ret (Some error_msg)) in
       match load_failed with
       | Some error_msg => ret {[ "error" := JStr error_msg ]}
       | None =>
         lift (kaldi_recognizer rec);;
         let* recognized := recognize in
         logger INFO ("Recognized text: '" +:+ recognized +:+ "'");;
         if bool_decide (is_Some (lang_dict !! source_code))
            && bool_decide (is_Some (lang_dict !! target_code)) then
           try_except
             (let* translated := translate_text lang_dict engine recognized source_code target_code in
              logger INFO ("Translated text: '" +:+ translated +:+ "'");;
              speak translated target_code;;
              ret (list_to_map [("recognized", JStr recognized);
                                ("translated", JStr translated)]))
             (fun translation_error =>
                let error_msg := "Translation failed: " +:+ str translation_error in
                logger ERROR error_msg;;
                ret (list_to_map [("error", JStr error_msg);
                                  ("recognized", JStr recognized);
                                  ("can_translate", JBool false)]))
         else
           let missing := missing_models lang_dict source source_code target target_code in
           let error_msg := "Missing translation models for: " +:+ String.concat ", " missing in
           logger ERROR error_msg;;
           ret (list_to_map [("error", JStr error_msg);
                             ("recognized", JStr recognized);
                             ("can_translate", JBool false);
                             ("missing_models", JList missing)])
       end)
    (fun e =>
       let error_msg := "Error in translation route: " +:+ str e in
       logger ERROR error_msg;;
       ret {[ "error" := JStr error_msg ]}).
End HandlerVia.

(** Speech fails before it starts: the disk is full. *)
Definition disk_full_speak (text lang : string) : M (option bool) :=
  raise (Exception "[Errno 28] No space left on device").

(** The outcome of the run does not depend on the world it starts in. *)
Definition world_blind {A} (m : M A) : Prop :=
  forall w1 w2, fst (m w1) = fst (m w2).

(** The model directory is there but is not a model. *)
Definition broken_model_recognizer : Recognizer :=
  mkRecognizer (fun _ => Raise (Exception "Failed to create a model"))
               (Ret tt) (Ret tt) 0 ∅.

(** The models load, but there is no microphone. *)
Definition no_microphone_recognizer : Recognizer :=
  mkRecognizer (fun _ => Ret tt) (Ret tt)
               (Raise (Exception "Error querying device -1")) 0 ∅.

(** ** Loops *)

(** [for x in items: body], threading what the body updates. *)
Fixpoint for_each {A S} (items : list A) (body : A -> S -> M S) (s : S) : M S :=
  match items with
  | [] => ret s
  | x :: rest => let* s' := body x s in for_each rest body s'
  end.

(** ** Start-up: [initialize_translations] *)

(** [LANGUAGES.items()] and [MODEL_PATHS.items()], in the order of the
    source. *)
Definition LANGUAGE_ITEMS : list (string * string) :=
  [("English", "en"); ("Hindi", "hi"); ("Spanish", "es");
   ("German", "de"); ("Japanese", "ja"); ("Chinese", "zh")].

Definition LANGUAGE_CODES : list string := LANGUAGE_ITEMS.*2.

Definition MODEL_PATH_ITEMS : list (string * string) :=
  [("en", "models/vosk-model-small-en-us-0.15");
   ("hi", "models/vosk-model-small-hi-0.22");
   ("es", "models/vosk-model-small-es-0.42");
   ("de", "models/vosk-model-de-0.21");
   ("ja", "models/vosk-model-small-ja-0.22");
   ("zh", "models/vosk-model-small-cn-0.22")].

(** [str(l)] of a list of plain strings. *)
Definition py_list_repr (l : list string) : string :=
  "[" +:+ String.concat ", " (List.map (fun s => "'" +:+ s +:+ "'") l) +:+ "]".

(** [{lang.code: lang for lang in installed_languages}]: a later language
    replaces an earlier one with the same code. *)
Definition dict_by_code (installed_languages : list Language) : gmap string Language :=
  foldl (fun d lang => <[code lang := lang]> d) ∅ installed_languages.

Section Initialize.
Variable engine : TranslationEngine.

(** The body of the two loops, lines 74-96, on the two lists it appends
    to. *)
Definition test_pair (lang_codes : list string) (lang_dict : gmap string Language)
    (source_code target_code : string) (pairs : list string * list string)
    : M (list string * list string) :=
  let available_pairs := fst pairs in
  let missing_pairs := snd pairs in
  if bool_decide (source_code <> target_code) then
    let pair_name := source_code +:+ "-" +:+ target_code in
    if bool_decide (source_code ∉ lang_codes) || bool_decide (target_code ∉ lang_codes) then
      let missing_langs :=
        ((if bool_decide (source_code ∉ lang_codes) then [source_code] else [])
         ++ (if bool_decide (target_code ∉ lang_codes) then [target_code] else []))%list in
      ret (available_pairs,
           (missing_pairs ++ [pair_name +:+ " (missing: "
                              +:+ String.concat ", " missing_langs +:+ ")"])%list)
    else
      try_except
        (let* src := dict_get lang_dict source_code in
         let* tgt := dict_get lang_dict target_code in
         let* translation := call_get_translation engine src tgt in
         let test_text := if bool_decide (source_code = "en") then "hello" else "test" in
         let* test_result :=
           call_translate engine source_code target_code translation test_text in
         logger INFO ("Translation pair available: " +:+ pair_name);;
         ret ((available_pairs ++ [pair_name])%list, missing_pairs))
        (fun e =>
           logger WARNING ("Translation pair failed: " +:+ pair_name +:+ " - " +:+ str e);;
           ret (available_pairs,
                (missing_pairs ++ [pair_name +:+ " (error: " +:+ str e +:+ ")"])%list))
  else ret pairs.

(** [initialize_translations], lines 56-110.  [installed] is the answer of
    [argostranslate.translate.get_installed_languages()]. *)
Definition initialize_translations (installed : outcome (list Language))
    : M (gmap string Language) :=
  try_except
    (let* installed_languages := lift installed in
     let lang_codes := List.map code installed_languages in
     logger INFO ("Installed languages: " +:+ py_list_repr lang_codes);;
     let lang_dict := dict_by_code installed_languages in
     let* pairs :=
       for_each LANGUAGE_CODES
         (fun source_code =>
            for_each LANGUAGE_CODES
              (fun target_code => test_pair lang_codes lang_dict source_code target_code))
         ([], []) in
     let available_pairs := fst pairs in
     let missing_pairs := snd pairs in
     logger INFO ("Available translation pairs: " +:+ pretty (length available_pairs)
                  +:+ "/" +:+ pretty (length available_pairs + length missing_pairs));;
     logger INFO ("Available pairs: " +:+ String.concat ", " available_pairs);;
     (if bool_decide (missing_pairs <> []) then
        logger WARNING ("Missing pairs: " +:+ String.concat ", " missing_pairs);;
        logger INFO "Consider installing missing language models using: python -m argostranslate.package download-packages"
      else ret tt);;
     ret lang_dict)
    (fun e =>
       logger ERROR ("Error initializing translations: " +:+ str e);;
       ret ∅).
End Initialize.

(** An entry of [missing_pairs] for the pair [name]: the name, followed by
    a note in brackets. *)
Definition noted (entry name : string) : Prop :=
  exists note, entry = name +:+ " (" +:+ note +:+ ")".

(** From [s] to [s'] the pairs [names] have been filed: each of them has
    gone to the end of one of the two lists, once. *)
Definition pairs_filed (names : list string) (s s' : list string * list string) : Prop :=
  exists available missing missing_names,
    fst s' = (fst s ++ available)%list /\
    snd s' = (snd s ++ missing)%list /\
    Forall2 noted missing missing_names /\
    Permutation (available ++ missing_names) names.

(** How far a loop has come from [(s, w)] to [(s', w')]: the pairs [names]
    have been filed, the disk is as it was, and the trace has grown by
    events of logging and translation only. *)
Definition pairs_grew (names : list string) (s : list string * list string) (w : World)
    (s' : list string * list string) (w' : World) : Prop :=
  pairs_filed names s s' /\
  fs w' = fs w /\
  exists evs, trace w' = (trace w ++ evs)%list /\ Forall translation_side evs.

(** The pair tested for a source and a target, if any. *)
Definition pair_tested (source_code target_code : string) : list string :=
  if bool_decide (source_code <> target_code)
  then [source_code +:+ "-" +:+ target_code] else [].

(** The pairs start-up goes through, in the order of the two loops. *)
Definition ORDERED_PAIRS : list string :=
  flat_map (fun source_code => flat_map (pair_tested source_code) LANGUAGE_CODES)
           LANGUAGE_CODES.

(** The dictionary start-up leaves in [lang_dict] for an answer of
    [get_installed_languages()]. *)
Definition started_dict (installed : outcome (list Language)) : gmap string Language :=
  match installed with
  | Ret installed_languages => dict_by_code installed_languages
  | Raise _ => ∅
  end.

(** ** The diagnostic routes *)

(** A response with dictionaries inside dictionaries. *)
#[warnings="-register-all"]
Inductive jnode : Type :=
| JLeaf (v : json)
| JObj (entries : gmap string jnode).

(** [s.split(sep)] for a separator of one character. *)
Fixpoint split_on (sep : Ascii.ascii) (s : string) : list string :=
  match s with
  | EmptyString => [EmptyString]
  | String c rest =>
      if Ascii.eqb c sep then EmptyString :: split_on sep rest
      else match split_on sep rest with
           | first :: others => String c first :: others
           | [] => [String c EmptyString]
           end
  end.

(** [c.isspace()] on ASCII: tab to carriage return, the four separators
    and the blank. *)
Definition is_space (c : Ascii.ascii) : bool :=
  let n := Ascii.nat_of_ascii c in
  ((9 <=? n)%nat && (n <=? 13)%nat) || ((28 <=? n)%nat && (n <=? 32)%nat).

Fixpoint lstrip (s : string) : string :=
  match s with
  | EmptyString => EmptyString
  | String c rest => if is_space c then lstrip rest else s
  end.

(** [s.strip()], on ASCII text. *)
Definition strip (s : string) : string :=
  String.rev (lstrip (String.rev (lstrip s))).

(** What [subprocess.run(..., capture_output=True, text=True)] returns. *)
Module Captured.
Record Process : Type := mk { returncode : Z; stdout : string; stderr : string }.
End Captured.

Definition test_message : string := "eSpeak test successful".

(** The lines of [espeak --voices] kept for one language, lines 611-614. *)
Definition relevant_lines (lang_code voices_output : string) : list string :=
  List.filter (fun line => contains (" " +:+ lang_code +:+ " ") line
                           || contains (" " +:+ lang_code +:+ "_") line)
              (split_on (Ascii.ascii_of_nat 10) voices_output).

Section CheckEspeak.
(** [subprocess.run(cmd, capture_output=True, text=True)]: what the program
    does to the file named after [-w], and how the call ends; it raises
    when the program cannot be started. *)
Variable run_captured : list string -> file_effect * outcome Captured.Process.

(** The [/check_espeak] route, lines 553-629. *)
Definition check_espeak : M (gmap string jnode) :=
  try_except
    (let* found := os_path_exists ESPEAK_PATH in
     if negb found then
       ret (list_to_map
              [("installed", JLeaf (JBool false));
               ("message", JLeaf (JStr ("eSpeak not found at " +:+ ESPEAK_PATH
                                        +:+ ". Please check the path.")))])
     else
       let version_cmd := [ESPEAK_PATH; "--version"] in
       emit (EvSubprocess version_cmd);;
       let* process := lift (snd (run_captured version_cmd)) in
       if bool_decide (Captured.returncode process <> 0%Z) then
         ret (list_to_map
                [("installed", JLeaf (JBool true));
                 ("working", JLeaf (JBool false));
                 ("message", JLeaf (JStr ("eSpeak found at " +:+ ESPEAK_PATH
                                          +:+ " but not working properly: "
                                          +:+ Captured.stderr process)))])
       else
         let version_info := strip (Captured.stdout process) in
         let* test_filename := NamedTemporaryFile ".wav" in
         let test_cmd := [ESPEAK_PATH; "-v"; "en"; "-w"; test_filename; test_message] in
         emit (EvSubprocess test_cmd);;
         touch test_filename (fst (run_captured test_cmd));;
         let* test_process := lift (snd (run_captured test_cmd)) in
         if bool_decide (Captured.returncode test_process <> 0%Z) then
           ret (list_to_map
                  [("installed", JLeaf (JBool true));
                   ("working", JLeaf (JBool false));
                   ("version", JLeaf (JStr version_info));
                   ("message", JLeaf (JStr ("eSpeak found but couldn't generate audio: "
                                            +:+ Captured.stderr test_process)))])
         else
           os_unlink test_filename;;
           let voices_cmd := [ESPEAK_PATH; "--voices"] in
           emit (EvSubprocess voices_cmd);;
           let* voices_process := lift (snd (run_captured voices_cmd)) in
           let voices_output :=
             if bool_decide (Captured.returncode voices_process = 0%Z)
             then Captured.stdout voices_process else "Could not list voices" in
           let relevant_voices :=
             foldl (fun (d : gmap string jnode) (item : string * string) =>
                      if bool_decide (voices_output <> "Could not list voices")
                      then <[snd item := JLeaf (JList (relevant_lines (snd item) voices_output))]> d
                      else d)
                   ∅ LANGUAGE_ITEMS in
           ret (list_to_map
                  [("installed", JLeaf (JBool true));
                   ("working", JLeaf (JBool true));
                   ("version", JLeaf (JStr version_info));
                   ("path", JLeaf (JStr ESPEAK_PATH));
                   ("relevant_voices", JObj relevant_voices)]))
    (fun e =>
       ret (list_to_map
              [("installed", JLeaf (JBool false));
               ("error", JLeaf (JStr (str e)));
               ("message", JLeaf (JStr ("Error checking eSpeak installation: "
                                        +:+ str e)))])).
End CheckEspeak.

(** eSpeak as installed and working: it answers its version and a voice
    list, and writes the wav it is asked for. *)
Definition working_espeak (cmd : list string) : file_effect * outcome Captured.Process :=
  match cmd with
  | [_; "--version"] =>
      (Untouched, Ret (Captured.mk 0 ("eSpeak text-to-speech: 1.48.03  04.Mar.14" +:+ nl) ""))
  | [_; "--voices"] =>
      (Untouched,
       Ret (Captured.mk 0 ("Pty Language Age/Gender VoiceName" +:+ nl
                           +:+ " 5  en             M  default" +:+ nl
                           +:+ " 5  hi             M  hindi" +:+ nl
                           +:+ " 5  es             M  spanish" +:+ nl) ""))
  | _ => (Written 44100, Ret (Captured.mk 0 "" ""))
  end.

(** eSpeak that answers its version but fails to synthesise. *)
Definition voiceless_espeak (cmd : list string) : file_effect * outcome Captured.Process :=
  match cmd with
  | [_; "--version"] =>
      (Untouched, Ret (Captured.mk 0 ("eSpeak text-to-speech: 1.48.03  04.Mar.14" +:+ nl) ""))
  | _ => (Untouched, Ret (Captured.mk 1 "" "voice 'en' not found"))
  end.

(** A disk on which only the eSpeak program is found. *)
Definition espeak_world : World := mkWorld {[ ESPEAK_PATH := 200000%N ]} 0 [].

(** ** The [/check_models] route *)

Section CheckModels.
Variable lang_dict : gmap string Language.
Variable engine : TranslationEngine.
(** [pyttsx3.init()] and the ids of [engine.getProperty('voices')]. *)
Variable pyttsx3_voice_ids : outcome (list string).

(** Lines 488-492: one entry of [available_models]. *)
Definition check_model_path (item : string * string) (available_models : gmap string jnode)
    : M (gmap string jnode) :=
  let lang_code := fst item in
  let path := snd item in
  let* found := os_path_exists path in
  ret (<[lang_code := JObj (list_to_map [("speech_recognition", JLeaf (JBool found));
                                         ("path", JLeaf (JStr path))])]>
         available_models).

(** Lines 498-515: one entry of [translation_capabilities]. *)
Definition check_pair (source target : string)
    (translation_capabilities : gmap string jnode) : M (gmap string jnode) :=
  if bool_decide (source <> target) then
    let source_available := bool_decide (is_Some (lang_dict !! source)) in
    let target_available := bool_decide (is_Some (lang_dict !! target)) in
    let* can_translate :=
      if source_available && target_available then
        try_except
          (let* src := dict_get lang_dict source in
           let* tgt := dict_get lang_dict target in
           let* translation := call_get_translation engine src tgt in
           ret true)
          (fun _ => ret false)
      else ret false in
    let key := source +:+ "-" +:+ target in
    ret (<[key := JObj (list_to_map
                          [("source_available", JLeaf (JBool source_available));
                           ("target_available", JLeaf (JBool target_available));
                           ("can_translate", JLeaf (JBool can_translate))])]>
           translation_capabilities)
  else ret translation_capabilities.

(** Lines 529-543: one entry of [tts_capabilities]. *)
Definition tts_entry (espeak_available voice_found : bool) (lang_code : string)
    (tts_capabilities : gmap string jnode) : M (gmap string jnode) :=
  ret (<[lang_code := JObj (list_to_map [("espeak", JLeaf (JBool espeak_available));
                                         ("pyttsx3", JLeaf (JBool voice_found))])]>
         tts_capabilities).

(** The [/check_models] route, lines 482-551. *)
Definition check_models : M (gmap string jnode) :=
  let* available_models := for_each MODEL_PATH_ITEMS check_model_path ∅ in
  let* translation_capabilities :=
    for_each LANGUAGE_CODES
      (fun source => for_each LANGUAGE_CODES (fun target => check_pair source target)) ∅ in
  let* espeak_available := os_path_exists ESPEAK_PATH in
  let* tts_capabilities :=
    try_except
      (emit EvPyttsx3Init;;
       let* voices := lift pyttsx3_voice_ids in
       for_each LANGUAGE_CODES
         (fun lang_code =>
            tts_entry espeak_available
                      (existsb (fun id => contains lang_code (lower id)) voices) lang_code)
         ∅)
      (fun e =>
         logger ERROR ("Error checking TTS capabilities: " +:+ str e);;
         for_each LANGUAGE_CODES (tts_entry espeak_available false) ∅) in
  ret (list_to_map
         [("speech_recognition_models", JObj available_models);
          ("translation_capabilities", JObj translation_capabilities);
          ("tts_capabilities", JObj tts_capabilities);
          ("espeak_installed", JLeaf (JBool espeak_available));
          ("espeak_path", JLeaf (JStr ESPEAK_PATH))]).
End CheckModels.

(** Reading a report: the dictionary under a key, and a flag in it. *)
Definition jobj (d : gmap string jnode) (key : string) : option (gmap string jnode) :=
  match d !! key with
  | Some (JObj entries) => Some entries
  | _ => None
  end.

Definition jflag (d : gmap string jnode) (key : string) : option bool :=
  match d !! key with
  | Some (JLeaf (JBool b)) => Some b
  | _ => None
  end.

(** What [check_models] may do besides reading the disk: ask the engine
    for a translation object, initialise pyttsx3, and log. *)
Definition is_probe_event (e : event) : bool :=
  match e with
  | EvGetTranslation _ _ | EvPyttsx3Init | Log _ _ => true
  | _ => false
  end.

(** ** The stand-alone checker, [model_check.py] *)

(** The check mark and the cross of the checker's lines, in UTF-8. *)
Definition check_mark : string :=
  String (Ascii.ascii_of_nat 226) (String (Ascii.ascii_of_nat 156)
    (String (Ascii.ascii_of_nat 147) EmptyString)).

Definition cross_mark : string :=
  String (Ascii.ascii_of_nat 226) (String (Ascii.ascii_of_nat 156)
    (String (Ascii.ascii_of_nat 151) EmptyString)).

(** [model_paths.items()] of [check_vosk_models], lines 9-16. *)
Definition CHECKER_MODEL_PATH_ITEMS : list (string * string) :=
  [("en", "models/vosk-model-small-en-us-0.15");
   ("hi", "models/vosk-model-small-hi-0.22");
   ("es", "models/vosk-model-small-es-0.42");
   ("de", "models/vosk-model-small-de-0.15");
   ("ja", "models/vosk-model-small-ja-0.22");
   ("zh", "models/vosk-model-small-cn-0.22")].

Section CheckVosk.
Variable rec : Recognizer.
(** [os.getcwd()] *)
Variable cwd : string.

(** Lines 21-29: the body of the loop. *)
Definition check_vosk_model (item : string * string) (_ : unit) : M unit :=
  let lang := fst item in
  let path := snd item in
  let* found := os_path_exists path in
  if found then
    emit (Print (check_mark +:+ " " +:+ lang +:+ ": Model found at " +:+ path));;
    try_except
      (emit (EvModelLoad path);;
       lift (vosk_model rec path);;
       emit (Print ("  " +:+ check_mark +:+ " Model loaded successfully")))
      (fun e =>
         emit (Print ("  " +:+ cross_mark +:+ " Failed to load model: " +:+ str e)))
  else
    emit (Print (cross_mark +:+ " " +:+ lang +:+ ": Model NOT found at " +:+ path)).

(** [check_vosk_models], lines 7-31. *)
Definition check_vosk_models : M unit :=
  emit (Print "=== VOSK MODEL CHECK ===");;
  emit (Print ("Current working directory: " +:+ cwd));;
  for_each CHECKER_MODEL_PATH_ITEMS check_vosk_model tt;;
  emit (Print (nl +:+ "If models are missing, download them from: https://alphacephei.com/vosk/models")).
End CheckVosk.

(** The lines and the load of the checker for one model that is found and
    loads. *)
Definition model_found_lines (item : string * string) : list event :=
  [Print (check_mark +:+ " " +:+ fst item +:+ ": Model found at " +:+ snd item);
   EvModelLoad (snd item);
   Print ("  " +:+ check_mark +:+ " Model loaded successfully")].

(** A disk with the models the checker looks for, and the program. *)
Definition checker_world : World :=
  mkWorld (list_to_map (List.map (fun item => (snd item, 4096%N)) CHECKER_MODEL_PATH_ITEMS))
          0 [].

(** What the checker may do: print, and load a model that is on disk. *)
Definition checker_event (files : gmap string N) (e : event) : Prop :=
  match e with
  | Print _ => True
  | EvModelLoad path => is_Some (files !! path)
  | _ => False
  end.

(** Whether [lang_dict[source].get_translation(lang_dict[target])] comes
    back without an exception. *)
Definition can_translate_pair (lang_dict : gmap string Language)
    (engine : TranslationEngine) (source target : string) : bool :=
  match lang_dict !! source, lang_dict !! target with
  | Some src, Some tgt =>
      match get_translation engine src tgt with
      | Ret _ => true
      | Raise _ => false
      end
  | _, _ => false
  end.

(** The entry of [translation_capabilities] for one pair. *)
Definition pair_entry (lang_dict : gmap string Language)
    (engine : TranslationEngine) (source target : string) : jnode :=
  JObj (list_to_map
          [("source_available", JLeaf (JBool (bool_decide (is_Some (lang_dict !! source)))));
           ("target_available", JLeaf (JBool (bool_decide (is_Some (lang_dict !! target)))));
           ("can_translate", JLeaf (JBool (can_translate_pair lang_dict engine source target)))]).

(** The pairs the two loops have gone through when the outer loop has
    finished [sources]. *)
Definition pairs_of (sources : list string) : list (string * string) :=
  flat_map (fun source => List.map (fun target => (source, target)) LANGUAGE_CODES) sources.

(** [available_models] and [tts_capabilities] as the loops build them. *)
Definition model_entries (files : gmap string N) : gmap string jnode :=
  foldl (fun d item =>
           <[fst item := JObj (list_to_map
                                 [("speech_recognition",
                                   JLeaf (JBool (bool_decide (is_Some (files !! snd item)))));
                                  ("path", JLeaf (JStr (snd item)))])]> d)
        ∅ MODEL_PATH_ITEMS.

Definition tts_entries (espeak_available : bool) (voice_found : string -> bool)
    : gmap string jnode :=
  foldl (fun d lang_code =>
           <[lang_code := JObj (list_to_map
                                  [("espeak", JLeaf (JBool espeak_available));
                                   ("pyttsx3", JLeaf (JBool (voice_found lang_code)))])]> d)
        ∅ LANGUAGE_CODES.

(** Whether [any(lang_code in voice.id.lower() for voice in voices)]
    holds; after a failure of pyttsx3 no voice counts as found. *)
Definition pyttsx3_voice_found (pyttsx3_voice_ids : outcome (list string))
    (lang_code : string) : bool :=
  match pyttsx3_voice_ids with
  | Ret voices => existsb (fun id => contains lang_code (lower id)) voices
  | Raise _ => false
  end.

(** * Properties *)

(** ** The monad: runs that cannot raise *)

Lemma ret_returns {A} (a : A) : returns (ret a).
Proof. intros w. by exists a, w. Qed.

Lemma emit_returns (e : event) : returns (emit e).
Proof. intros w. by eexists _, _. Qed.

Lemma logger_returns lv msg : returns (logger lv msg).
Proof. apply emit_returns. Qed.

Lemma touch_returns path eff : returns (touch path eff).
Proof. intros w. by eexists _, _. Qed.

Lemma bind_returns {A B} (m : M A) (k : A -> M B) :
  returns m -> (forall a, returns (k a)) -> returns (bind m k).
Proof.
  intros Hm Hk w. unfold bind.
  destruct (Hm w) as (a & w1 & ->). apply Hk.
Qed.

Lemma try_except_returns {A} (body : M A) (handler : exn -> M A) :
  (forall e, returns (handler e)) -> returns (try_except body handler).
Proof.
  intros Hh w. unfold try_except.
  destruct (body w) as [[a|e] w1]; [by exists a, w1 | apply Hh].
Qed.

Lemma NamedTemporaryFile_returns suffix : returns (NamedTemporaryFile suffix).
Proof. intros w. by eexists _, _. Qed.

Lemma os_path_exists_returns path : returns (os_path_exists path).
Proof. intros w. by eexists _, _. Qed.

Create HintDb py_returns.
#[local] Hint Resolve ret_returns emit_returns logger_returns touch_returns
  NamedTemporaryFile_returns os_path_exists_returns : py_returns.

Ltac returns_tac :=
  repeat first
    [ apply try_except_returns; intros
    | apply bind_returns; intros
    | progress auto with py_returns
    | match goal with |- returns (if ?b then _ else _) => destruct b end
    | match goal with |- returns (match ?x with _ => _ end) => destruct x end ].

(** ** Traces *)

Lemma emitted_app w w' evs : trace w' = (trace w ++ evs)%list -> emitted w w' = evs.
Proof. unfold emitted. intros ->. apply drop_app_length. Qed.

Lemma emitted_refl w : emitted w w = [].
Proof. unfold emitted. apply drop_all. Qed.

Ltac py_unfold :=
  unfold try_except, bind, call_get_translation, call_translate, dict_get,
         lift, emit, logger, touch, ret, raise in *.

Ltac trace_norm := simpl; rewrite <- ?app_assoc; simpl.

(** Read off the events of a run whose final trace is written out. *)
Ltac trace_leaf := erewrite emitted_app by (trace_norm; reflexivity).

(** Ask the translation engine for its next answer. *)
Ltac ask_engine :=
  match goal with
  | |- context [get_translation ?e ?a ?b] =>
      destruct (get_translation e a b) eqn:?; simpl in *
  | |- context [translate_run ?e ?t ?x] =>
      destruct (translate_run e t x) eqn:?; simpl in *
  end.

(** [H : ev ∈ [e1; ...; en]] where [ev] differs from every [ei]. *)
Ltac not_among H :=
  repeat (apply elem_of_cons in H as [H|H];
          [try discriminate H; injection H as H; simpl in H; discriminate H|]);
  apply elem_of_nil in H; destruct H.

(** ** Runs whose events all satisfy a predicate *)

Section EmitsOnly.
Variable P : event -> Prop.

Lemma silent_emits_only {A} (m : M A) :
  (forall w, trace (snd (m w)) = trace w) -> emits_only P m.
Proof. intros H w. exists []. by rewrite H, app_nil_r. Qed.

Lemma ret_emits_only {A} (a : A) : emits_only P (ret a).
Proof. by apply silent_emits_only. Qed.

Lemma raise_emits_only {A} e : emits_only P (@raise A e).
Proof. by apply silent_emits_only. Qed.

Lemma lift_emits_only {A} (o : outcome A) : emits_only P (lift o).
Proof. by apply silent_emits_only. Qed.

Lemma touch_emits_only path eff : emits_only P (touch path eff).
Proof. by apply silent_emits_only. Qed.

Lemma dict_get_emits_only {V} (d : gmap string V) k : emits_only P (dict_get d k).
Proof. apply silent_emits_only. intros w. unfold dict_get. by destruct (d !! k). Qed.

Lemma NamedTemporaryFile_emits_only suffix : emits_only P (NamedTemporaryFile suffix).
Proof. by apply silent_emits_only. Qed.

Lemma os_path_exists_emits_only path : emits_only P (os_path_exists path).
Proof. by apply silent_emits_only. Qed.

Lemma os_path_getsize_emits_only path : emits_only P (os_path_getsize path).
Proof.
  apply silent_emits_only. intros w. unfold os_path_getsize. by destruct (fs w !! path).
Qed.

Lemma os_unlink_emits_only path : emits_only P (os_unlink path).
Proof.
  apply silent_emits_only. intros w. unfold os_unlink. by destruct (fs w !! path).
Qed.

Lemma emit_emits_only e : P e -> emits_only P (emit e).
Proof. intros He w. exists [e]. split; [done | by constructor]. Qed.

Lemma logger_emits_only lv msg : P (Log lv msg) -> emits_only P (logger lv msg).
Proof. apply emit_emits_only. Qed.

Lemma bind_emits_only {A B} (m : M A) (k : A -> M B) :
  emits_only P m -> (forall a, emits_only P (k a)) -> emits_only P (bind m k).
Proof.
  intros Hm Hk w. unfold bind.
  destruct (Hm w) as (evs1 & Ht1 & HP1).
  destruct (m w) as [[a|e] w1]; simpl in *.
  - destruct (Hk a w1) as (evs2 & Ht2 & HP2).
    exists (evs1 ++ evs2)%list. split.
    + by rewrite Ht2, Ht1, app_assoc.
    + by apply Forall_app.
  - by exists evs1.
Qed.

Lemma try_except_emits_only {A} (body : M A) (handler : exn -> M A) :
  emits_only P body -> (forall e, emits_only P (handler e)) ->
  emits_only P (try_except body handler).
Proof.
  intros Hm Hk w. unfold try_except.
  destruct (Hm w) as (evs1 & Ht1 & HP1).
  destruct (body w) as [[a|e] w1]; simpl in *.
  - by exists evs1.
  - destruct (Hk e w1) as (evs2 & Ht2 & HP2).
    exists (evs1 ++ evs2)%list. split.
    + by rewrite Ht2, Ht1, app_assoc.
    + by apply Forall_app.
Qed.

Lemma exists_and_big_emits_only path : emits_only P (exists_and_big path).
Proof.
  apply bind_emits_only; [apply os_path_exists_emits_only|].
  intros []; [|apply ret_emits_only].
  apply bind_emits_only; [apply os_path_getsize_emits_only|].
  intros; apply ret_emits_only.
Qed.

Lemma wait_while_busy_emits_only polls :
  P EvSleep -> emits_only P (wait_while_busy polls).
Proof.
  intros HP. induction polls as [|n IH]; simpl.
  - apply ret_emits_only.
  - apply bind_emits_only; [by apply emit_emits_only | done].
Qed.

Lemma feed_chunks_emits_only pending :
  P EvChunk -> emits_only P (feed_chunks pending).
Proof.
  intros HP. induction pending as [|n IH]; simpl.
  - apply ret_emits_only.
  - apply bind_emits_only; [by apply emit_emits_only | done].
Qed.
End EmitsOnly.

(** An event of the first part of a sequence is an event of the whole. *)
Lemma bind_emitted_first P {A B} (m : M A) (k : A -> M B) e w :
  emits_only P m -> (forall a, emits_only P (k a)) ->
  e ∈ emitted w (snd (m w)) -> e ∈ emitted w (snd (bind m k w)).
Proof.
  intros Hm Hk. unfold bind.
  destruct (Hm w) as (evs1 & Ht1 & _).
  destruct (m w) as [[a|x] w1]; cbn [snd] in *; [|done].
  destruct (Hk a w1) as (evs2 & Ht2 & _).
  rewrite (emitted_app _ _ _ Ht1).
  rewrite Ht1, <- app_assoc in Ht2. rewrite (emitted_app _ _ _ Ht2).
  intros He. apply elem_of_app. by left.
Qed.

(** An event of the second part is an event of the whole, if the first
    part lets the second run. *)
Lemma bind_emitted_later P {A B} (m : M A) (k : A -> M B) e w :
  returns m -> emits_only P m -> (forall a, emits_only P (k a)) ->
  (forall a w1, e ∈ emitted w1 (snd (k a w1))) ->
  e ∈ emitted w (snd (bind m k w)).
Proof.
  intros Hr Hm Hk He. unfold bind.
  destruct (Hm w) as (evs1 & Ht1 & _).
  destruct (Hr w) as (a & w1 & Hrun). rewrite Hrun in *. cbn [snd] in *.
  specialize (He a w1).
  destruct (Hk a w1) as (evs2 & Ht2 & _).
  rewrite (emitted_app _ _ _ Ht2) in He.
  rewrite Ht1, <- app_assoc in Ht2. rewrite (emitted_app _ _ _ Ht2).
  apply elem_of_app. by right.
Qed.

Ltac emits_only_tac :=
  repeat first
    [ apply try_except_emits_only; intros
    | apply bind_emits_only; intros
    | apply ret_emits_only | apply raise_emits_only | apply lift_emits_only
    | apply touch_emits_only | apply dict_get_emits_only
    | apply NamedTemporaryFile_emits_only | apply exists_and_big_emits_only
    | apply os_path_exists_emits_only | apply os_path_getsize_emits_only
    | apply os_unlink_emits_only
    | apply wait_while_busy_emits_only; done
    | apply feed_chunks_emits_only; done
    | apply logger_emits_only; done
    | apply emit_emits_only; done
    | match goal with |- emits_only _ (if ?b then _ else _) => destruct b end
    | match goal with |- emits_only _ (match ?x with _ => _ end) => destruct x end ].

(** ** [translate_text] *)

Section TranslateProperties.
Variable lang_dict : gmap string Language.
Variable engine : TranslationEngine.

Lemma translate_text_returns text source target :
  returns (translate_text lang_dict engine text source target).
Proof. unfold translate_text. returns_tac. Qed.

Lemma translate_text_empty source target w :
  translate_text lang_dict engine "" source target w = (Ret "No text recognized", w).
Proof. reflexivity. Qed.

Lemma translate_text_same text lang w :
  text <> "" ->
  translate_text lang_dict engine text lang lang w = (Ret text, w).
Proof.
  intros Htext. unfold translate_text.
  rewrite bool_decide_eq_false_2 by done.
  by rewrite bool_decide_eq_true_2.
Qed.

Lemma translate_text_both_fail text source target src tgt e w :
  text <> "" -> source <> target ->
  lang_dict !! source = Some src -> lang_dict !! target = Some tgt ->
  engine_translate engine src tgt text = Raise e ->
  (source = "en" \/ target = "en" \/ lang_dict !! "en" = None \/
   exists en e2, lang_dict !! "en" = Some en /\
     (engine_translate engine src en text = Raise e2 \/
      exists mid, engine_translate engine src en text = Ret mid /\
                  engine_translate engine en tgt mid = Raise e2)) ->
  fst (translate_text lang_dict engine text source target w)
  = Ret ("[Translation Failed: " +:+ str e +:+ "]").
Proof.
  intros Htext Hne Hs Ht Hd Hp. unfold translate_text, engine_translate in *.
  rewrite (bool_decide_eq_false_2 (text = "")) by done.
  rewrite (bool_decide_eq_false_2 (source = target)) by done.
  rewrite (bool_decide_eq_false_2 (lang_dict !! source = None)) by congruence.
  rewrite (bool_decide_eq_false_2 (lang_dict !! target = None)) by congruence.
  py_unfold. rewrite Hs, Ht. simpl.
  destruct (bool_decide (source <> "en") && bool_decide (target <> "en")) eqn:Hpivot.
  - apply andb_true_iff in Hpivot as [H1%bool_decide_eq_true H2%bool_decide_eq_true].
    destruct Hp as [?|[?|[Hen|(en & e2 & Hen & Hp)]]]; try done; rewrite Hen.
    + repeat ask_engine; congruence.
    + destruct Hp as [Hp|(mid & Hp1 & Hp2)]; repeat ask_engine; congruence.
  - repeat ask_engine; congruence.
Qed.

Lemma two_step_attempted_iff text source target w :
  two_step_banner ∈ emitted w (snd (translate_text lang_dict engine text source target w))
  <-> direct_failed lang_dict engine text source target /\ source <> "en" /\ target <> "en".
Proof.
  unfold translate_text, direct_failed, two_step_banner.
  case_bool_decide as Htext.
  { simpl. rewrite emitted_refl. split; [intros []%elem_of_nil | by intros [[? _] _]]. }
  case_bool_decide as Hne.
  { simpl. rewrite emitted_refl. split; [intros []%elem_of_nil | by intros [(_ & ? & _) _]]. }
  destruct (lang_dict !! source) as [src|] eqn:Hs.
  2:{ rewrite bool_decide_eq_true_2 by done. py_unfold. simpl.
      erewrite emitted_app by (trace_norm; reflexivity).
      split; [intros H; not_among H | intros [(_ & _ & ? & ? & ? & ? & _) _]; done]. }
  rewrite (bool_decide_eq_false_2 (Some src = None)) by done.
  destruct (lang_dict !! target) as [tgt|] eqn:Ht.
  2:{ rewrite bool_decide_eq_true_2 by done. py_unfold. simpl.
      erewrite emitted_app by (trace_norm; reflexivity).
      split; [intros H; not_among H | intros [(_ & _ & ? & ? & ? & ? & ? & _) _]; done]. }
  rewrite (bool_decide_eq_false_2 (Some tgt = None)) by done.
  py_unfold. rewrite Hs, Ht. simpl.
  assert (Hdirect : engine_translate engine src tgt text
                    = engine_translate engine src tgt text) by done.
  unfold engine_translate at 2 in Hdirect.
  destruct (get_translation engine src tgt) as [t|e] eqn:Hg; simpl;
    [destruct (translate_run engine t text) as [r|e] eqn:Hr; simpl|].
  - (* the direct attempt succeeds *)
    erewrite emitted_app by (trace_norm; reflexivity).
    split; [intros H; by not_among H|].
    intros ((_ & _ & s' & t' & e' & ? & ? & He') & _ & _). simplify_eq. congruence.
  - (* [translate] raises *)
    destruct (bool_decide (source <> "en") && bool_decide (target <> "en")) eqn:Hpivot.
    + apply andb_true_iff in Hpivot as [H1%bool_decide_eq_true H2%bool_decide_eq_true].
      destruct (lang_dict !! "en") as [en|] eqn:Hen; repeat ask_engine;
        (erewrite emitted_app by (trace_norm; reflexivity));
        (split; [intros _; naive_solver | intros _; by repeat constructor]).
    + apply andb_false_iff in Hpivot.
      erewrite emitted_app by (trace_norm; reflexivity).
      split; [intros H; by not_among H | intros (_ & ? & ?)].
      by destruct Hpivot as [Hp%bool_decide_eq_false|Hp%bool_decide_eq_false].
  - (* [get_translation] raises *)
    destruct (bool_decide (source <> "en") && bool_decide (target <> "en")) eqn:Hpivot.
    + apply andb_true_iff in Hpivot as [H1%bool_decide_eq_true H2%bool_decide_eq_true].
      destruct (lang_dict !! "en") as [en|] eqn:Hen; repeat ask_engine;
        (erewrite emitted_app by (trace_norm; reflexivity));
        (split; [intros _; naive_solver | intros _; by repeat constructor]).
    + apply andb_false_iff in Hpivot.
      erewrite emitted_app by (trace_norm; reflexivity).
      split; [intros H; by not_among H | intros (_ & ? & ?)].
      by destruct Hpivot as [Hp%bool_decide_eq_false|Hp%bool_decide_eq_false].
Qed.

Lemma translate_text_two_step text source target src tgt en e mid res w :
  text <> "" -> source <> target ->
  lang_dict !! source = Some src -> lang_dict !! target = Some tgt ->
  lang_dict !! "en" = Some en ->
  source <> "en" -> target <> "en" ->
  engine_translate engine src tgt text = Raise e ->
  engine_translate engine src en text = Ret mid ->
  engine_translate engine en tgt mid = Ret res ->
  fst (translate_text lang_dict engine text source target w) = Ret res /\
  exists pre,
    emitted w (snd (translate_text lang_dict engine text source target w))
    = (pre ++ [two_step_banner;
               EvGetTranslation (code src) (code en);
               EvTranslate source "en" text;
               Log INFO ("First step: " +:+ source +:+ " -> en: '" +:+ mid +:+ "'");
               EvGetTranslation (code en) (code tgt);
               EvTranslate "en" target mid;
               Log INFO ("Second step: en -> " +:+ target +:+ ": '" +:+ res +:+ "'")])%list.
Proof.
  intros Htext Hne Hs Ht Hen Hs_en Ht_en Hd H1 H2.
  unfold translate_text, engine_translate, two_step_banner in *.
  rewrite (bool_decide_eq_false_2 (text = "")) by done.
  rewrite (bool_decide_eq_false_2 (source = target)) by done.
  rewrite (bool_decide_eq_false_2 (lang_dict !! source = None)) by congruence.
  rewrite (bool_decide_eq_false_2 (lang_dict !! target = None)) by congruence.
  rewrite (bool_decide_eq_true_2 (source <> "en")) by done.
  rewrite (bool_decide_eq_true_2 (target <> "en")) by done.
  py_unfold. rewrite Hs, Ht, Hen. simpl.
  destruct (get_translation engine src en) as [t1|] eqn:Hg1; [|done].
  destruct (get_translation engine en tgt) as [t2|] eqn:Hg2; [|done].
  simpl in *. rewrite H1. simpl. rewrite H2. simpl.
  destruct (get_translation engine src tgt) as [t|] eqn:Hg; simpl;
    [rewrite Hd; simpl|];
    (split; [done|]);
    (erewrite emitted_app by (trace_norm; reflexivity)).
  - by exists [EvGetTranslation (code src) (code tgt); EvTranslate source target text;
               Log WARNING ("Direct translation failed: " +:+ str e)].
  - simplify_eq.
    by exists [EvGetTranslation (code src) (code tgt);
               Log WARNING ("Direct translation failed: " +:+ str e)].
Qed.
End TranslateProperties.

Lemma file_is_big_spec files path : file_is_big files path = true <-> big_file files path.
Proof.
  unfold file_is_big, big_file. destruct (files !! path) as [n|].
  - rewrite N.ltb_lt. split.
    + intros Hbig. by exists n.
    + by intros (size & [= <-] & Hbig).
  - split; [done | by intros (size & Hnone & _)].
Qed.

Lemma exists_and_big_run path w :
  exists_and_big path w = (Ret (file_is_big (fs w) path), w).
Proof.
  unfold exists_and_big, file_is_big, bind, os_path_exists, os_path_getsize, ret.
  destruct (fs w !! path) as [n|] eqn:Hp.
  - rewrite bool_decide_eq_true_2 by done. by rewrite Hp.
  - rewrite bool_decide_eq_false_2; [done|]. by intros [? ?].
Qed.

(** ** Postconditions of a run *)

Lemma post_bind {A B} (m : M A) (k : A -> M B) w Q :
  post m w (fun o w1 => match o with
                        | Ret a => post (k a) w1 Q
                        | Raise e => Q (Raise e) w1
                        end) ->
  post (bind m k) w Q.
Proof. unfold post, bind. by destruct (m w) as [[a|e] w1]. Qed.

Lemma post_try {A} (body : M A) (handler : exn -> M A) w Q :
  post body w (fun o w1 => match o with
                           | Ret a => Q (Ret a) w1
                           | Raise e => post (handler e) w1 Q
                           end) ->
  post (try_except body handler) w Q.
Proof. unfold post, try_except. by destruct (body w) as [[a|e] w1]. Qed.

Lemma post_ret {A} (a : A) w Q : Q (Ret a) w -> post (ret a) w Q.
Proof. done. Qed.

Lemma post_raise {A} e w (Q : outcome A -> World -> Prop) :
  Q (Raise e) w -> post (raise e) w Q.
Proof. done. Qed.

Lemma post_lift {A} (o : outcome A) w Q : Q o w -> post (lift o) w Q.
Proof. done. Qed.

Lemma post_emit e w Q :
  Q (Ret tt) (mkWorld (fs w) (tmp_counter w) (trace w ++ [e])) -> post (emit e) w Q.
Proof. done. Qed.

Lemma post_touch path eff w Q :
  Q (Ret tt) (mkWorld (apply_effect path eff (fs w)) (tmp_counter w) (trace w)) ->
  post (touch path eff) w Q.
Proof. done. Qed.

Lemma post_exists_and_big path w Q :
  Q (Ret (file_is_big (fs w) path)) w -> post (exists_and_big path) w Q.
Proof. unfold post. by rewrite exists_and_big_run. Qed.

Lemma post_NamedTemporaryFile suffix w Q :
  Q (Ret (tmp_name (tmp_counter w) suffix))
    (mkWorld (<[tmp_name (tmp_counter w) suffix := 0%N]> (fs w))
             (S (tmp_counter w)) (trace w)) ->
  post (NamedTemporaryFile suffix) w Q.
Proof. done. Qed.

Lemma post_os_unlink path w Q :
  match fs w !! path with
  | Some _ => Q (Ret tt) (mkWorld (delete path (fs w)) (tmp_counter w) (trace w))
  | None => Q (Raise (Exception ("No such file or directory: '" +:+ path +:+ "'"))) w
  end ->
  post (os_unlink path) w Q.
Proof. unfold post, os_unlink. by destruct (fs w !! path). Qed.

Lemma post_os_path_exists path w Q :
  match fs w !! path with
  | Some _ => Q (Ret true) w
  | None => Q (Ret false) w
  end ->
  post (os_path_exists path) w Q.
Proof.
  unfold post, os_path_exists. destruct (fs w !! path) eqn:Hfile; cbn [fst snd].
  - by rewrite bool_decide_eq_true_2.
  - by rewrite bool_decide_eq_false_2 by (by intros [? ?]).
Qed.

Lemma post_dict_get {V} (d : gmap string V) k w Q :
  match d !! k with
  | Some v => Q (Ret v) w
  | None => Q (Raise (KeyError k)) w
  end ->
  post (dict_get d k) w Q.
Proof. unfold post, dict_get. by destruct (d !! k). Qed.

Lemma post_mono {A} (m : M A) w (Q Q' : outcome A -> World -> Prop) :
  post m w Q -> (forall o w', Q o w' -> Q' o w') -> post m w Q'.
Proof. unfold post. auto. Qed.

Lemma cleanup_run temp_filename w :
  cleanup temp_filename w
  = (Ret tt, mkWorld (delete temp_filename (fs w)) (tmp_counter w) (trace w)).
Proof.
  unfold cleanup, try_except, bind, os_path_exists, os_unlink, ret.
  destruct (fs w !! temp_filename) as [size|] eqn:Hfile.
  - rewrite bool_decide_eq_true_2 by done. by rewrite Hfile.
  - rewrite bool_decide_eq_false_2 by (by intros [? ?]).
    rewrite delete_id by done. by destruct w.
Qed.

Lemma post_cleanup temp_filename w Q :
  Q (Ret tt) (mkWorld (delete temp_filename (fs w)) (tmp_counter w) (trace w)) ->
  post (cleanup temp_filename) w Q.
Proof. unfold post. by rewrite cleanup_run. Qed.

Ltac post_step :=
  lazymatch goal with
  | |- post (bind _ _) _ _ => apply post_bind
  | |- post (try_except _ _) _ _ => apply post_try
  | |- post (ret _) _ _ => apply post_ret
  | |- post (raise _) _ _ => apply post_raise
  | |- post (emit _) _ _ => apply post_emit
  | |- post (logger _ _) _ _ => apply post_emit
  | |- post (touch _ _) _ _ => apply post_touch
  | |- post (write_close _ _) _ _ => apply post_touch
  | |- post (exists_and_big _) _ _ => apply post_exists_and_big
  | |- post (NamedTemporaryFile _) _ _ => apply post_NamedTemporaryFile
  | |- post (cleanup _) _ _ => apply post_cleanup
  | |- post (os_path_exists _) _ _ => apply post_os_path_exists
  | |- post (os_unlink _) _ _ => apply post_os_unlink
  | |- post (dict_get _ _) _ _ => apply post_dict_get
  | |- post (lift ?o) _ _ => apply post_lift; destruct o eqn:?
  | |- post (if ?b then _ else _) _ _ => destruct b eqn:?
  | |- post (match ?x with _ => _ end) _ _ => destruct x eqn:?
  | |- match ?x with _ => _ end => destruct x eqn:?
  end; cbn [fs tmp_counter trace negb].


Lemma post_of_returns {A} (m : M A) w Q :
  returns m -> (forall a w', Q (Ret a) w') -> post m w Q.
Proof. intros Hm HQ. unfold post. destruct (Hm w) as (a & w' & ->). apply HQ. Qed.

Section SpeakProperties.
Variable tts : SpeechEngines.

Lemma ms_speak_verified text lang output_file w :
  post (ms_speak tts text lang output_file) w (stage_post output_file).
Proof.
  unfold ms_speak, stage_post. repeat post_step;
    (eexists; split; [reflexivity|]); try done;
    intros Hb%file_is_big_spec; exact Hb.
Qed.

Lemma try_ms_speech_verified text lang temp_filename w :
  post (try_ms_speech tts text lang temp_filename false) w (stage_post temp_filename).
Proof.
  unfold try_ms_speech. cbn [negb]. repeat post_step.
  eapply post_mono; [apply ms_speak_verified|].
  intros o w1 (b & -> & Hb). destruct b; repeat post_step.
  - exists true. split; [done|]. intros _. by apply Hb.
  - by exists false.
Qed.

Lemma try_espeak_verified text lang temp_filename w :
  post (try_espeak tts text lang temp_filename false) w (stage_post temp_filename).
Proof.
  unfold try_espeak, stage_post. cbn [negb]. repeat post_step;
    (eexists; split; [reflexivity|]); try done;
    intros _; by apply file_is_big_spec.
Qed.

Lemma try_pyttsx3_verified text lang temp_filename w :
  post (try_pyttsx3 tts text lang temp_filename false) w (stage_post temp_filename).
Proof.
  unfold try_pyttsx3, stage_post. cbn [negb]. repeat post_step;
    (eexists; split; [reflexivity|]); try done;
    intros _; by apply file_is_big_spec.
Qed.

(** *** The stages neither raise nor touch translation or capture *)

Lemma try_ms_speech_returns text lang temp_filename tts_success :
  returns (try_ms_speech tts text lang temp_filename tts_success).
Proof. unfold try_ms_speech. returns_tac. Qed.

Lemma try_espeak_returns text lang temp_filename tts_success :
  returns (try_espeak tts text lang temp_filename tts_success).
Proof. unfold try_espeak. returns_tac. Qed.

Lemma try_pyttsx3_returns text lang temp_filename tts_success :
  returns (try_pyttsx3 tts text lang temp_filename tts_success).
Proof. unfold try_pyttsx3. returns_tac. Qed.

Lemma synthesize_returns text lang temp_filename :
  returns (synthesize tts text lang temp_filename).
Proof.
  unfold synthesize.
  apply bind_returns; [apply try_ms_speech_returns | intros tts_success].
  apply bind_returns; [apply try_espeak_returns | intros tts_success'].
  apply try_pyttsx3_returns.
Qed.

Lemma play_audio_returns temp_filename tts_success :
  returns (play_audio tts temp_filename tts_success).
Proof. unfold play_audio. returns_tac. Qed.

Lemma cleanup_returns temp_filename : returns (cleanup temp_filename).
Proof. unfold cleanup. returns_tac. Qed.

Lemma speak_text_returns text lang : returns (speak_text tts text lang).
Proof.
  unfold speak_text. case_bool_decide; [returns_tac|].
  apply bind_returns; [apply logger_returns | intros _].
  apply bind_returns; [apply NamedTemporaryFile_returns | intros temp_filename].
  apply bind_returns; [apply synthesize_returns | intros tts_success].
  apply bind_returns; [apply play_audio_returns | intros tts_success'].
  apply bind_returns; [apply cleanup_returns | intros _].
  returns_tac.
Qed.

Lemma synthesize_speech_side text lang temp_filename :
  emits_only speech_side (synthesize tts text lang temp_filename).
Proof.
  unfold synthesize, try_ms_speech, ms_speak, try_espeak, try_pyttsx3, write_close.
  emits_only_tac.
Qed.

Lemma speak_text_speech_side text lang :
  emits_only speech_side (speak_text tts text lang).
Proof.
  unfold speak_text. case_bool_decide; [emits_only_tac|].
  apply bind_emits_only; [emits_only_tac|intros _].
  apply bind_emits_only; [emits_only_tac|intros temp_filename].
  apply bind_emits_only; [apply synthesize_speech_side|intros ?].
  unfold play_audio, cleanup. emits_only_tac.
Qed.

(** *** Which engine is reached *)

Lemma try_ms_speech_tried text lang temp_filename w :
  EvSapiVoices ∈ emitted w (snd (try_ms_speech tts text lang temp_filename false w)).
Proof.
  change (post (try_ms_speech tts text lang temp_filename false) w
               (fun _ w' => EvSapiVoices ∈ emitted w w')).
  unfold try_ms_speech, ms_speak. cbn [negb].
  repeat post_step; trace_leaf; by repeat constructor.
Qed.

Lemma try_espeak_tried text lang temp_filename w :
  exists cmd,
    EvSubprocess cmd ∈ emitted w (snd (try_espeak tts text lang temp_filename false w)).
Proof.
  change (post (try_espeak tts text lang temp_filename false) w
               (fun _ w' => exists cmd, EvSubprocess cmd ∈ emitted w w')).
  unfold try_espeak. cbn [negb].
  repeat post_step; eexists; trace_leaf; by repeat constructor.
Qed.

Lemma try_pyttsx3_tried text lang temp_filename w :
  EvPyttsx3Init ∈ emitted w (snd (try_pyttsx3 tts text lang temp_filename false w)).
Proof.
  change (post (try_pyttsx3 tts text lang temp_filename false) w
               (fun _ w' => EvPyttsx3Init ∈ emitted w w')).
  unfold try_pyttsx3. cbn [negb].
  repeat post_step; trace_leaf; by repeat constructor.
Qed.

(** *** The chain *)

Lemma try_espeak_skipped text lang temp_filename w :
  try_espeak tts text lang temp_filename true w = (Ret true, w).
Proof. reflexivity. Qed.

Lemma try_pyttsx3_skipped text lang temp_filename w :
  try_pyttsx3 tts text lang temp_filename true w = (Ret true, w).
Proof. reflexivity. Qed.

Lemma synthesize_chain text lang temp_filename w :
  let s1 := try_ms_speech tts text lang temp_filename false w in
  let s2 := try_espeak tts text lang temp_filename false (snd s1) in
  let s3 := try_pyttsx3 tts text lang temp_filename false (snd s2) in
  synthesize tts text lang temp_filename w
  = if verified (fst s1) then s1 else if verified (fst s2) then s2 else s3.
Proof.
  cbv zeta. unfold synthesize, bind.
  destruct (try_ms_speech_returns text lang temp_filename false w) as (b1 & w1 & ->).
  cbn [fst snd verified]. destruct b1.
  { by rewrite try_espeak_skipped, try_pyttsx3_skipped. }
  destruct (try_espeak_returns text lang temp_filename false w1) as (b2 & w2 & ->).
  cbn [fst snd verified]. destruct b2.
  { by rewrite try_pyttsx3_skipped. }
  done.
Qed.


(** *** When no engine delivers *)



(** *** A non-empty text always reaches the first engine *)

Lemma synthesize_tried text lang temp_filename w :
  EvSapiVoices ∈ emitted w (snd (synthesize tts text lang temp_filename w)).
Proof.
  unfold synthesize.
  apply (bind_emitted_first speech_side).
  - unfold try_ms_speech, ms_speak. emits_only_tac.
  - intros b. unfold try_espeak, try_pyttsx3, write_close. emits_only_tac.
  - apply try_ms_speech_tried.
Qed.

Lemma speak_text_tried text lang w :
  text <> "" ->
  EvSapiVoices ∈ emitted w (snd (speak_text tts text lang w)).
Proof.
  intros Htext. unfold speak_text. rewrite bool_decide_eq_false_2 by done.
  assert (Hrest : forall temp_filename tts_success,
    emits_only speech_side
      (let* tts_success' := play_audio tts temp_filename tts_success in
       cleanup temp_filename;;
       (if negb tts_success'
        then emit (Print (nl +:+ "===> [SPEECH (" +:+ lang +:+ ")]: " +:+ text +:+ nl));;
             logger ERROR "All TTS methods failed - text output only"
        else ret tt);;
       ret (Some tts_success'))).
  { intros. unfold play_audio, cleanup. emits_only_tac. }
  apply (bind_emitted_later speech_side);
    [apply logger_returns | emits_only_tac | |].
  { intros _. apply bind_emits_only; [emits_only_tac|intros temp_filename].
    apply bind_emits_only; [apply synthesize_speech_side | intros; apply Hrest]. }
  intros _ w1.
  apply (bind_emitted_later speech_side);
    [apply NamedTemporaryFile_returns | emits_only_tac | |].
  { intros temp_filename.
    apply bind_emits_only; [apply synthesize_speech_side | intros; apply Hrest]. }
  intros temp_filename w2.
  apply (bind_emitted_first speech_side);
    [apply synthesize_speech_side | intros; apply Hrest | apply synthesize_tried].
Qed.

(** *** What the clean-up does reach *)

Lemma stage_artifact_checked temp_filename (stage : M bool) w :
  post stage w (stage_post temp_filename) ->
  artifact_checked temp_filename (stage w).
Proof.
  unfold post, stage_post, artifact_checked.
  intros (b & Hb & Hbig). rewrite Hb. split; [by exists b|]. split.
  - intros [= ->]. by apply Hbig.
  - intros Hsmall. destruct b; [|done]. by destruct Hsmall; apply Hbig.
Qed.

(** Whenever [subprocess.run] raises, the eSpeak stage ends with its text
    file still on disk: the [os.unlink] that follows the call is skipped. *)
Lemma try_espeak_leaves_text_file text lang temp_filename w e :
  let text_path := tmp_name (tmp_counter w) "" in
  let cmd := ([ESPEAK_PATH; "-v"; default "en" (espeak_voice_map !! lang);
               "-w"; temp_filename] ++ extra_params ++ ["-f"; text_path])%list in
  text_path <> temp_filename ->
  snd (subprocess_run tts cmd) = Raise e ->
  fs (snd (try_espeak tts text lang temp_filename false w)) !! text_path
  = Some (N.of_nat (String.length text)).
Proof.
  intros text_path cmd Hfresh Hraise.
  change (post (try_espeak tts text lang temp_filename false) w
               (fun _ w' => fs w' !! text_path = Some (N.of_nat (String.length text)))).
  subst cmd text_path. unfold try_espeak. cbn [negb].
  repeat (post_step; try discriminate).
  match goal with
  | |- apply_effect _ ?eff _ !! _ = _ => destruct eff
  end; unfold apply_effect;
    rewrite ?lookup_delete_ne, ?lookup_insert_ne by done;
    apply lookup_insert_eq.
Qed.

Lemma speak_text_removes_wav text lang w :
  text <> "" ->
  fs (snd (speak_text tts text lang w)) !! tmp_name (tmp_counter w) ".wav" = None.
Proof.
  intros Htext.
  change (post (speak_text tts text lang) w
               (fun _ w' => fs w' !! tmp_name (tmp_counter w) ".wav" = None)).
  unfold speak_text. rewrite bool_decide_eq_false_2 by done.
  do 5 post_step.
  apply post_of_returns; [apply synthesize_returns | intros tts_success w2].
  post_step.
  apply post_of_returns; [apply play_audio_returns | intros tts_success' w3].
  repeat post_step; apply lookup_delete_eq.
Qed.
End SpeakProperties.

(** ** The request handler *)

Lemma feed_chunks_run pending w :
  feed_chunks pending w
  = (Ret tt, mkWorld (fs w) (tmp_counter w) (trace w ++ replicate pending EvChunk)).
Proof.
  revert w. induction pending as [|n IH]; intros w; simpl.
  - rewrite app_nil_r. by destruct w.
  - unfold bind, emit. rewrite IH. cbn [fs tmp_counter trace].
    by rewrite <- app_assoc.
Qed.

Lemma post_feed_chunks pending w Q :
  Q (Ret tt) (mkWorld (fs w) (tmp_counter w) (trace w ++ replicate pending EvChunk)) ->
  post (feed_chunks pending) w Q.
Proof. unfold post. by rewrite feed_chunks_run. Qed.

Lemma translate_text_translation_side lang_dict engine text source target :
  emits_only translation_side (translate_text lang_dict engine text source target).
Proof.
  unfold translate_text, call_get_translation, call_translate. emits_only_tac.
Qed.

Lemma post_translate_text lang_dict engine text source target w Q :
  (forall result w' evs,
     trace w' = (trace w ++ evs)%list -> Forall translation_side evs ->
     Q (Ret result) w') ->
  post (translate_text lang_dict engine text source target) w Q.
Proof.
  intros HQ. unfold post.
  destruct (translate_text_translation_side lang_dict engine text source target w)
    as (evs & Ht & HP).
  destruct (translate_text_returns lang_dict engine text source target w)
    as (result & w' & Hrun).
  rewrite Hrun in *. by eapply HQ.
Qed.

Lemma post_speak_text tts text lang w Q :
  (forall r w' evs,
     trace w' = (trace w ++ evs)%list -> Forall speech_side evs ->
     (text <> "" -> EvSapiVoices ∈ evs) ->
     Q (Ret r) w') ->
  post (speak_text tts text lang) w Q.
Proof.
  intros HQ. unfold post.
  destruct (speak_text_speech_side tts text lang w) as (evs & Ht & HP).
  pose proof (speak_text_tried tts text lang w) as Htried.
  destruct (speak_text_returns tts text lang w) as (r & w' & Hrun).
  rewrite Hrun in *. cbn [fst snd] in *.
  eapply HQ; [done..|]. intros Htext.
  specialize (Htried Htext). by rewrite (emitted_app _ _ _ Ht) in Htried.
Qed.

(** [speak_text] first logs the text it was given. *)
Lemma speak_text_announces tts text lang w :
  text <> "" ->
  Log INFO ("Speaking in " +:+ lang +:+ ": '" +:+ text +:+ "'")
    ∈ emitted w (snd (speak_text tts text lang w)).
Proof.
  intros Htext. unfold speak_text. rewrite bool_decide_eq_false_2 by done.
  apply (bind_emitted_first speech_side).
  - emits_only_tac.
  - intros _. apply bind_emits_only; [emits_only_tac|intros temp_filename].
    apply bind_emits_only; [apply synthesize_speech_side | intros tts_success].
    unfold play_audio, cleanup. emits_only_tac.
  - unfold logger, emit. cbn [snd]. trace_leaf. by left.
Qed.

(** The run of [speak_text], kept as it is. *)
Lemma post_speak_text_exact tts text lang w Q :
  (forall r, Q (Ret r) (snd (speak_text tts text lang w))) ->
  post (speak_text tts text lang) w Q.
Proof.
  intros HQ. unfold post.
  destruct (speak_text_returns tts text lang w) as (r & w' & Hrun).
  specialize (HQ r). by rewrite Hrun in *.
Qed.


(** Rewrite the traces of the worlds that sub-runs ended in. *)
Ltac trace_hyps :=
  cbn [trace] in *;
  repeat match goal with
         | H : trace ?w' = _ |- context [trace ?w'] => rewrite H; clear H
         end.

Ltac trace_leaf_hyps :=
  unfold emitted; cbn [trace]; trace_hyps;
  rewrite <- ?app_assoc; rewrite drop_app_length; simpl.

Lemma post_translate_text_empty lang_dict engine source target w Q :
  Q (Ret "No text recognized") w ->
  post (translate_text lang_dict engine "" source target) w Q.
Proof. done. Qed.

Ltac handler_step :=
  first
    [ post_step
    | apply post_feed_chunks; cbn [fs tmp_counter trace]
    | apply post_translate_text; intros ? ? ? ? ?
    | apply post_speak_text; intros ? ? ? ? ? ? ].

Section HandlerProperties.
Variable lang_dict : gmap string Language.
Variable engine : TranslationEngine.
Variable tts : SpeechEngines.
Variable rec : Recognizer.

Lemma translate_returns data : returns (translate lang_dict engine tts rec data).
Proof. unfold translate. returns_tac. Qed.

Lemma translate_missing_models data w source source_code target target_code :
  recognition_ready rec data w source source_code target target_code ->
  lang_dict !! source_code = None \/ lang_dict !! target_code = None ->
  let run := translate lang_dict engine tts rec data w in
  let recognized := default "" (final_result rec !! "text") in
  let missing := missing_models lang_dict source source_code target target_code in
  fst run
  = Ret (list_to_map
           [("error", JStr ("Missing translation models for: "
                            +:+ String.concat ", " missing));
            ("recognized", JStr recognized);
            ("can_translate", JBool false);
            ("missing_models", JList missing)]) /\
  EvCapture ∈ emitted w (snd run) /\
  Forall recognition_side (emitted w (snd run)).
Proof.
  intros (Hs & Ht & Hsc & Htc & model_path & size & Hmp & Hfile & Hmodel & Hkaldi & Hstream)
         Hmissing.
  cbv zeta.
  change (post (translate lang_dict engine tts rec data) w
    (fun o w' =>
       o = Ret (list_to_map
           [("error", JStr ("Missing translation models for: "
              +:+ String.concat ", "
                    (missing_models lang_dict source source_code target target_code)));
            ("recognized", JStr (default "" (final_result rec !! "text")));
            ("can_translate", JBool false);
            ("missing_models",
             JList (missing_models lang_dict source source_code target target_code))]) /\
       EvCapture ∈ emitted w w' /\ Forall recognition_side (emitted w w'))).
  unfold translate, recognize_speech.
  repeat (handler_step; try congruence); simplify_eq.
  - (* both languages installed: excluded *)
    match goal with
    | Hboth : _ && _ = true |- _ =>
        apply andb_true_iff in Hboth
          as [[? ?]%bool_decide_eq_true [? ?]%bool_decide_eq_true]
    end.
    destruct Hmissing; congruence.
  - split; [done|]. trace_leaf. split; [by repeat constructor|].
    repeat (apply Forall_cons; split; [done|]).
    apply Forall_app. split; [by apply Forall_replicate|].
    by repeat (apply Forall_cons; split; [done|]).
Qed.

Lemma translate_capture_after_model data w :
  let run := translate lang_dict engine tts rec data w in
  EvCapture ∈ emitted w (snd run) ->
  exists source source_code model_path size,
    data !! "source" = Some source /\
    LANGUAGES !! source = Some source_code /\
    MODEL_PATHS !! source_code = Some model_path /\
    fs w !! model_path = Some size /\
    vosk_model rec model_path = Ret tt /\
    exists before after,
      emitted w (snd run) = (before ++ EvCapture :: after)%list /\
      EvModelLoad model_path ∈ before /\ EvCapture ∉ before.
Proof.
  cbv zeta.
  change (post (translate lang_dict engine tts rec data) w
    (fun _ w' =>
       EvCapture ∈ emitted w w' ->
       exists source source_code model_path size,
         data !! "source" = Some source /\
         LANGUAGES !! source = Some source_code /\
         MODEL_PATHS !! source_code = Some model_path /\
         fs w !! model_path = Some size /\
         vosk_model rec model_path = Ret tt /\
         exists before after,
           emitted w w' = (before ++ EvCapture :: after)%list /\
           EvModelLoad model_path ∈ before /\ EvCapture ∉ before)).
  unfold translate, recognize_speech.
  repeat handler_step; trace_leaf_hyps; intros Hcap;
    first
      [ by not_among Hcap
      | clear Hcap;
        repeat match goal with a : unit |- _ => destruct a end;
        eexists _, _, _, _;
        repeat (split; [first [reflexivity | eassumption]|]);
        eexists [_; _; _], _;
        split; [reflexivity|];
        split; [by repeat constructor | intros Hin; by not_among Hin] ].
Qed.

Lemma translate_silence data w source source_code target target_code :
  recognition_ready rec data w source source_code target target_code ->
  default "" (final_result rec !! "text") = "" ->
  let run := translate lang_dict engine tts rec data w in
  exists response,
    fst run = Ret response /\
    response !! "recognized" = Some (JStr "") /\
    Forall (fun e => is_translation_event e = false) (emitted w (snd run)) /\
    (is_Some (lang_dict !! source_code) -> is_Some (lang_dict !! target_code) ->
     response !! "translated" = Some (JStr "No text recognized") /\
     EvSapiVoices ∈ emitted w (snd run)).
Proof.
  intros (Hs & Ht & Hsc & Htc & model_path & size & Hmp & Hfile & Hmodel & Hkaldi & Hstream)
         Hsilence.
  cbv zeta.
  change (post (translate lang_dict engine tts rec data) w
    (fun o w' =>
       exists response,
         o = Ret response /\
         response !! "recognized" = Some (JStr "") /\
         Forall (fun e => is_translation_event e = false) (emitted w w') /\
         (is_Some (lang_dict !! source_code) -> is_Some (lang_dict !! target_code) ->
          response !! "translated" = Some (JStr "No text recognized") /\
          EvSapiVoices ∈ emitted w w'))).
  unfold translate, recognize_speech. rewrite Hsilence.
  repeat (first [apply post_translate_text_empty | handler_step]; try congruence);
    simplify_eq; (eexists; split; [reflexivity|]); (split; [done|]); trace_leaf_hyps.
  - (* both languages installed: the placeholder is translated and spoken *)
    split.
    + repeat (apply Forall_cons; split; [done|]).
      apply Forall_app. split; [by apply Forall_replicate|].
      repeat (apply Forall_cons; split; [done|]).
      match goal with
      | Hside : Forall speech_side _ |- _ =>
          eapply Forall_impl; [exact Hside | by intros ? [? _]]
      end.
    + intros _ _. split; [done|].
      do 5 apply list_elem_of_further. apply elem_of_app. right.
      do 4 apply list_elem_of_further. auto.
  - (* a language is missing *)
    split.
    + repeat (apply Forall_cons; split; [done|]).
      apply Forall_app. split; [by apply Forall_replicate|].
      by repeat (apply Forall_cons; split; [done|]).
    + intros Hsrc Htgt.
      match goal with
      | Hboth : _ && _ = false |- _ =>
          rewrite !bool_decide_eq_true_2 in Hboth by done; done
      end.
Qed.

(** After silence, with both languages installed, the handler ends with
    the run of [speak_text] on the placeholder. *)
Lemma translate_silence_handoff data w source source_code target target_code :
  recognition_ready rec data w source source_code target target_code ->
  default "" (final_result rec !! "text") = "" ->
  is_Some (lang_dict !! source_code) -> is_Some (lang_dict !! target_code) ->
  let run := translate lang_dict engine tts rec data w in
  exists heard,
    fs heard = fs w /\ tmp_counter heard = tmp_counter w /\
    (exists evs, trace heard = (trace w ++ evs)%list /\ Forall recognition_side evs) /\
    snd run = snd (speak_text tts "No text recognized" target_code heard) /\
    Log INFO ("Speaking in " +:+ target_code +:+ ": 'No text recognized'")
      ∈ emitted w (snd run).
Proof.
  intros (Hs & Ht & Hsc & Htc & model_path & size & Hmp & Hfile & Hmodel & Hkaldi & Hstream)
         Hsilence Hsrc Htgt.
  cbv zeta.
  change (post (translate lang_dict engine tts rec data) w
    (fun _ w' =>
       exists heard,
         fs heard = fs w /\ tmp_counter heard = tmp_counter w /\
         (exists evs, trace heard = (trace w ++ evs)%list /\ Forall recognition_side evs) /\
         w' = snd (speak_text tts "No text recognized" target_code heard) /\
         Log INFO ("Speaking in " +:+ target_code +:+ ": 'No text recognized'")
           ∈ emitted w w')).
  unfold translate, recognize_speech. rewrite Hsilence.
  repeat (first [ apply post_translate_text_empty
                | apply post_speak_text_exact; intros ?
                | post_step
                | apply post_feed_chunks; cbn [fs tmp_counter trace] ];
          try congruence);
    simplify_eq.
  - eexists. split; [|split; [|split; [|split]]].
    4: reflexivity.
    + reflexivity.
    + reflexivity.
    + cbn [trace]. eexists. split; [rewrite <- ?app_assoc; reflexivity|].
      repeat (apply Forall_cons; split; [done|]).
      apply Forall_app. split; [by apply Forall_replicate|].
      by repeat (apply Forall_cons; split; [done|]).
    + match goal with
      | |- _ ∈ emitted _ (snd (speak_text _ ?text ?lang ?heard)) =>
          pose proof (speak_text_announces tts text lang heard) as Hsaid;
          destruct (speak_text_speech_side tts text lang heard) as (evs & Htrace & _)
      end.
      rewrite (emitted_app _ _ _ Htrace) in Hsaid.
      unfold emitted. rewrite Htrace. cbn [trace].
      rewrite <- !app_assoc, drop_app_length.
      repeat (apply elem_of_app; right). by apply Hsaid.
  - match goal with
    | Hboth : _ && _ = false |- _ =>
        rewrite !bool_decide_eq_true_2 in Hboth by done; done
    end.
Qed.

Lemma missing_models_exact source source_code target target_code side :
  side ∈ missing_models lang_dict source source_code target target_code <->
  (side = source +:+ " (" +:+ source_code +:+ ")" /\ lang_dict !! source_code = None) \/
  (side = target +:+ " (" +:+ target_code +:+ ")" /\ lang_dict !! target_code = None).
Proof.
  unfold missing_models. rewrite elem_of_app.
  repeat case_bool_decide;
    rewrite ?elem_of_cons, ?elem_of_nil; intuition congruence.
Qed.
End HandlerProperties.

(** * The claims *)

(** ** Translation *)

(** C3, as the code has it: on an empty text [translate_text] returns the
    placeholder ["No text recognized"] at once, for every source and target
    language; the world, and with it the trace of calls to the translation
    engine, is left as it was. *)
Theorem C3_empty_text_placeholder lang_dict engine source target w :
  translate_text lang_dict engine "" source target w = (Ret "No text recognized", w).
Proof. apply translate_text_empty. Qed.

(** C3 as stated fails: the result for an empty text is not the empty
    string. *)
Lemma C3_empty_text_result_is_not_empty :
  fst (translate_text sample_lang_dict failing_engine "" "en" "hi" empty_world) <> Ret "".
Proof. rewrite translate_text_empty. discriminate. Qed.

(** C8: for a non-empty text and equal source and target, [translate_text]
    returns the text itself; the world is untouched, so no translation
    capability is invoked. *)
Theorem C8_same_language_identity lang_dict engine text lang w :
  text <> "" ->
  translate_text lang_dict engine text lang lang w = (Ret text, w).
Proof. apply translate_text_same. Qed.

Lemma C8_same_language_identity_witness :
  "hello" <> "" /\
  translate_text sample_lang_dict failing_engine "hello" "hi" "hi" empty_world
  = (Ret "hello", empty_world).
Proof.
  assert (Htext : "hello" <> "") by discriminate.
  split; [exact Htext|].
  exact (C8_same_language_identity sample_lang_dict failing_engine "hello" "hi"
           empty_world Htext).
Defined.

(** C10: [translate_text] never raises; for every input, every engine and
    every world it returns a string. *)
Theorem C10_translate_text_never_raises lang_dict engine text source target w :
  exists result w',
    translate_text lang_dict engine text source target w = (Ret result, w').
Proof. apply translate_text_returns. Qed.

(** C4: when the direct attempt raises [e] and the two-step attempt is not
    applicable or fails too, [translate_text] returns the failure string
    built from [e], the error of the direct attempt. *)
Theorem C4_failure_carries_direct_error
    lang_dict engine text source target src tgt e w :
  text <> "" -> source <> target ->
  lang_dict !! source = Some src -> lang_dict !! target = Some tgt ->
  engine_translate engine src tgt text = Raise e ->
  two_step_unavailing lang_dict engine text source target src tgt ->
  fst (translate_text lang_dict engine text source target w)
  = Ret ("[Translation Failed: " +:+ str e +:+ "]").
Proof. apply translate_text_both_fail. Qed.

Lemma C4_failure_carries_direct_error_witness :
  engine_translate failing_engine (mkLanguage "es" "Spanish") (mkLanguage "hi" "Hindi") "hola"
  = Raise (Exception "no model es-hi") /\
  engine_translate failing_engine (mkLanguage "es" "Spanish") (mkLanguage "en" "English") "hola"
  = Raise (Exception "no model es-en") /\
  fst (translate_text sample_lang_dict failing_engine "hola" "es" "hi" empty_world)
  = Ret "[Translation Failed: no model es-hi]".
Proof.
  split; [reflexivity|]. split; [reflexivity|].
  apply (C4_failure_carries_direct_error sample_lang_dict failing_engine
           "hola" "es" "hi" (mkLanguage "es" "Spanish") (mkLanguage "hi" "Hindi")
           (Exception "no model es-hi") empty_world).
  - discriminate.
  - discriminate.
  - reflexivity.
  - reflexivity.
  - reflexivity.
  - right. right. right.
    exists (mkLanguage "en" "English"), (Exception "no model es-en").
    split; [reflexivity|]. left. reflexivity.
Defined.

(** C6: the two-step translation through English is attempted exactly when
    the direct attempt was made and raised and neither language is English;
    when attempted with both hops succeeding, the source is translated to
    English, that intermediate text is translated to the target, and the
    second result is what [translate_text] returns. *)
Theorem C6_two_step_pivot lang_dict engine text source target w :
  let run := translate_text lang_dict engine text source target w in
  (two_step_banner ∈ emitted w (snd run) <->
   direct_failed lang_dict engine text source target /\
   source <> "en" /\ target <> "en") /\
  (forall src en tgt mid res,
     two_step_banner ∈ emitted w (snd run) ->
     lang_dict !! source = Some src -> lang_dict !! "en" = Some en ->
     lang_dict !! target = Some tgt ->
     engine_translate engine src en text = Ret mid ->
     engine_translate engine en tgt mid = Ret res ->
     fst run = Ret res /\
     exists earlier,
       emitted w (snd run)
       = (earlier ++
          [two_step_banner;
           EvGetTranslation (code src) (code en);
           EvTranslate source "en" text;
           Log INFO ("First step: " +:+ source +:+ " -> en: '" +:+ mid +:+ "'");
           EvGetTranslation (code en) (code tgt);
           EvTranslate "en" target mid;
           Log INFO ("Second step: en -> " +:+ target +:+ ": '" +:+ res +:+ "'")])%list).
Proof.
  cbv zeta. split; [apply two_step_attempted_iff|].
  intros src en tgt mid res Hbanner Hs Hen Ht H1 H2.
  apply two_step_attempted_iff in Hbanner
    as ((Htext & Hne & src' & tgt' & e & Hs' & Ht' & Hd) & Hs_en & Ht_en).
  simplify_eq. by eapply translate_text_two_step.
Qed.

Lemma C6_two_step_pivot_witness :
  let run := translate_text sample_lang_dict pivot_only_engine "hola" "es" "hi" empty_world in
  two_step_banner ∈ emitted empty_world (snd run) /\
  fst run = Ret "hola>en>hi".
Proof.
  cbv zeta.
  destruct (C6_two_step_pivot sample_lang_dict pivot_only_engine "hola" "es" "hi" empty_world)
    as [Hiff Hchain].
  assert (Hbanner : two_step_banner
            ∈ emitted empty_world
                (snd (translate_text sample_lang_dict pivot_only_engine
                        "hola" "es" "hi" empty_world))).
  { apply Hiff. split; [|split; discriminate].
    split; [discriminate|]. split; [discriminate|].
    exists (mkLanguage "es" "Spanish"), (mkLanguage "hi" "Hindi"),
           (Exception "no model es-hi").
    split; [reflexivity|]. split; reflexivity. }
  split; [exact Hbanner|].
  apply (Hchain (mkLanguage "es" "Spanish") (mkLanguage "en" "English")
                (mkLanguage "hi" "Hindi") "hola>en" "hola>en>hi" Hbanner);
    reflexivity.
Defined.

(** ** Speech synthesis *)

(** C5: every engine of the chain counts as successful only with the
    output file in place and bigger than 1000 bytes; an engine that leaves
    the file missing, empty or small counts as failed whatever it reported,
    and then the next engine in order is the one that runs, and is really
    invoked. *)
Theorem C5_success_needs_artifact tts text lang temp_filename w :
  let s1 := try_ms_speech tts text lang temp_filename false w in
  let s2 := try_espeak tts text lang temp_filename false (snd s1) in
  let s3 := try_pyttsx3 tts text lang temp_filename false (snd s2) in
  artifact_checked temp_filename s1 /\
  artifact_checked temp_filename s2 /\
  artifact_checked temp_filename s3 /\
  synthesize tts text lang temp_filename w
  = (if verified (fst s1) then s1 else if verified (fst s2) then s2 else s3) /\
  EvSapiVoices ∈ emitted w (snd s1) /\
  (exists cmd, EvSubprocess cmd ∈ emitted (snd s1) (snd s2)) /\
  EvPyttsx3Init ∈ emitted (snd s2) (snd s3).
Proof.
  cbv zeta.
  split; [apply stage_artifact_checked, try_ms_speech_verified|].
  split; [apply stage_artifact_checked, try_espeak_verified|].
  split; [apply stage_artifact_checked, try_pyttsx3_verified|].
  split; [apply synthesize_chain|].
  split; [apply try_ms_speech_tried|].
  split; [apply try_espeak_tried | apply try_pyttsx3_tried].
Qed.

Lemma C5_success_needs_artifact_witness :
  let w := mkWorld {[ "/tmp/out.wav" := 0%N ]} 0 [] in
  let s1 := try_ms_speech hollow_tts "hello" "en" "/tmp/out.wav" false w in
  let s2 := try_espeak hollow_tts "hello" "en" "/tmp/out.wav" false (snd s1) in
  let s3 := try_pyttsx3 hollow_tts "hello" "en" "/tmp/out.wav" false (snd s2) in
  fs (snd s1) !! "/tmp/out.wav" = Some 0%N /\
  fst s1 = Ret false /\
  synthesize hollow_tts "hello" "en" "/tmp/out.wav" w = s3 /\
  big_file (fs (snd s3)) "/tmp/out.wav".
Proof.
  cbv zeta.
  destruct (C5_success_needs_artifact hollow_tts "hello" "en" "/tmp/out.wav"
              (mkWorld {[ "/tmp/out.wav" := 0%N ]} 0 []))
    as (H1 & H2 & H3 & Hchain & _).
  split; [vm_compute; reflexivity|].
  split.
  { apply H1. intros (size & Hfile & Hbig). vm_compute in Hfile.
    injection Hfile as <-. vm_compute in Hbig. discriminate. }
  split; [rewrite Hchain; vm_compute; reflexivity|].
  apply H3. vm_compute. reflexivity.
Defined.



(** C1 (a defect of the code): on a machine without SAPI and without the
    eSpeak executable, [speak_text "hello" "en"] succeeds through pyttsx3 and
    plays the audio, the wav file is removed, but the text file written for
    eSpeak stays on a disk that was empty before the call. *)
Theorem C1_espeak_text_file_left_behind :
  let run := speak_text no_espeak_tts "hello" "en" empty_world in
  fst run = Ret (Some true) /\
  size (fs empty_world) = 0 /\
  fs (snd run) = {[ tmp_name 1 "" := 5%N ]} /\
  size (fs (snd run)) = 1.
Proof. vm_compute. repeat split. Qed.

(** ** The request handler *)

(** C2, as the code has it: audio capture starts only after the
    recognition model of the source language was found on disk and loaded;
    the translation capabilities are looked up after capture and recognition,
    and when one is missing the handler answers with the recognized text and
    the list of missing sides, which names exactly the sides whose language
    is not installed, without calling the translation engine or any speech
    engine. *)
Theorem C2_validation_order lang_dict engine tts rec data w :
  let run := translate lang_dict engine tts rec data w in
  (EvCapture ∈ emitted w (snd run) ->
   exists source source_code model_path size,
     data !! "source" = Some source /\
     LANGUAGES !! source = Some source_code /\
     MODEL_PATHS !! source_code = Some model_path /\
     fs w !! model_path = Some size /\
     vosk_model rec model_path = Ret tt /\
     exists before after,
       emitted w (snd run) = (before ++ EvCapture :: after)%list /\
       EvModelLoad model_path ∈ before /\ EvCapture ∉ before) /\
  (forall source source_code target target_code,
     recognition_ready rec data w source source_code target target_code ->
     lang_dict !! source_code = None \/ lang_dict !! target_code = None ->
     let recognized := default "" (final_result rec !! "text") in
     let missing := missing_models lang_dict source source_code target target_code in
     fst run
     = Ret (list_to_map
              [("error", JStr ("Missing translation models for: "
                               +:+ String.concat ", " missing));
               ("recognized", JStr recognized);
               ("can_translate", JBool false);
               ("missing_models", JList missing)]) /\
     EvCapture ∈ emitted w (snd run) /\
     Forall recognition_side (emitted w (snd run)) /\
     forall side,
       side ∈ missing <->
       (side = source +:+ " (" +:+ source_code +:+ ")"
        /\ lang_dict !! source_code = None) \/
       (side = target +:+ " (" +:+ target_code +:+ ")"
        /\ lang_dict !! target_code = None)).
Proof.
  cbv zeta. split; [apply translate_capture_after_model|].
  intros source source_code target target_code Hready Hmissing.
  destruct (translate_missing_models lang_dict engine tts rec data w
              source source_code target target_code Hready Hmissing)
    as (Hresp & Hcap & Hside).
  repeat split; try done; apply missing_models_exact.
Qed.

Lemma C2_validation_order_witness :
  let run := translate english_only_dict failing_engine dead_tts
                       (sample_recognizer "hello") (request "English" "Hindi")
                       models_world in
  recognition_ready (sample_recognizer "hello") (request "English" "Hindi")
                    models_world "English" "en" "Hindi" "hi" /\
  english_only_dict !! "hi" = None /\
  fst run
  = Ret (list_to_map
           [("error", JStr "Missing translation models for: Hindi (hi)");
            ("recognized", JStr "hello");
            ("can_translate", JBool false);
            ("missing_models", JList ["Hindi (hi)"])]) /\
  EvCapture ∈ emitted models_world (snd run).
Proof.
  cbv zeta.
  assert (Hready : recognition_ready (sample_recognizer "hello")
                     (request "English" "Hindi") models_world
                     "English" "en" "Hindi" "hi").
  { repeat (split; [vm_compute; reflexivity|]).
    exists "models/vosk-model-small-en-us-0.15", 4096%N.
    repeat split; vm_compute; reflexivity. }
  assert (Hmissing : english_only_dict !! "hi" = None) by (vm_compute; reflexivity).
  split; [exact Hready|]. split; [exact Hmissing|].
  destruct (C2_validation_order english_only_dict failing_engine dead_tts
              (sample_recognizer "hello") (request "English" "Hindi") models_world)
    as [_ Hlate].
  destruct (Hlate "English" "en" "Hindi" "hi" Hready (or_intror Hmissing))
    as (Hresp & Hcap & _).
  split; [|exact Hcap].
  rewrite Hresp. vm_compute. reflexivity.
Defined.

(** C2 as stated fails: with Hindi not installed, a request from English to
    Hindi records audio before the missing capability is noticed. *)
Lemma C2_capture_before_translation_check :
  let run := translate english_only_dict failing_engine dead_tts
                       (sample_recognizer "hello") (request "English" "Hindi")
                       models_world in
  LANGUAGES !! "Hindi" = Some "hi" /\
  english_only_dict !! "hi" = None /\
  EvCapture ∈ emitted models_world (snd run) /\
  is_capture_event EvCapture = true.
Proof.
  cbv zeta. split; [vm_compute; reflexivity|]. split; [vm_compute; reflexivity|].
  split; [|reflexivity].
  vm_compute. by repeat constructor.
Qed.

(** C9, as the code has it: when nothing was recognized the response
    carries the empty recognized text and the translation engine is not
    called; with both languages installed the translated text is the
    placeholder ["No text recognized"], and that placeholder is handed to
    speech synthesis: what the handler does after recognition is the run
    of [speak_text] on the placeholder for the target language, which logs
    that text and invokes the first engine. *)
Theorem C9_silence_speaks_placeholder
    lang_dict engine tts rec data w source source_code target target_code :
  recognition_ready rec data w source source_code target target_code ->
  default "" (final_result rec !! "text") = "" ->
  let run := translate lang_dict engine tts rec data w in
  exists response,
    fst run = Ret response /\
    response !! "recognized" = Some (JStr "") /\
    Forall (fun e => is_translation_event e = false) (emitted w (snd run)) /\
    (is_Some (lang_dict !! source_code) -> is_Some (lang_dict !! target_code) ->
     response !! "translated" = Some (JStr "No text recognized") /\
     EvSapiVoices ∈ emitted w (snd run) /\
     Log INFO ("Speaking in " +:+ target_code +:+ ": 'No text recognized'")
       ∈ emitted w (snd run) /\
     exists heard,
       fs heard = fs w /\ tmp_counter heard = tmp_counter w /\
       (exists evs, trace heard = (trace w ++ evs)%list /\ Forall recognition_side evs) /\
       snd run = snd (speak_text tts "No text recognized" target_code heard)).
Proof.
  intros Hready Hsilence. cbv zeta.
  destruct (translate_silence lang_dict engine tts rec data w
              source source_code target target_code Hready Hsilence)
    as (response & Hresponse & Hrecognized & Hquiet & Hspoken).
  exists response. split; [exact Hresponse|]. split; [exact Hrecognized|].
  split; [exact Hquiet|].
  intros Hsrc Htgt. destruct (Hspoken Hsrc Htgt) as [Htranslated Htried].
  destruct (translate_silence_handoff lang_dict engine tts rec data w
              source source_code target target_code Hready Hsilence Hsrc Htgt)
    as (heard & Hfs & Hcounter & Hevs & Hrun & Hsaid).
  split; [exact Htranslated|]. split; [exact Htried|]. split; [exact Hsaid|].
  by exists heard.
Qed.

Lemma C9_silence_speaks_placeholder_witness :
  let run := translate sample_lang_dict failing_engine dead_tts
                       (sample_recognizer "") (request "English" "Hindi")
                       models_world in
  recognition_ready (sample_recognizer "") (request "English" "Hindi")
                    models_world "English" "en" "Hindi" "hi" /\
  exists response,
    fst run = Ret response /\
    response !! "recognized" = Some (JStr "") /\
    response !! "translated" = Some (JStr "No text recognized") /\
    EvSapiVoices ∈ emitted models_world (snd run) /\
    Log INFO "Speaking in hi: 'No text recognized'" ∈ emitted models_world (snd run).
Proof.
  cbv zeta.
  assert (Hready : recognition_ready (sample_recognizer "")
                     (request "English" "Hindi") models_world
                     "English" "en" "Hindi" "hi").
  { repeat (split; [vm_compute; reflexivity|]).
    exists "models/vosk-model-small-en-us-0.15", 4096%N.
    repeat split; vm_compute; reflexivity. }
  split; [exact Hready|].
  destruct (C9_silence_speaks_placeholder sample_lang_dict failing_engine dead_tts
              (sample_recognizer "") (request "English" "Hindi") models_world
              "English" "en" "Hindi" "hi" Hready)
    as (response & Hresp & Hrec & _ & Hspoken).
  { vm_compute. reflexivity. }
  exists response. split; [exact Hresp|]. split; [exact Hrec|].
  destruct Hspoken as (Htranslated & Htried & Hsaid & _);
    [vm_compute; eexists; reflexivity..|].
  split; [exact Htranslated|]. split; [exact Htried | exact Hsaid].
Defined.

(** C9 as stated fails: after silence, with both languages installed, the
    SAPI engine is asked to speak the placeholder. *)
Lemma C9_silence_reaches_synthesis :
  let run := translate sample_lang_dict failing_engine hollow_tts
                       (sample_recognizer "") (request "English" "Hindi")
                       models_world in
  default "" (final_result (sample_recognizer "") !! "text") = "" /\
  EvSapiSpeak "No text recognized" "/tmp/tmp0.wav" None
    ∈ emitted models_world (snd run) /\
  is_synthesis_event (EvSapiSpeak "No text recognized" "/tmp/tmp0.wav" None) = true.
Proof.
  cbv zeta. split; [vm_compute; reflexivity|]. split; [|reflexivity].
  vm_compute. by repeat constructor.
Qed.

(** * Further properties *)

(** ** [translate_text] beyond the claims *)

(** X1: A language that is not installed is reported without asking the
    engine: the source is looked at first, then the target; the only thing
    the call does is to log the error. *)
Theorem translate_text_language_missing lang_dict engine text source target w :
  text <> "" -> source <> target ->
  lang_dict !! source = None \/ lang_dict !! target = None ->
  let role := if bool_decide (lang_dict !! source = None) then "Source" else "Target" in
  let missing := if bool_decide (lang_dict !! source = None) then source else target in
  translate_text lang_dict engine text source target w
  = (Ret ("[Translation failed: " +:+ missing +:+ " language not installed]"),
     mkWorld (fs w) (tmp_counter w)
             (trace w ++ [Log ERROR (role +:+ " language " +:+ missing
                                     +:+ " not installed")])).
Proof.
  intros Htext Hne Hmissing. cbv zeta. unfold translate_text.
  rewrite (bool_decide_eq_false_2 (text = "")) by done.
  rewrite (bool_decide_eq_false_2 (source = target)) by done.
  case_bool_decide as Hs; [done|].
  destruct Hmissing as [?|Ht]; [done|].
  by rewrite (bool_decide_eq_true_2 (lang_dict !! target = None)).
Qed.

Lemma translate_text_language_missing_witness :
  english_only_dict !! "hi" = None /\
  translate_text english_only_dict failing_engine "hello" "en" "hi" empty_world
  = (Ret "[Translation failed: hi language not installed]",
     mkWorld ∅ 0 [Log ERROR "Target language hi not installed"]).
Proof.
  assert (Hmissing : english_only_dict !! "hi" = None) by (vm_compute; reflexivity).
  split; [exact Hmissing|].
  rewrite (translate_text_language_missing english_only_dict failing_engine
             "hello" "en" "hi" empty_world);
    [vm_compute; reflexivity | discriminate | discriminate | right; exact Hmissing].
Defined.

(** X2: When the direct translation succeeds, its result is returned as it is
    and the engine was asked exactly once: no second opinion through
    English is sought. *)
Theorem translate_text_direct_success lang_dict engine text source target src tgt result w :
  text <> "" -> source <> target ->
  lang_dict !! source = Some src -> lang_dict !! target = Some tgt ->
  engine_translate engine src tgt text = Ret result ->
  translate_text lang_dict engine text source target w
  = (Ret result,
     mkWorld (fs w) (tmp_counter w)
             (trace w ++ [EvGetTranslation (code src) (code tgt);
                          EvTranslate source target text;
                          Log INFO ("Translated '" +:+ text +:+ "' from " +:+ source
                                    +:+ " to " +:+ target +:+ ": '" +:+ result +:+ "'")])).
Proof.
  intros Htext Hne Hs Ht Hd. unfold translate_text, engine_translate in *.
  rewrite (bool_decide_eq_false_2 (text = "")) by done.
  rewrite (bool_decide_eq_false_2 (source = target)) by done.
  rewrite (bool_decide_eq_false_2 (lang_dict !! source = None)) by congruence.
  rewrite (bool_decide_eq_false_2 (lang_dict !! target = None)) by congruence.
  py_unfold. rewrite Hs, Ht. simpl.
  destruct (get_translation engine src tgt) as [t|]; [|done].
  simpl. rewrite Hd. simpl. by rewrite <- !app_assoc.
Qed.

Lemma translate_text_direct_success_witness :
  engine_translate pivot_only_engine (mkLanguage "en" "English")
                   (mkLanguage "hi" "Hindi") "hello" = Ret "hello>hi" /\
  fst (translate_text sample_lang_dict pivot_only_engine "hello" "en" "hi" empty_world)
  = Ret "hello>hi".
Proof.
  split; [reflexivity|].
  rewrite (translate_text_direct_success sample_lang_dict pivot_only_engine
             "hello" "en" "hi" (mkLanguage "en" "English") (mkLanguage "hi" "Hindi")
             "hello>hi" empty_world);
    [reflexivity | discriminate | discriminate | reflexivity ..].
Defined.

(** X3: No retries: whatever the engine answers, [translate_text] asks it to
    translate at most three times (once directly, twice through English),
    and it never touches the disk. *)
Theorem translate_text_no_retries lang_dict engine text source target w :
  let run := translate_text lang_dict engine text source target w in
  length (List.filter is_translate_call (emitted w (snd run))) <= 3 /\
  fs (snd run) = fs w /\ tmp_counter (snd run) = tmp_counter w.
Proof.
  cbv zeta.
  change (post (translate_text lang_dict engine text source target) w
    (fun _ w' =>
       length (List.filter is_translate_call (emitted w w')) <= 3 /\
       fs w' = fs w /\ tmp_counter w' = tmp_counter w)).
  unfold translate_text, call_get_translation, call_translate.
  repeat post_step;
    (split; [|done]);
    first [ rewrite emitted_refl; simpl; lia | trace_leaf; simpl; lia ].
Qed.

(** ** More rules for postconditions *)

Lemma post_of_fst {A} (m : M A) w o (Q : outcome A -> World -> Prop) :
  fst (m w) = o -> (forall w', Q o w') -> post m w Q.
Proof. intros <- HQ. apply HQ. Qed.

Lemma post_cases {A} (m : M A) w (Q : outcome A -> World -> Prop) :
  (forall o w', m w = (o, w') -> Q o w') -> post m w Q.
Proof. intros HQ. unfold post. destruct (m w) as [o w'] eqn:Hrun. by apply HQ. Qed.

Lemma post_with_trace {A} (P : event -> Prop) (m : M A) w
    (Q : outcome A -> World -> Prop) :
  emits_only P m -> post m w Q ->
  post m w (fun o w' => Q o w' /\ exists evs, trace w' = (trace w ++ evs)%list).
Proof.
  intros Hemits HQ. unfold post in *. split; [done|].
  destruct (Hemits w) as (evs & Htrace & _). by exists evs.
Qed.

Lemma post_any {A} (m : M A) w (Q : outcome A -> World -> Prop) :
  (forall o w', Q o w') -> post m w Q.
Proof. intros HQ. apply HQ. Qed.

(** ** Temporary names *)

Lemma has_dot_app a b : has_dot (a +:+ b) = has_dot a || has_dot b.
Proof.
  induction a as [|c a IH]; simpl; [done|].
  by rewrite IH, orb_assoc.
Qed.

Lemma has_dot_pretty_N_go x s : has_dot (pretty_N_go x s) = has_dot s.
Proof.
  revert s. induction (N.lt_wf_0 x) as [x _ IH]; intros s.
  assert (x = 0 \/ 0 < x)%N as [->|Hpos] by lia.
  - by rewrite pretty_N_go_0.
  - rewrite pretty_N_go_step by done. rewrite IH by (by apply N.div_lt).
    simpl. unfold pretty_N_char. by repeat case_match.
Qed.

Lemma has_dot_pretty (n : nat) : has_dot (pretty n) = false.
Proof.
  unfold pretty, pretty_nat, pretty, pretty_N.
  case_decide; [done|]. by rewrite has_dot_pretty_N_go.
Qed.

(** The text file of the eSpeak stage never has the name of a wav file. *)
Lemma tmp_name_text_ne_wav n m : tmp_name n "" <> tmp_name m ".wav".
Proof.
  unfold tmp_name. intros Heq. simpl in Heq.
  injection Heq as Heq.
  apply (f_equal has_dot) in Heq.
  rewrite !has_dot_app, !has_dot_pretty in Heq. done.
Qed.

(** ** [speak_text] and the disk *)

Lemma apply_effect_other path eff files p :
  p <> path -> apply_effect path eff files !! p = files !! p.
Proof.
  intros Hp. destruct eff; simpl; [done| |].
  - by rewrite lookup_delete_ne.
  - by rewrite lookup_insert_ne.
Qed.

Lemma wait_while_busy_run polls w :
  wait_while_busy polls w
  = (Ret tt, mkWorld (fs w) (tmp_counter w) (trace w ++ replicate polls EvSleep)).
Proof.
  revert w. induction polls as [|n IH]; intros w; simpl.
  - rewrite app_nil_r. by destruct w.
  - unfold bind, emit. rewrite IH. cbn [fs tmp_counter trace].
    by rewrite <- app_assoc.
Qed.

Lemma post_wait_while_busy polls w Q :
  Q (Ret tt) (mkWorld (fs w) (tmp_counter w) (trace w ++ replicate polls EvSleep)) ->
  post (wait_while_busy polls) w Q.
Proof. unfold post. by rewrite wait_while_busy_run. Qed.

Ltac speak_step :=
  first [ post_step | apply post_wait_while_busy; cbn [fs tmp_counter trace] ].

Section SpeakDisk.
Variable tts : SpeechEngines.

Lemma try_ms_speech_only_touches text lang temp_filename tts_success w :
  post (try_ms_speech tts text lang temp_filename tts_success) w
       (fun o w' => (exists b, o = Ret b) /\ only_touches temp_filename w w').
Proof.
  unfold try_ms_speech, ms_speak, only_touches.
  destruct tts_success; cbn [negb]; repeat post_step;
    (split; [by eexists|]); (split; [done|]); intros p Hp;
    by rewrite ?apply_effect_other.
Qed.

Lemma try_pyttsx3_only_touches text lang temp_filename tts_success w :
  post (try_pyttsx3 tts text lang temp_filename tts_success) w
       (fun o w' => (exists b, o = Ret b) /\ only_touches temp_filename w w').
Proof.
  unfold try_pyttsx3, only_touches.
  destruct tts_success; cbn [negb]; repeat post_step;
    (split; [by eexists|]); (split; [done|]); intros p Hp;
    by rewrite ?apply_effect_other.
Qed.

Lemma play_audio_keeps_disk temp_filename tts_success w :
  post (play_audio tts temp_filename tts_success) w
       (fun o w' => (exists b, o = Ret b) /\
                    fs w' = fs w /\ tmp_counter w' = tmp_counter w).
Proof.
  unfold play_audio. destruct tts_success; repeat speak_step;
    by split; [eexists|].
Qed.
Lemma post_os_unlink_or refuse path w Q :
  match refuse path with
  | Some e => Q (Raise e) w
  | None =>
      match fs w !! path with
      | Some _ => Q (Ret tt) (mkWorld (delete path (fs w)) (tmp_counter w) (trace w))
      | None => Q (Raise (Exception ("No such file or directory: '" +:+ path +:+ "'"))) w
      end
  end ->
  post (os_unlink_or refuse path) w Q.
Proof.
  unfold os_unlink_or. destruct (refuse path); [done|]. apply post_os_unlink.
Qed.

Ltac unlink_step :=
  first [ post_step | apply post_os_unlink_or; cbn [fs tmp_counter trace] ].

Variable refuse : string -> option exn.

Lemma try_espeak_via_disk text lang temp_filename w :
  let text_path := tmp_name (tmp_counter w) "" in
  post (try_espeak_via tts (os_unlink_or refuse) text lang temp_filename false) w
       (fun o w' =>
          (exists b, o = Ret b) /\
          tmp_counter w' = S (tmp_counter w) /\
          (forall p, p <> temp_filename -> p <> text_path -> fs w' !! p = fs w !! p) /\
          (text_path <> temp_filename ->
           refuse text_path = None ->
           (exists process,
              snd (subprocess_run tts (espeak_cmd lang temp_filename text_path))
              = Ret process) ->
           fs w' !! text_path = None)).
Proof.
  cbv zeta. unfold try_espeak_via, espeak_cmd. cbn [negb].
  repeat unlink_step;
    (split; [by eexists|]); (split; [done|]);
    (split;
     [ intros p Hp1 Hp2;
       by rewrite ?lookup_delete_ne, ?apply_effect_other, ?lookup_insert_ne by done
     | intros Hne Hfree [process Hprocess];
       first [ congruence | apply lookup_delete_eq | assumption ] ]).
Qed.

Lemma cleanup_via_disk temp_filename w :
  post (cleanup_via (os_unlink_or refuse) temp_filename) w
       (fun o w' =>
          o = Ret tt /\ tmp_counter w' = tmp_counter w /\
          (forall p, p <> temp_filename -> fs w' !! p = fs w !! p) /\
          (refuse temp_filename = None -> fs w' !! temp_filename = None) /\
          (forall e, refuse temp_filename = Some e ->
                     fs w' !! temp_filename = fs w !! temp_filename /\
                     (is_Some (fs w !! temp_filename) ->
                      trace w' = (trace w ++ [Log ERROR ("Cleanup error: " +:+ str e)])%list))).
Proof.
  unfold cleanup_via.
  repeat unlink_step;
    (split; [done|]); (split; [done|]);
    (split; [intros p Hp; by rewrite ?lookup_delete_ne by done|]);
    (split;
     [ intros Hfree; first [congruence | apply lookup_delete_eq | assumption]
     | intros e' Hrefused; simplify_eq;
       first [ congruence
             | split; [done|]; intros [? ?]; congruence
             | by split ] ]).
Qed.

Lemma speak_text_via_disk text lang w :
  text <> "" ->
  let wav := tmp_name (tmp_counter w) ".wav" in
  let txt := tmp_name (S (tmp_counter w)) "" in
  let run := speak_text_via tts (os_unlink_or refuse) text lang w in
  (exists b, fst run = Ret (Some b)) /\
  (forall p, p <> wav -> p <> txt -> fs (snd run) !! p = fs w !! p) /\
  (refuse wav = None -> fs (snd run) !! wav = None) /\
  (refuse txt = None ->
   (forall cmd, exists process, snd (subprocess_run tts cmd) = Ret process) ->
   fs w !! txt = None -> fs (snd run) !! txt = None).
Proof.
  intros Htext wav txt. cbv zeta.
  assert (Hne : txt <> wav) by apply tmp_name_text_ne_wav.
  change (post (speak_text_via tts (os_unlink_or refuse) text lang) w
    (fun o w' =>
       (exists b, o = Ret (Some b)) /\
       (forall p, p <> wav -> p <> txt -> fs w' !! p = fs w !! p) /\
       (refuse wav = None -> fs w' !! wav = None) /\
       (refuse txt = None ->
        (forall cmd, exists process, snd (subprocess_run tts cmd) = Ret process) ->
        fs w !! txt = None -> fs w' !! txt = None))).
  unfold speak_text_via. rewrite bool_decide_eq_false_2 by done.
  do 5 post_step. fold wav. unfold synthesize_via. post_step.
  eapply post_mono; [apply try_ms_speech_only_touches|].
  intros o1 w1 ([b1 ->] & Hc1 & Hf1). cbn [tmp_counter fs] in Hc1, Hf1.
  post_step.
  assert (Hespeak :
    post (try_espeak_via tts (os_unlink_or refuse) text lang wav b1) w1
      (fun o w2 =>
         (exists b, o = Ret b) /\
         (forall p, p <> wav -> p <> txt -> fs w2 !! p = fs w1 !! p) /\
         (refuse txt = None ->
          (forall cmd, exists process, snd (subprocess_run tts cmd) = Ret process) ->
          fs w1 !! txt = None -> fs w2 !! txt = None))).
  { destruct b1.
    - apply post_ret. split; [by eexists|]. by split.
    - eapply post_mono; [apply try_espeak_via_disk|].
      cbv beta. rewrite Hc1. fold txt.
      intros o w2 (Hb & _ & Hf2 & Htxt). split; [done|]. split; [done|].
      intros Hfree Hrun _. by apply Htxt. }
  eapply post_mono; [exact Hespeak|]. clear Hespeak.
  intros o2 w2 ([b2 ->] & Hf2 & Htxt2).
  eapply post_mono; [apply try_pyttsx3_only_touches|].
  intros o3 w3 ([b3 ->] & _ & Hf3).
  post_step.
  eapply post_mono; [apply play_audio_keeps_disk|].
  intros o4 w4 ([b4 ->] & Hf4 & _).
  post_step.
  eapply post_mono; [apply cleanup_via_disk|].
  intros o5 w5 (-> & _ & Hf5 & Hgone & _).
  repeat post_step;
    (split; [by eexists|]);
    (split;
     [ intros p Hp1 Hp2;
       by rewrite Hf5, Hf4, Hf3, Hf2, Hf1, lookup_insert_ne by done
     | split;
       [ exact Hgone
       | intros Hfree Hrun Hfresh;
         rewrite Hf5, Hf4, Hf3 by done;
         apply Htxt2; [done..|];
         by rewrite Hf1, lookup_insert_ne by done ] ]).
Qed.

Lemma speak_text_via_cleanup_error text lang w e :
  text <> "" ->
  let wav := tmp_name (tmp_counter w) ".wav" in
  let run := speak_text_via tts (os_unlink_or refuse) text lang w in
  refuse wav = Some e ->
  is_Some (fs (snd run) !! wav) ->
  Log ERROR ("Cleanup error: " +:+ str e) ∈ emitted w (snd run).
Proof.
  intros Htext wav. cbv zeta. intros Hrefused.
  change (post (speak_text_via tts (os_unlink_or refuse) text lang) w
    (fun _ w' =>
       is_Some (fs w' !! wav) ->
       Log ERROR ("Cleanup error: " +:+ str e) ∈ emitted w w')).
  unfold speak_text_via. rewrite bool_decide_eq_false_2 by done.
  do 5 post_step. fold wav. unfold synthesize_via. post_step.
  eapply post_mono;
    [apply (post_with_trace (fun _ => True));
     [unfold try_ms_speech, ms_speak; emits_only_tac
     |apply try_ms_speech_only_touches]|].
  intros o1 w1 (([b1 ->] & _) & evs1 & Ht1). cbn [trace] in Ht1. post_step.
  assert (Hespeak :
    post (try_espeak_via tts (os_unlink_or refuse) text lang wav b1) w1
         (fun o w2 => (exists b, o = Ret b) /\
                      exists evs, trace w2 = (trace w1 ++ evs)%list)).
  { apply (post_with_trace (fun _ => True)).
    - unfold try_espeak_via, os_unlink_or, write_close. emits_only_tac.
    - destruct b1; [apply post_ret; by eexists|].
      eapply post_mono; [apply try_espeak_via_disk|]. by intros ? ? [? _]. }
  eapply post_mono; [exact Hespeak|]. clear Hespeak.
  intros o2 w2 ([b2 ->] & evs2 & Ht2).
  eapply post_mono;
    [apply (post_with_trace (fun _ => True));
     [unfold try_pyttsx3; emits_only_tac | apply try_pyttsx3_only_touches]|].
  intros o3 w3 (([b3 ->] & _) & evs3 & Ht3). post_step.
  eapply post_mono;
    [apply (post_with_trace (fun _ => True));
     [unfold play_audio; emits_only_tac | apply play_audio_keeps_disk]|].
  intros o4 w4 (([b4 ->] & _) & evs4 & Ht4). post_step.
  eapply post_mono; [apply cleanup_via_disk|].
  intros o5 w5 (-> & _ & _ & _ & Hkept).
  destruct (Hkept e Hrefused) as [Hsame Hlogged].
  repeat post_step; cbn [fs trace]; intros Hthere;
    rewrite Hsame in Hthere; specialize (Hlogged Hthere);
    unfold emitted; cbn [trace]; rewrite Hlogged, Ht4, Ht3, Ht2, Ht1;
    rewrite <- !app_assoc, drop_app_length;
    rewrite !elem_of_app, !list_elem_of_singleton; intuition.
Qed.
End SpeakDisk.

(** [speak_text] of the development is [speak_text_via] with an
    [os.unlink] that refuses no file. *)
Lemma speak_text_as_via tts text lang :
  speak_text tts text lang
  = speak_text_via tts (os_unlink_or (fun _ => None)) text lang.
Proof. reflexivity. Qed.

(** X4: The disk after [speak_text], on a machine where [os.unlink] may fail
    for the files named by [refuse]: the call still returns (creating the
    temporary files and printing are taken as not failing), no file other
    than the wav file and the text file of the eSpeak stage has changed,
    the wav file is gone whenever [os.unlink] does not refuse it, and if it
    does and the file is still there the failure is logged as a "Cleanup
    error". *)
Theorem speak_text_only_temp_files tts refuse text lang w p :
  text <> "" ->
  let wav := tmp_name (tmp_counter w) ".wav" in
  let run := speak_text_via tts (os_unlink_or refuse) text lang w in
  (exists b, fst run = Ret (Some b)) /\
  (p <> wav -> p <> tmp_name (S (tmp_counter w)) "" -> fs (snd run) !! p = fs w !! p) /\
  (refuse wav = None -> fs (snd run) !! wav = None) /\
  (forall e, refuse wav = Some e -> is_Some (fs (snd run) !! wav) ->
             Log ERROR ("Cleanup error: " +:+ str e) ∈ emitted w (snd run)).
Proof.
  intros Htext. cbv zeta.
  destruct (speak_text_via_disk tts refuse text lang w Htext) as (Hret & Hframe & Hwav & _).
  split; [done|]. split; [by apply Hframe|]. split; [done|].
  intros e. by apply speak_text_via_cleanup_error.
Qed.

Lemma speak_text_only_temp_files_witness :
  let w := mkWorld {[ "notes.txt" := 12%N ]} 0 [] in
  let run := speak_text_via no_espeak_tts (os_unlink_or wav_held_open) "hello" "en" w in
  fst run = Ret (Some true) /\
  fs (snd run) !! "notes.txt" = Some 12%N /\
  is_Some (fs (snd run) !! "/tmp/tmp0.wav") /\
  Log ERROR "Cleanup error: [WinError 32] The process cannot access the file because it is being used by another process"
    ∈ emitted w (snd run).
Proof.
  cbv zeta.
  destruct (speak_text_only_temp_files no_espeak_tts wav_held_open "hello" "en"
              (mkWorld {[ "notes.txt" := 12%N ]} 0 []) "notes.txt")
    as (_ & Hother & _ & Hlogged); [discriminate|].
  assert (Hkept : is_Some
            (fs (snd (speak_text_via no_espeak_tts (os_unlink_or wav_held_open)
                        "hello" "en" (mkWorld {[ "notes.txt" := 12%N ]} 0 [])))
             !! "/tmp/tmp0.wav")) by (vm_compute; by eexists).
  split; [vm_compute; reflexivity|].
  split; [rewrite Hother; [vm_compute; reflexivity | discriminate | discriminate]|].
  split; [exact Hkept|].
  apply (Hlogged (Exception "[WinError 32] The process cannot access the file because it is being used by another process"));
    [vm_compute; reflexivity | exact Hkept].
Defined.

(** X5: [speak_text] leaves the disk exactly as it found it when
    [subprocess.run] can start the program (it returns, with whatever exit
    status) and [os.unlink] refuses neither of the two temporary files:
    both are gone. *)
Theorem speak_text_restores_disk tts refuse text lang w :
  (forall cmd, exists process, snd (subprocess_run tts cmd) = Ret process) ->
  refuse (tmp_name (tmp_counter w) ".wav") = None ->
  refuse (tmp_name (S (tmp_counter w)) "") = None ->
  fs w !! tmp_name (tmp_counter w) ".wav" = None ->
  fs w !! tmp_name (S (tmp_counter w)) "" = None ->
  fs (snd (speak_text_via tts (os_unlink_or refuse) text lang w)) = fs w.
Proof.
  intros Hrun Hfree_wav Hfree_txt Hwav Htxt.
  destruct (decide (text = "")) as [->|Htext]; [done|].
  destruct (speak_text_via_disk tts refuse text lang w Htext)
    as (_ & Hframe & Hwav' & Htxt').
  apply map_eq. intros p.
  destruct (decide (p = tmp_name (tmp_counter w) ".wav")) as [->|Hp1];
    [by rewrite Hwav', Hwav|].
  destruct (decide (p = tmp_name (S (tmp_counter w)) "")) as [->|Hp2];
    [by rewrite Htxt', Htxt|].
  by apply Hframe.
Qed.

Lemma speak_text_restores_disk_witness :
  fs (snd (speak_text hollow_tts "hello" "en" empty_world)) = fs empty_world.
Proof.
  rewrite speak_text_as_via.
  apply (speak_text_restores_disk hollow_tts (fun _ => None) "hello" "en" empty_world).
  - intros cmd. eexists. reflexivity.
  - reflexivity.
  - reflexivity.
  - vm_compute. reflexivity.
  - vm_compute. reflexivity.
Defined.

(** ** What [speak_text] answers *)

Section SpeakOutcome.
Variable tts : SpeechEngines.

Lemma synthesize_never_prints text lang temp_filename :
  emits_only (fun e => is_print e = false) (synthesize tts text lang temp_filename).
Proof.
  unfold synthesize, try_ms_speech, ms_speak, try_espeak, try_pyttsx3, write_close.
  emits_only_tac.
Qed.

Lemma speak_text_outcome text lang w :
  text <> "" ->
  let run := speak_text tts text lang w in
  exists b,
    fst run = Ret (Some b) /\
    (b = true <->
     fst (synthesize tts text lang (tmp_name (tmp_counter w) ".wav")
                     (speak_start text lang w)) = Ret true /\
     exists polls, mixer_play tts (tmp_name (tmp_counter w) ".wav") = Ret polls) /\
    (fallback_line text lang ∈ emitted w (snd run) <-> b = false).
Proof.
  intros Htext. cbv zeta.
  change (post (speak_text tts text lang) w
    (fun o w' =>
       exists b,
         o = Ret (Some b) /\
         (b = true <->
          fst (synthesize tts text lang (tmp_name (tmp_counter w) ".wav")
                          (speak_start text lang w)) = Ret true /\
          exists polls, mixer_play tts (tmp_name (tmp_counter w) ".wav") = Ret polls) /\
         (fallback_line text lang ∈ emitted w w' <-> b = false))).
  unfold speak_text. rewrite bool_decide_eq_false_2 by done.
  do 5 post_step.
  destruct (synthesize_never_prints text lang (tmp_name (tmp_counter w) ".wav")
              (speak_start text lang w)) as (evs & Hevs & Hquiet).
  destruct (synthesize_returns tts text lang (tmp_name (tmp_counter w) ".wav")
              (speak_start text lang w)) as (b1 & w1 & Hrun).
  unfold speak_start in *.
  unfold post at 1. rewrite Hrun in *. cbn [fst snd trace] in *.
  assert (Hnot : fallback_line text lang ∉ evs).
  { intros Hin. rewrite Forall_forall in Hquiet. by apply Hquiet in Hin. }
  unfold play_audio.
  destruct b1; repeat speak_step;
    (eexists; split; [reflexivity|]);
    (split;
     [ split;
       [ intros Hb; first [discriminate Hb | split; [done | by eexists]]
       | intros [Hs [polls Hp]]; congruence ]
     | unfold emitted; cbn [trace]; rewrite Hevs, <- ?app_assoc, drop_app_length;
       unfold fallback_line in *;
       rewrite ?elem_of_app, ?elem_of_cons, ?elem_of_nil, ?elem_of_replicate;
       split; intuition (try discriminate; try congruence) ]).
Qed.
Lemma try_ms_speech_first_engine_only text lang temp_filename tts_success :
  emits_only (fun e => is_espeak_event e = false /\ is_pyttsx3_event e = false)
             (try_ms_speech tts text lang temp_filename tts_success).
Proof. unfold try_ms_speech, ms_speak. emits_only_tac. Qed.

Lemma try_espeak_not_third_engine text lang temp_filename tts_success :
  emits_only (fun e => is_pyttsx3_event e = false)
             (try_espeak tts text lang temp_filename tts_success).
Proof. unfold try_espeak, write_close. emits_only_tac. Qed.

Lemma synthesize_engine_order text lang temp_filename w e :
  let s1 := try_ms_speech tts text lang temp_filename false w in
  let s2 := try_espeak tts text lang temp_filename false (snd s1) in
  e ∈ emitted w (snd (synthesize tts text lang temp_filename w)) ->
  (is_espeak_event e = true -> fst s1 = Ret false) /\
  (is_pyttsx3_event e = true -> fst s1 = Ret false /\ fst s2 = Ret false).
Proof.
  cbv zeta. rewrite synthesize_chain. cbv zeta.
  destruct (try_ms_speech_first_engine_only text lang temp_filename false w)
    as (evs1 & Ht1 & HP1).
  destruct (try_ms_speech_returns tts text lang temp_filename false w)
    as (b1 & w1 & Hs1).
  rewrite Hs1 in *. cbn [fst snd verified] in *.
  rewrite Forall_forall in HP1.
  destruct b1; cbn [fst snd verified] in *.
  { rewrite (emitted_app _ _ _ Ht1). intros [He1 He2]%HP1.
    split; intros; congruence. }
  destruct (try_espeak_not_third_engine text lang temp_filename false w1)
    as (evs2 & Ht2 & HP2).
  destruct (try_espeak_returns tts text lang temp_filename false w1)
    as (b2 & w2 & Hs2).
  rewrite Hs2 in *. cbn [fst snd verified] in *.
  rewrite Forall_forall in HP2.
  destruct b2; cbn [fst snd verified] in *; [|by intros _].
  rewrite Ht1, <- app_assoc in Ht2. rewrite (emitted_app _ _ _ Ht2).
  intros [[_ He]%HP1|He%HP2]%elem_of_app; (split; [done|]); intros; congruence.
Qed.
End SpeakOutcome.

(** X6: [speak_text] answers [True] exactly when one of the engines produced a
    big enough file and the mixer then played it without an error. *)
Theorem speak_text_true_iff_played tts text lang w :
  text <> "" ->
  fst (speak_text tts text lang w) = Ret (Some true) <->
  fst (synthesize tts text lang (tmp_name (tmp_counter w) ".wav")
                  (speak_start text lang w)) = Ret true /\
  exists polls, mixer_play tts (tmp_name (tmp_counter w) ".wav") = Ret polls.
Proof.
  intros Htext.
  destruct (speak_text_outcome tts text lang w Htext) as (b & Hrun & Hb & _).
  rewrite Hrun, <- Hb. split; [by intros [= ->] | by intros ->].
Qed.

Lemma speak_text_true_iff_played_witness :
  fst (synthesize hollow_tts "hello" "en" "/tmp/tmp0.wav"
                  (speak_start "hello" "en" empty_world)) = Ret true /\
  mixer_play hollow_tts "/tmp/tmp0.wav" = Ret 3 /\
  fst (speak_text hollow_tts "hello" "en" empty_world) = Ret (Some true).
Proof.
  assert (Hsyn : fst (synthesize hollow_tts "hello" "en" "/tmp/tmp0.wav"
                        (speak_start "hello" "en" empty_world)) = Ret true)
    by (vm_compute; reflexivity).
  split; [exact Hsyn|]. split; [reflexivity|].
  apply (speak_text_true_iff_played hollow_tts "hello" "en" empty_world);
    [discriminate|].
  split; [exact Hsyn | by exists 3].
Defined.

(** X7: The text is printed exactly when [speak_text] answers [False]: a mixer
    error after a successful synthesis counts, and a success prints
    nothing. *)
Theorem speak_text_prints_iff_false tts text lang w :
  text <> "" ->
  fallback_line text lang ∈ emitted w (snd (speak_text tts text lang w)) <->
  fst (speak_text tts text lang w) = Ret (Some false).
Proof.
  intros Htext.
  destruct (speak_text_outcome tts text lang w Htext) as (b & Hrun & _ & Hprint).
  rewrite Hrun, Hprint. split; [by intros -> | by intros [= ->]].
Qed.

(** X8: An engine is called only after every engine before it has failed. *)
Theorem synthesize_in_order tts text lang temp_filename w e :
  let s1 := try_ms_speech tts text lang temp_filename false w in
  let s2 := try_espeak tts text lang temp_filename false (snd s1) in
  e ∈ emitted w (snd (synthesize tts text lang temp_filename w)) ->
  (is_espeak_event e = true -> fst s1 = Ret false) /\
  (is_pyttsx3_event e = true -> fst s1 = Ret false /\ fst s2 = Ret false).
Proof. apply synthesize_engine_order. Qed.


Lemma speak_text_prints_iff_false_witness :
  fst (speak_text mute_tts "hello" "en" empty_world) = Ret (Some false) /\
  fallback_line "hello" "en"
    ∈ emitted empty_world (snd (speak_text mute_tts "hello" "en" empty_world)).
Proof.
  assert (Hfalse : fst (speak_text mute_tts "hello" "en" empty_world) = Ret (Some false))
    by (vm_compute; reflexivity).
  split; [exact Hfalse|].
  apply (speak_text_prints_iff_false mute_tts "hello" "en" empty_world);
    [discriminate | exact Hfalse].
Defined.

Lemma synthesize_in_order_witness :
  let w := mkWorld {[ "/tmp/out.wav" := 0%N ]} 0 [] in
  let s1 := try_ms_speech hollow_tts "hello" "en" "/tmp/out.wav" false w in
  let s2 := try_espeak hollow_tts "hello" "en" "/tmp/out.wav" false (snd s1) in
  EvPyttsx3Init ∈ emitted w (snd (synthesize hollow_tts "hello" "en" "/tmp/out.wav" w)) /\
  fst s1 = Ret false /\ fst s2 = Ret false.
Proof.
  cbv zeta.
  assert (Hin : EvPyttsx3Init
                ∈ emitted (mkWorld {[ "/tmp/out.wav" := 0%N ]} 0 [])
                    (snd (synthesize hollow_tts "hello" "en" "/tmp/out.wav"
                            (mkWorld {[ "/tmp/out.wav" := 0%N ]} 0 []))))
    by (vm_compute; repeat constructor).
  split; [exact Hin|].
  apply (synthesize_in_order hollow_tts "hello" "en" "/tmp/out.wav"
           (mkWorld {[ "/tmp/out.wav" := 0%N ]} 0 []) EvPyttsx3Init Hin).
  reflexivity.
Defined.

(** ** [ms_speak] *)

Lemma contains_empty s : contains "" s = true.
Proof. by destruct s. Qed.

(** X9: For a language code outside its table [ms_speak] searches for the empty
    string, which every description contains: the first voice listed is the
    one selected, not the default voice. *)
Theorem ms_speak_unknown_language_first_voice
    tts text lang output_file voice voices w :
  ms_lang_map !! lang = None ->
  sapi_voices tts = Ret (voice :: voices) ->
  EvSapiSpeak text output_file (Some voice)
    ∈ emitted w (snd (ms_speak tts text lang output_file w)) /\
  Log INFO ("Found SAPI voice for " +:+ lang +:+ ": " +:+ voice)
    ∈ emitted w (snd (ms_speak tts text lang output_file w)).
Proof.
  intros Hlang Hvoices.
  change (post (ms_speak tts text lang output_file) w
    (fun _ w' =>
       EvSapiSpeak text output_file (Some voice) ∈ emitted w w' /\
       Log INFO ("Found SAPI voice for " +:+ lang +:+ ": " +:+ voice) ∈ emitted w w')).
  unfold ms_speak. rewrite Hlang, Hvoices.
  repeat post_step;
    repeat match goal with
           | H : List.find _ (_ :: _) = _ |- _ =>
               cbn [List.find default lower] in H; rewrite contains_empty in H
           end;
    simplify_eq; trace_leaf; split; by repeat constructor.
Qed.

Lemma ms_speak_unknown_language_first_voice_witness :
  ms_lang_map !! "fr" = None /\
  EvSapiSpeak "bonjour" "/tmp/out.wav"
              (Some "Microsoft Zira Desktop - English (United States)")
    ∈ emitted empty_world (snd (ms_speak hollow_tts "bonjour" "fr" "/tmp/out.wav" empty_world)).
Proof.
  assert (Hlang : ms_lang_map !! "fr" = None) by (vm_compute; reflexivity).
  split; [exact Hlang|].
  apply (ms_speak_unknown_language_first_voice hollow_tts "bonjour" "fr" "/tmp/out.wav"
           "Microsoft Zira Desktop - English (United States)" [] empty_world Hlang).
  reflexivity.
Defined.

(** ** The request handler beyond the claims *)

(** Two answers of the same collaborator to the same call are one answer. *)
Ltac same_answer :=
  repeat match goal with
         | H1 : ?x = Raise _, H2 : ?x = Raise _ |- _ =>
             rewrite H1 in H2; injection H2 as <-
         | H1 : ?x = Ret _, H2 : ?x = Ret _ |- _ =>
             rewrite H1 in H2; injection H2 as <-
         end.

(** *** Outcomes that do not depend on the world *)

Lemma ret_world_blind {A} (a : A) : world_blind (ret a).
Proof. done. Qed.

Lemma raise_world_blind {A} e : world_blind (@raise A e).
Proof. done. Qed.

Lemma lift_world_blind {A} (o : outcome A) : world_blind (lift o).
Proof. done. Qed.

Lemma emit_world_blind e : world_blind (emit e).
Proof. done. Qed.

Lemma dict_get_world_blind {V} (d : gmap string V) k : world_blind (dict_get d k).
Proof. unfold dict_get. by destruct (d !! k). Qed.

Lemma bind_world_blind {A B} (m : M A) (k : A -> M B) :
  world_blind m -> (forall a, world_blind (k a)) -> world_blind (bind m k).
Proof.
  intros Hm Hk w1 w2. unfold bind. specialize (Hm w1 w2).
  destruct (m w1) as [[a1|e1] w1'], (m w2) as [[a2|e2] w2'];
    cbn [fst] in *; simplify_eq; [apply Hk | done].
Qed.

Lemma try_except_world_blind {A} (body : M A) (handler : exn -> M A) :
  world_blind body -> (forall e, world_blind (handler e)) ->
  world_blind (try_except body handler).
Proof.
  intros Hm Hk w1 w2. unfold try_except. specialize (Hm w1 w2).
  destruct (body w1) as [[a1|e1] w1'], (body w2) as [[a2|e2] w2'];
    cbn [fst] in *; simplify_eq; [done | apply Hk].
Qed.

Ltac world_blind_tac :=
  repeat first
    [ apply try_except_world_blind; intros
    | apply bind_world_blind; intros
    | apply ret_world_blind | apply raise_world_blind | apply lift_world_blind
    | apply emit_world_blind | apply dict_get_world_blind
    | match goal with |- world_blind (if ?b then _ else _) => destruct b end
    | match goal with |- world_blind (match ?x with _ => _ end) => destruct x end ].

Lemma translate_text_world_blind lang_dict engine text source target :
  world_blind (translate_text lang_dict engine text source target).
Proof.
  unfold translate_text, call_get_translation, call_translate, logger.
  world_blind_tac.
Qed.

Lemma post_translate_text_result
    lang_dict engine text source target w w1 translated Q :
  fst (translate_text lang_dict engine text source target w) = Ret translated ->
  (forall w', Q (Ret translated) w') ->
  post (translate_text lang_dict engine text source target) w1 Q.
Proof.
  intros Hrun HQ. unfold post.
  rewrite (translate_text_world_blind lang_dict engine text source target w1 w), Hrun.
  apply HQ.
Qed.

Section HandlerErrors.
Variable lang_dict : gmap string Language.
Variable engine : TranslationEngine.
Variable tts : SpeechEngines.
Variable rec : Recognizer.
Variable recognize : M string.
Variable speak : string -> string -> M (option bool).

(** X10: A request (a JSON object with strings as values) without a ["source"]
    or ["target"] entry, or naming a language that is not in [LANGUAGES],
    is answered with the [KeyError] of the first failing lookup, whose text
    is the [repr] of the missing key; nothing else happens: no model is
    loaded, no audio is captured, the disk is untouched. *)
Theorem translate_key_error data key w :
  request_key_error data = Some key ->
  is_ascii key = true ->
  let run := translate lang_dict engine tts rec data w in
  let msg := "Error in translation route: " +:+ py_repr key in
  fst run = Ret (error_response msg) /\
  emitted w (snd run) = [Log ERROR msg] /\
  fs (snd run) = fs w.
Proof.
  unfold request_key_error. intros Hkey _. cbv zeta.
  change (py_repr key) with (str (KeyError key)).
  change (post (translate lang_dict engine tts rec data) w
    (fun o w' =>
       o = Ret (error_response ("Error in translation route: " +:+ str (KeyError key))) /\
       emitted w w' = [Log ERROR ("Error in translation route: " +:+ str (KeyError key))] /\
       fs w' = fs w)).
  unfold translate.
  destruct (data !! "source") as [source|] eqn:Hs;
    [destruct (data !! "target") as [target|] eqn:Ht;
     [destruct (LANGUAGES !! source) as [source_code|] eqn:Hsc;
      [destruct (LANGUAGES !! target) as [target_code|] eqn:Htc; [discriminate|]|]|]|];
    simplify_eq;
    repeat (post_step; try congruence);
    simplify_eq; cbn [fs trace]; (split; [done|]); (split; [by trace_leaf | done]).
Qed.

(** X11: When the recognition model of the source language is not on disk, the
    answer is the "not found" error naming language and path; no model is
    loaded and no audio is captured. *)
Theorem translate_model_not_found data w source source_code target target_code model_path :
  request_resolves data source source_code target target_code model_path ->
  fs w !! model_path = None ->
  let run := translate lang_dict engine tts rec data w in
  let msg := "Model for " +:+ source +:+ " not found at " +:+ model_path +:+ "!" in
  fst run = Ret (error_response msg) /\
  emitted w (snd run)
  = [Log INFO ("Translating from " +:+ source +:+ " (" +:+ source_code +:+ ") to "
               +:+ target +:+ " (" +:+ target_code +:+ ")");
     Log ERROR msg] /\
  fs (snd run) = fs w.
Proof.
  intros (Hs & Ht & Hsc & Htc & Hmp) Hfile. cbv zeta.
  change (post (translate lang_dict engine tts rec data) w
    (fun o w' =>
       o = Ret (error_response ("Model for " +:+ source +:+ " not found at "
                                +:+ model_path +:+ "!")) /\
       emitted w w'
       = [Log INFO ("Translating from " +:+ source +:+ " (" +:+ source_code +:+ ") to "
                    +:+ target +:+ " (" +:+ target_code +:+ ")");
          Log ERROR ("Model for " +:+ source +:+ " not found at "
                     +:+ model_path +:+ "!")] /\
       fs w' = fs w)).
  unfold translate.
  repeat (post_step; try congruence);
    simplify_eq/=; (split; [done|]); (split; [by trace_leaf | done]).
Qed.

(** X12: When the model is on disk but [vosk.Model] raises, the answer is the
    "Failed to create model" error; no audio is captured. *)
Theorem translate_model_load_fails
    data w source source_code target target_code model_path size e :
  request_resolves data source source_code target target_code model_path ->
  fs w !! model_path = Some size ->
  vosk_model rec model_path = Raise e ->
  let run := translate lang_dict engine tts rec data w in
  let msg := "Failed to create model: " +:+ str e in
  fst run = Ret (error_response msg) /\
  emitted w (snd run)
  = [Log INFO ("Translating from " +:+ source +:+ " (" +:+ source_code +:+ ") to "
               +:+ target +:+ " (" +:+ target_code +:+ ")");
     EvModelLoad model_path;
     Log ERROR msg] /\
  fs (snd run) = fs w.
Proof.
  intros (Hs & Ht & Hsc & Htc & Hmp) Hfile Hmodel. cbv zeta.
  change (post (translate lang_dict engine tts rec data) w
    (fun o w' =>
       o = Ret (error_response ("Failed to create model: " +:+ str e)) /\
       emitted w w'
       = [Log INFO ("Translating from " +:+ source +:+ " (" +:+ source_code +:+ ") to "
                    +:+ target +:+ " (" +:+ target_code +:+ ")");
          EvModelLoad model_path;
          Log ERROR ("Failed to create model: " +:+ str e)] /\
       fs w' = fs w)).
  unfold translate.
  repeat (post_step; try congruence);
    simplify_eq/=; same_answer; (split; [done|]); (split; [by trace_leaf | done]).
Qed.

(** X13: When the recognizer cannot be created or the microphone stream cannot
    be opened, the answer is the route error with that exception; no chunk
    of audio is read and neither translation nor synthesis is reached. *)
Theorem translate_recognition_fails
    data w source source_code target target_code model_path size e :
  request_resolves data source source_code target target_code model_path ->
  fs w !! model_path = Some size ->
  vosk_model rec model_path = Ret tt ->
  kaldi_recognizer rec = Raise e \/
  (kaldi_recognizer rec = Ret tt /\ raw_input_stream rec = Raise e) ->
  let run := translate lang_dict engine tts rec data w in
  fst run = Ret (error_response ("Error in translation route: " +:+ str e)) /\
  (EvChunk ∉ emitted w (snd run)) /\
  Forall recognition_side (emitted w (snd run)) /\
  fs (snd run) = fs w.
Proof.
  intros (Hs & Ht & Hsc & Htc & Hmp) Hfile Hmodel Hfail. cbv zeta.
  change (post (translate lang_dict engine tts rec data) w
    (fun o w' =>
       o = Ret (error_response ("Error in translation route: " +:+ str e)) /\
       (EvChunk ∉ emitted w w') /\
       Forall recognition_side (emitted w w') /\
       fs w' = fs w)).
  unfold translate, recognize_speech.
  destruct Hfail as [Hkaldi|[Hkaldi Hstream]];
    repeat (post_step; try congruence);
    simplify_eq/=; same_answer; (split; [done|]); trace_leaf;
    (split; [intros Hin; by not_among Hin|]);
    (split; [by repeat (apply Forall_cons; split; [done|]) | done]).
Qed.

(** The handler of the development is the handler with its callees left
    open, called with [recognize_speech] and [speak_text]. *)
Lemma translate_as_via data :
  translate lang_dict engine tts rec data
  = translate_via lang_dict engine rec (recognize_speech rec) (speak_text tts) data.
Proof. reflexivity. Qed.

(** X14: When recognition delivers and both languages are installed, the answer
    depends on how the call of [speak_text] ends, not on what it achieves:
    if it returns, the answer carries the recognized text and what
    [translate_text] makes of it (failures that [speak_text] catches
    itself do not show); if it raises, the answer is the "Translation
    failed" error of lines 453-460 with the recognized text and without a
    translated one. *)
Theorem translate_answers_with_translation
    data w source source_code target target_code model_path size recognized :
  request_resolves data source source_code target target_code model_path ->
  fs w !! model_path = Some size ->
  vosk_model rec model_path = Ret tt ->
  kaldi_recognizer rec = Ret tt ->
  (forall w', fst (recognize w') = Ret recognized) ->
  is_Some (lang_dict !! source_code) -> is_Some (lang_dict !! target_code) ->
  let answer := fst (translate_via lang_dict engine rec recognize speak data w) in
  exists translated,
    fst (translate_text lang_dict engine recognized source_code target_code w)
    = Ret translated /\
    ((forall w', exists r, fst (speak translated target_code w') = Ret r) ->
     answer = Ret (list_to_map [("recognized", JStr recognized);
                                ("translated", JStr translated)])) /\
    (forall e,
       (forall w', fst (speak translated target_code w') = Raise e) ->
       answer = Ret (list_to_map [("error", JStr ("Translation failed: " +:+ str e));
                                  ("recognized", JStr recognized);
                                  ("can_translate", JBool false)])).
Proof.
  intros (Hs & Ht & Hsc & Htc & Hmp) Hfile Hmodel Hkaldi Hrecognize Hsrc Htgt.
  cbv zeta.
  destruct (translate_text_returns lang_dict engine recognized source_code target_code w)
    as (translated & w0 & Hrun).
  exists translated. rewrite Hrun. split; [done|].
  change (post (translate_via lang_dict engine rec recognize speak data) w
    (fun o _ =>
       ((forall w', exists r, fst (speak translated target_code w') = Ret r) ->
        o = Ret (list_to_map [("recognized", JStr recognized);
                              ("translated", JStr translated)])) /\
       (forall e,
          (forall w', fst (speak translated target_code w') = Raise e) ->
          o = Ret (list_to_map [("error", JStr ("Translation failed: " +:+ str e));
                                ("recognized", JStr recognized);
                                ("can_translate", JBool false)])))).
  unfold translate_via.
  repeat (first [ post_step
                | eapply post_of_fst; [apply Hrecognize|]; intros ?; cbv beta iota ];
          try congruence);
    simplify_eq/=.
  - eapply post_translate_text_result; [by rewrite Hrun|]. intros w1.
    do 3 post_step. apply post_cases.
    intros [r|e] w2 Hspeak; cbv beta iota; repeat post_step.
    + split; [done|]. intros e Hraises.
      match type of Hspeak with
      | speak _ _ ?w3 = _ => specialize (Hraises w3)
      end.
      rewrite Hspeak in Hraises. discriminate.
    + split.
      * intros Hreturns.
        match type of Hspeak with
        | speak _ _ ?w3 = _ => destruct (Hreturns w3) as [r Hr]
        end.
        rewrite Hspeak in Hr. discriminate.
      * intros e' Hraises.
        match type of Hspeak with
        | speak _ _ ?w3 = _ => specialize (Hraises w3)
        end.
        rewrite Hspeak in Hraises. by simplify_eq/=.
  - match goal with
    | Hboth : _ && _ = false |- _ =>
        rewrite !bool_decide_eq_true_2 in Hboth by done; done
    end.
Qed.

(** X15: Every request is answered, whatever the callees do when they come
    back: the handler never raises, and its response either carries an
    error or carries both the recognized and the translated text. *)
Theorem translate_always_answers data w :
  exists response,
    fst (translate_via lang_dict engine rec recognize speak data w) = Ret response /\
    (is_Some (response !! "error") \/
     (is_Some (response !! "recognized") /\ is_Some (response !! "translated"))).
Proof.
  change (post (translate_via lang_dict engine rec recognize speak data) w
    (fun o _ =>
       exists response,
         o = Ret response /\
         (is_Some (response !! "error") \/
          (is_Some (response !! "recognized") /\ is_Some (response !! "translated"))))).
  unfold translate_via.
  repeat first [ post_step
               | apply post_translate_text; intros ? ? ? ? ?
               | apply post_any; intros [?|?] ? ];
    (eexists; split; [reflexivity|]);
    first [ left; by eexists | right; split; by eexists ].
Qed.
End HandlerErrors.

Lemma translate_key_error_witness :
  request_key_error (request "English" "Klingon") = Some "Klingon" /\
  py_repr "it's" = String double_quote ("it's" +:+ String double_quote "") /\
  fst (translate sample_lang_dict failing_engine dead_tts (sample_recognizer "hello")
                 (request "English" "Klingon") models_world)
  = Ret (error_response "Error in translation route: 'Klingon'").
Proof.
  assert (Hkey : request_key_error (request "English" "Klingon") = Some "Klingon")
    by (vm_compute; reflexivity).
  split; [exact Hkey|]. split; [reflexivity|].
  apply (translate_key_error sample_lang_dict failing_engine dead_tts
           (sample_recognizer "hello") (request "English" "Klingon") "Klingon"
           models_world Hkey).
  reflexivity.
Defined.

Lemma request_english_hindi_resolves :
  request_resolves (request "English" "Hindi") "English" "en" "Hindi" "hi"
                   "models/vosk-model-small-en-us-0.15".
Proof. repeat split; vm_compute; reflexivity. Defined.

Lemma translate_model_not_found_witness :
  fs empty_world !! "models/vosk-model-small-en-us-0.15" = None /\
  fst (translate sample_lang_dict failing_engine dead_tts (sample_recognizer "hello")
                 (request "English" "Hindi") empty_world)
  = Ret (error_response
           "Model for English not found at models/vosk-model-small-en-us-0.15!").
Proof.
  split; [reflexivity|].
  apply (translate_model_not_found sample_lang_dict failing_engine dead_tts
           (sample_recognizer "hello") (request "English" "Hindi") empty_world
           "English" "en" "Hindi" "hi" "models/vosk-model-small-en-us-0.15"
           request_english_hindi_resolves).
  reflexivity.
Defined.

Lemma translate_model_load_fails_witness :
  vosk_model broken_model_recognizer "models/vosk-model-small-en-us-0.15"
  = Raise (Exception "Failed to create a model") /\
  fst (translate sample_lang_dict failing_engine dead_tts broken_model_recognizer
                 (request "English" "Hindi") models_world)
  = Ret (error_response "Failed to create model: Failed to create a model").
Proof.
  split; [reflexivity|].
  apply (translate_model_load_fails sample_lang_dict failing_engine dead_tts
           broken_model_recognizer (request "English" "Hindi") models_world
           "English" "en" "Hindi" "hi" "models/vosk-model-small-en-us-0.15" 4096%N
           (Exception "Failed to create a model") request_english_hindi_resolves).
  - vm_compute. reflexivity.
  - reflexivity.
Defined.

Lemma translate_recognition_fails_witness :
  raw_input_stream no_microphone_recognizer = Raise (Exception "Error querying device -1") /\
  fst (translate sample_lang_dict failing_engine dead_tts no_microphone_recognizer
                 (request "English" "Hindi") models_world)
  = Ret (error_response "Error in translation route: Error querying device -1").
Proof.
  split; [reflexivity|].
  apply (translate_recognition_fails sample_lang_dict failing_engine dead_tts
           no_microphone_recognizer (request "English" "Hindi") models_world
           "English" "en" "Hindi" "hi" "models/vosk-model-small-en-us-0.15" 4096%N
           (Exception "Error querying device -1") request_english_hindi_resolves).
  - vm_compute. reflexivity.
  - reflexivity.
  - right. split; reflexivity.
Defined.

Lemma translate_answers_with_translation_witness :
  fst (translate_via sample_lang_dict pivot_only_engine (sample_recognizer "hello")
                     (ret "hello") disk_full_speak
                     (request "English" "Hindi") models_world)
  = Ret (list_to_map
           [("error", JStr "Translation failed: [Errno 28] No space left on device");
            ("recognized", JStr "hello");
            ("can_translate", JBool false)]).
Proof.
  destruct (translate_answers_with_translation sample_lang_dict pivot_only_engine
              (sample_recognizer "hello") (ret "hello") disk_full_speak
              (request "English" "Hindi") models_world
              "English" "en" "Hindi" "hi" "models/vosk-model-small-en-us-0.15" 4096%N
              "hello" request_english_hindi_resolves)
    as (translated & _ & _ & Hraises).
  - vm_compute. reflexivity.
  - reflexivity.
  - reflexivity.
  - reflexivity.
  - vm_compute. by eexists.
  - vm_compute. by eexists.
  - rewrite (Hraises (Exception "[Errno 28] No space left on device")); reflexivity.
Defined.

(** ** Start-up: [initialize_translations] *)

Lemma tables_in_source_order :
  LANGUAGES = list_to_map LANGUAGE_ITEMS /\ MODEL_PATHS = list_to_map MODEL_PATH_ITEMS.
Proof. split; reflexivity. Qed.

Lemma pairs_filed_refl s : pairs_filed [] s s.
Proof. exists [], [], []. by rewrite !app_nil_r. Qed.

Lemma pairs_filed_trans names1 names2 s s1 s2 :
  pairs_filed names1 s s1 -> pairs_filed names2 s1 s2 ->
  pairs_filed (names1 ++ names2) s s2.
Proof.
  intros (a1 & m1 & n1 & Ha1 & Hm1 & Hn1 & Hp1) (a2 & m2 & n2 & Ha2 & Hm2 & Hn2 & Hp2).
  exists (a1 ++ a2)%list, (m1 ++ m2)%list, (n1 ++ n2)%list.
  split; [by rewrite Ha2, Ha1, app_assoc|].
  split; [by rewrite Hm2, Hm1, app_assoc|].
  split; [by apply Forall2_app|].
  rewrite <- Hp1, <- Hp2, <- !app_assoc. apply Permutation_app_head.
  rewrite !app_assoc. apply Permutation_app_tail, Permutation_app_comm.
Qed.

Lemma pairs_filed_length names s s' :
  pairs_filed names s s' ->
  length (fst s') + length (snd s') = length (fst s) + length (snd s) + length names.
Proof.
  intros (a & m & n & -> & -> & Hn & Hp).
  rewrite <- (Permutation_length Hp), !length_app, (Forall2_length _ _ _ Hn). lia.
Qed.

Lemma pairs_grew_refl s w : pairs_grew [] s w s w.
Proof.
  split; [apply pairs_filed_refl|]. split; [done|]. exists []. by rewrite app_nil_r.
Qed.

Lemma pairs_grew_trans names1 names2 s w s1 w1 s2 w2 :
  pairs_grew names1 s w s1 w1 -> pairs_grew names2 s1 w1 s2 w2 ->
  pairs_grew (names1 ++ names2) s w s2 w2.
Proof.
  intros (Hn & Hfs1 & evs1 & Ht1 & Hev1) (Hm & Hfs2 & evs2 & Ht2 & Hev2).
  split; [by eapply pairs_filed_trans|]. split; [congruence|].
  exists (evs1 ++ evs2)%list. split; [by rewrite Ht2, Ht1, app_assoc|].
  by apply Forall_app.
Qed.

Lemma for_each_pairs_grew {A} (names : A -> list string)
    (body : A -> list string * list string -> M (list string * list string)) items :
  (forall x s w,
     post (body x s) w (fun o w' => exists s', o = Ret s' /\ pairs_grew (names x) s w s' w')) ->
  forall s w,
    post (for_each items body s) w
         (fun o w' => exists s', o = Ret s' /\
                      pairs_grew (flat_map names items) s w s' w').
Proof.
  intros Hbody. induction items as [|x items IH]; intros s w; simpl.
  - exists s. split; [done | apply pairs_grew_refl].
  - apply post_bind. eapply post_mono; [apply Hbody|].
    intros o w1 (s1 & -> & Hstep). cbv beta iota.
    eapply post_mono; [apply IH|].
    intros o w2 (s2 & -> & Hrest). exists s2. split; [done|].
    by eapply pairs_grew_trans.
Qed.

Lemma ordered_pairs_thirty : length ORDERED_PAIRS = 30 /\ NoDup ORDERED_PAIRS.
Proof.
  split; [reflexivity|].
  apply (bool_decide_unpack (NoDup ORDERED_PAIRS)). vm_compute. exact I.
Qed.

Lemma dict_by_code_snoc installed_languages lang :
  dict_by_code (installed_languages ++ [lang])
  = <[code lang := lang]> (dict_by_code installed_languages).
Proof. unfold dict_by_code. by rewrite foldl_app. Qed.

Lemma dict_by_code_lookup installed_languages c lang :
  dict_by_code installed_languages !! c = Some lang ->
  code lang = c /\ lang ∈ installed_languages.
Proof.
  induction installed_languages as [|last installed_languages IH] using rev_ind.
  - done.
  - rewrite dict_by_code_snoc. destruct (decide (code last = c)) as [<-|Hne].
    + rewrite lookup_insert_eq. intros [= <-]. split; [done|].
      apply elem_of_app. right. by apply list_elem_of_singleton.
    + rewrite lookup_insert_ne by done. intros [? ?]%IH. split; [done|].
      apply elem_of_app. by left.
Qed.

Lemma dict_by_code_is_Some installed_languages c :
  is_Some (dict_by_code installed_languages !! c)
  <-> c ∈ List.map code installed_languages.
Proof.
  induction installed_languages as [|last installed_languages IH] using rev_ind.
  - simpl. split; [by intros [? ?] | by intros ?%elem_of_nil].
  - rewrite dict_by_code_snoc, map_app, elem_of_app. simpl.
    rewrite list_elem_of_singleton.
    destruct (decide (code last = c)) as [<-|Hne].
    + rewrite lookup_insert_eq. split; [by right | by eexists].
    + rewrite lookup_insert_ne by done. rewrite IH. split; [by left|].
      intros [?|?]; [done | congruence].
Qed.

(** The note of an entry of [missing_pairs]. *)
Ltac note_entry :=
  lazymatch goal with
  | |- noted (_ +:+ " (missing: " +:+ ?why +:+ ")") _ =>
      exists ("missing: " +:+ why); reflexivity
  | |- noted (_ +:+ " (error: " +:+ ?why +:+ ")") _ =>
      exists ("error: " +:+ why); reflexivity
  end.

Ltac find_leaf :=
  repeat first [ apply list_elem_of_here | apply list_elem_of_further ].

Section InitializeProperties.
Variable engine : TranslationEngine.

Lemma test_pair_grew lang_codes lang_dict source_code target_code s w :
  post (test_pair engine lang_codes lang_dict source_code target_code s) w
       (fun o w' =>
          exists s', o = Ret s' /\
            pairs_grew (pair_tested source_code target_code) s w s' w').
Proof.
  unfold test_pair, call_get_translation, call_translate, pairs_grew, pair_tested.
  repeat post_step;
    (eexists; split; [reflexivity|]); cbn [fst snd fs trace];
    (split;
     [ first
         [ (* nothing filed *)
           apply pairs_filed_refl
         | (* filed as available *)
           exists [source_code +:+ "-" +:+ target_code], [], [];
           cbn [fst snd]; rewrite ?app_nil_r;
           split; [reflexivity|]; split; [reflexivity|]; split; [constructor|];
           reflexivity
         | (* filed as missing *)
           eexists [], [_], [source_code +:+ "-" +:+ target_code];
           cbn [fst snd]; rewrite ?app_nil_r;
           split; [reflexivity|]; split; [reflexivity|];
           split; [constructor; [note_entry | constructor]|];
           reflexivity ]
     | ]);
    (split; [reflexivity|]);
    (eexists; split;
     [ rewrite <- ?app_assoc; first [reflexivity | by rewrite app_nil_r]
     | by repeat constructor ]).
Qed.

Lemma language_loops_grew lang_codes lang_dict s w :
  post (for_each LANGUAGE_CODES
          (fun source_code =>
             for_each LANGUAGE_CODES
               (fun target_code =>
                  test_pair engine lang_codes lang_dict source_code target_code)) s) w
       (fun o w' => exists s', o = Ret s' /\ pairs_grew ORDERED_PAIRS s w s' w').
Proof.
  unfold ORDERED_PAIRS.
  apply (for_each_pairs_grew
           (fun source_code => flat_map (pair_tested source_code) LANGUAGE_CODES)).
  intros source_code s0 w0.
  apply (for_each_pairs_grew (pair_tested source_code)).
  intros target_code s1 w1. apply test_pair_grew.
Qed.

Lemma initialize_translations_run installed w :
  post (initialize_translations engine installed) w
       (fun o w' =>
          o = Ret (started_dict installed) /\
          fs w' = fs w /\
          Forall translation_side (emitted w w') /\
          match installed with
          | Ret _ =>
              exists available missing missing_names,
                Permutation (available ++ missing_names) ORDERED_PAIRS /\
                Forall2 noted missing missing_names /\
                Log INFO ("Available translation pairs: " +:+ pretty (length available)
                          +:+ "/30")
                ∈ emitted w w' /\
                Log INFO ("Available pairs: " +:+ String.concat ", " available)
                ∈ emitted w w' /\
                (missing <> [] ->
                 Log WARNING ("Missing pairs: " +:+ String.concat ", " missing)
                 ∈ emitted w w')
          | Raise e =>
              emitted w w' = [Log ERROR ("Error initializing translations: " +:+ str e)]
          end).
Proof.
  unfold initialize_translations.
  apply post_try, post_bind, post_lift. destruct installed as [installed_languages|e].
  - apply post_bind, post_emit. cbn [fs tmp_counter trace].
    apply post_bind. eapply post_mono; [apply language_loops_grew|].
    intros o w1 (s' & -> & Hfiled & Hfs & evs & Htrace & Hevs).
    pose proof (pairs_filed_length _ _ _ Hfiled) as Hlen.
    destruct Hfiled as (available & missing & missing_names & Ha & Hm & Hnoted & Hperm).
    destruct ordered_pairs_thirty as [Hthirty _].
    cbn [fs trace fst snd length] in Hlen, Hfs, Htrace, Ha, Hm.
    rewrite app_nil_l in Ha, Hm.
    replace (length (fst s') + length (snd s')) with 30 by lia.
    rewrite Ha, Hm.
    repeat post_step;
      (split; [reflexivity|]); (split; [done|]);
      trace_leaf_hyps;
      (split;
       [ apply Forall_cons; split; [done|];
         apply Forall_app; split; [done|]; by repeat constructor
       | exists available, missing, missing_names;
         split; [done|]; split; [done|];
         apply and_assoc; split;
         [ split; apply elem_of_cons; right; apply elem_of_app; right;
           [ apply elem_of_cons; by left
           | apply elem_of_cons; right; apply elem_of_cons; by left ]
         | intros Hsome;
           first [ apply elem_of_cons; right; apply elem_of_app; right;
                   do 2 (apply elem_of_cons; right); apply elem_of_cons; by left
                 | match goal with
                   | H : bool_decide _ = false |- _ =>
                       apply bool_decide_eq_false in H; by destruct H
                   end ] ] ]).
  - repeat post_step. split; [reflexivity|]. split; [done|].
    trace_leaf. split; [by repeat constructor | reflexivity].
Qed.
End InitializeProperties.

(** X16: Start-up always hands the application a dictionary: whatever the
    translation engine does in the thirty test translations, and whether or
    not [get_installed_languages()] answers, [initialize_translations]
    returns (the languages filed by code, or the empty dictionary after a
    failure), leaves the disk as it was, and records only logging and
    translation events: it neither synthesises nor captures audio. *)
Theorem initialize_translations_always_starts engine installed w :
  let run := initialize_translations engine installed w in
  fst run = Ret (started_dict installed) /\
  fs (snd run) = fs w /\
  Forall translation_side (emitted w (snd run)).
Proof.
  cbv zeta. pose proof (initialize_translations_run engine installed w) as Hrun.
  unfold post in Hrun. destruct Hrun as (Hret & Hfs & Hside & _). done.
Qed.

(** X17: The dictionary of start-up holds exactly the installed codes, each
    entry filed under its own code and taken from the installed list, also
    when every test translation fails. *)
Theorem initialize_translations_dict_keys engine installed_languages w :
  exists lang_dict,
    fst (initialize_translations engine (Ret installed_languages) w) = Ret lang_dict /\
    (forall c, is_Some (lang_dict !! c) <-> c ∈ List.map code installed_languages) /\
    (forall c lang, lang_dict !! c = Some lang ->
                    code lang = c /\ lang ∈ installed_languages).
Proof.
  exists (dict_by_code installed_languages).
  pose proof (initialize_translations_run engine (Ret installed_languages) w) as Hrun.
  unfold post in Hrun. destruct Hrun as (Hret & _).
  split; [exact Hret|]. split.
  - apply dict_by_code_is_Some.
  - apply dict_by_code_lookup.
Qed.

(** X18: When [get_installed_languages()] answers, start-up files each of the
    thirty ordered pairs of two different configured languages exactly
    once, on exactly one of its two lists: as its name on
    [available_pairs], or as its name with a note on [missing_pairs],
    whatever is installed and whatever the engine does.  These are the
    lists of the summary: the log has the count of the available pairs
    out of 30 and the two lists. *)
Theorem initialize_translations_counts_thirty engine installed_languages w :
  let logged :=
    emitted w (snd (initialize_translations engine (Ret installed_languages) w)) in
  length ORDERED_PAIRS = 30 /\ NoDup ORDERED_PAIRS /\
  exists available missing missing_names,
    Permutation (available ++ missing_names) ORDERED_PAIRS /\
    Forall2 noted missing missing_names /\
    length available <= 30 /\
    Log INFO ("Available translation pairs: " +:+ pretty (length available) +:+ "/30")
    ∈ logged /\
    Log INFO ("Available pairs: " +:+ String.concat ", " available) ∈ logged /\
    (missing <> [] ->
     Log WARNING ("Missing pairs: " +:+ String.concat ", " missing) ∈ logged).
Proof.
  cbv zeta. destruct ordered_pairs_thirty as [Hthirty Hnodup].
  split; [done|]. split; [done|].
  pose proof (initialize_translations_run engine (Ret installed_languages) w) as Hrun.
  unfold post in Hrun.
  destruct Hrun as (_ & _ & _ & available & missing & missing_names
                    & Hperm & Hnoted & Hcount & Hlist & Hmissing).
  exists available, missing, missing_names.
  split; [done|]. split; [done|]. split; [|done].
  rewrite <- Hthirty, <- (Permutation_length Hperm), length_app. lia.
Qed.

(** X19: When [get_installed_languages()] raises at start-up, the application
    still serves requests, and every request that gets through recognition
    is answered with both languages named as missing; the only trace of the
    failure is one ERROR line in the log. *)
Theorem failed_startup_misses_both_languages
    engine e w0 tts rec data w source source_code target target_code :
  recognition_ready rec data w source source_code target target_code ->
  let startup := initialize_translations engine (Raise e) w0 in
  emitted w0 (snd startup) = [Log ERROR ("Error initializing translations: " +:+ str e)] /\
  exists lang_dict,
    fst startup = Ret lang_dict /\
    fst (translate lang_dict engine tts rec data w)
    = Ret (list_to_map
             [("error", JStr ("Missing translation models for: "
                              +:+ String.concat ", "
                                    [source +:+ " (" +:+ source_code +:+ ")";
                                     target +:+ " (" +:+ target_code +:+ ")"]));
              ("recognized", JStr (default "" (final_result rec !! "text")));
              ("can_translate", JBool false);
              ("missing_models", JList [source +:+ " (" +:+ source_code +:+ ")";
                                        target +:+ " (" +:+ target_code +:+ ")"])]).
Proof.
  intros Hready. cbv zeta.
  pose proof (initialize_translations_run engine (Raise e) w0) as Hrun.
  unfold post in Hrun. destruct Hrun as (Hret & _ & _ & Hlog).
  split; [exact Hlog|]. exists ∅. split; [exact Hret|].
  destruct (translate_missing_models ∅ engine tts rec data w
              source source_code target target_code Hready) as (Hresp & _).
  { by left. }
  rewrite Hresp. unfold missing_models.
  rewrite !bool_decide_eq_true_2 by apply lookup_empty.
  reflexivity.
Qed.

Lemma failed_startup_misses_both_languages_witness :
  recognition_ready (sample_recognizer "hello") (request "English" "Hindi")
                    models_world "English" "en" "Hindi" "hi" /\
  exists lang_dict,
    fst (initialize_translations failing_engine (Raise (Exception "no packages"))
                                 empty_world) = Ret lang_dict /\
    fst (translate lang_dict failing_engine dead_tts (sample_recognizer "hello")
                   (request "English" "Hindi") models_world)
    = Ret (list_to_map
             [("error", JStr "Missing translation models for: English (en), Hindi (hi)");
              ("recognized", JStr "hello");
              ("can_translate", JBool false);
              ("missing_models", JList ["English (en)"; "Hindi (hi)"])]).
Proof.
  assert (Hready : recognition_ready (sample_recognizer "hello")
                     (request "English" "Hindi") models_world
                     "English" "en" "Hindi" "hi").
  { repeat (split; [vm_compute; reflexivity|]).
    exists "models/vosk-model-small-en-us-0.15", 4096%N.
    repeat split; vm_compute; reflexivity. }
  split; [exact Hready|].
  destruct (failed_startup_misses_both_languages failing_engine
              (Exception "no packages") empty_world dead_tts
              (sample_recognizer "hello") (request "English" "Hindi") models_world
              "English" "en" "Hindi" "hi" Hready)
    as (_ & lang_dict & Hstart & Hresp).
  exists lang_dict. split; [exact Hstart|].
  rewrite Hresp. vm_compute. reflexivity.
Defined.

(** ** The eSpeak diagnosis: [check_espeak] *)

(** Look a key up in a response that is written out. *)
Ltac response_lookup :=
  rewrite ?list_to_map_cons, ?list_to_map_nil;
  repeat first [ rewrite lookup_insert_eq
               | rewrite lookup_insert_ne by discriminate
               | rewrite lookup_empty ].

Lemma apply_effect_created path eff size files :
  apply_effect path eff (<[path := size]> files) !! path = None <-> eff = Removed.
Proof.
  destruct eff; simpl.
  - rewrite lookup_insert_eq. split; discriminate.
  - rewrite lookup_delete_eq. done.
  - rewrite lookup_insert_eq. split; discriminate.
Qed.

Lemma delete_apply_effect_created path eff size files :
  delete path (apply_effect path eff (<[path := size]> files)) = delete path files.
Proof.
  apply map_eq. intros p. destruct (decide (p = path)) as [->|Hne].
  - by rewrite !lookup_delete_eq.
  - rewrite !lookup_delete_ne by done. rewrite apply_effect_other by done.
    by rewrite lookup_insert_ne.
Qed.

Section CheckEspeakProperties.
Variable run_captured : list string -> file_effect * outcome Captured.Process.

Lemma check_espeak_run_shape w :
  post (check_espeak run_captured) w
       (fun o w' =>
          exists response installed,
            o = Ret response /\
            response !! "installed" = Some (JLeaf (JBool installed)) /\
            (response !! "working" = Some (JLeaf (JBool true)) -> installed = true) /\
            Forall (fun e => is_espeak_event e = true) (emitted w w') /\
            length (emitted w w') <= 3 /\
            forall p, p <> tmp_name (tmp_counter w) ".wav" -> fs w' !! p = fs w !! p).
Proof.
  unfold check_espeak.
  repeat post_step;
    (eexists; eexists; split; [reflexivity|]);
    (split; [response_lookup; reflexivity|]);
    (split; [response_lookup; try done; discriminate|]);
    first [ rewrite emitted_refl | trace_leaf ];
    (split; [by repeat constructor|]);
    (split; [simpl; lia|]);
    intros p Hp;
    by rewrite ?lookup_delete_ne, ?apply_effect_other, ?lookup_insert_ne by done.
Qed.

Lemma check_espeak_program_missing_run w :
  fs w !! ESPEAK_PATH = None ->
  check_espeak run_captured w
  = (Ret (list_to_map
            [("installed", JLeaf (JBool false));
             ("message", JLeaf (JStr ("eSpeak not found at " +:+ ESPEAK_PATH
                                      +:+ ". Please check the path.")))]), w).
Proof.
  intros Hmissing. unfold check_espeak, try_except, bind, os_path_exists.
  rewrite bool_decide_eq_false_2; [reflexivity|].
  rewrite Hmissing. by intros [? ?].
Qed.

Lemma check_espeak_working_run w :
  post (check_espeak run_captured) w
       (fun o w' =>
          let test_filename := tmp_name (tmp_counter w) ".wav" in
          let test_cmd := [ESPEAK_PATH; "-v"; "en"; "-w"; test_filename; test_message] in
          exists response,
            o = Ret response /\
            (response !! "working" = Some (JLeaf (JBool true)) <->
             is_Some (fs w !! ESPEAK_PATH) /\
             (exists version, snd (run_captured [ESPEAK_PATH; "--version"]) = Ret version /\
                              Captured.returncode version = 0%Z) /\
             (exists test, snd (run_captured test_cmd) = Ret test /\
                           Captured.returncode test = 0%Z) /\
             fst (run_captured test_cmd) <> Removed /\
             (exists voices, snd (run_captured [ESPEAK_PATH; "--voices"]) = Ret voices)) /\
            (response !! "working" = Some (JLeaf (JBool true)) ->
             fs w' = delete test_filename (fs w) /\
             emitted w w' = [EvSubprocess [ESPEAK_PATH; "--version"];
                             EvSubprocess test_cmd;
                             EvSubprocess [ESPEAK_PATH; "--voices"]] /\
             response !! "path" = Some (JLeaf (JStr ESPEAK_PATH)))).
Proof.
  cbv zeta. unfold check_espeak.
  repeat post_step;
    (eexists; split; [reflexivity|]).
  all: response_lookup.
  all: repeat match goal with
              | H : bool_decide _ = true |- _ => apply bool_decide_eq_true in H
              | H : bool_decide _ = false |- _ =>
                  apply bool_decide_eq_false in H; apply dec_stable in H
              end.
  all: try (split; [|discriminate]; split; [discriminate|];
            intros (Hfound & (version & Hversion & Hrc) & (test & Htest & Htrc)
                    & Heffect & (voices & Hvoices));
            exfalso).
  all: try (destruct Hfound as [? ?]; congruence).
  all: try (simplify_eq; congruence).
  - split; [|intros _; split; [apply delete_apply_effect_created|]; split;
             [by trace_leaf | reflexivity]].
    split; [intros _|done].
    split; [by eexists|]. split; [by eexists|]. split; [by eexists|].
    split; [|by eexists].
    intros Hremoved.
    match goal with
    | H : apply_effect _ _ _ !! _ = Some _ |- _ =>
        rewrite Hremoved in H; simpl in H; rewrite lookup_delete_eq in H; discriminate H
    end.
  - apply Heffect. by eapply apply_effect_created.
Qed.

(** X20: The diagnosis always answers: [check_espeak] never raises, its response
    always says whether eSpeak is installed, and "working" is only claimed
    for an installed eSpeak.  What it does to the outside is to run at most
    three programs and to create one temporary wav file: every other file
    on disk is as it was. *)
Theorem check_espeak_always_answers w :
  let run := check_espeak run_captured w in
  exists response installed,
    fst run = Ret response /\
    response !! "installed" = Some (JLeaf (JBool installed)) /\
    (response !! "working" = Some (JLeaf (JBool true)) -> installed = true) /\
    Forall (fun e => is_espeak_event e = true) (emitted w (snd run)) /\
    length (emitted w (snd run)) <= 3 /\
    forall p, p <> tmp_name (tmp_counter w) ".wav" -> fs (snd run) !! p = fs w !! p.
Proof. apply check_espeak_run_shape. Qed.

(** X21: Without a file at [ESPEAK_PATH] nothing is run and nothing is
    created: the answer says so and the world is as it was. *)
Theorem check_espeak_program_missing w :
  fs w !! ESPEAK_PATH = None ->
  check_espeak run_captured w
  = (Ret (list_to_map
            [("installed", JLeaf (JBool false));
             ("message", JLeaf (JStr ("eSpeak not found at " +:+ ESPEAK_PATH
                                      +:+ ". Please check the path.")))]), w).
Proof. apply check_espeak_program_missing_run. Qed.

(** X22: "working" is answered exactly when the program is on disk, the version
    call and the test synthesis both exit with status 0, the test file is
    still there to be removed, and the voices call could be started. *)
Theorem check_espeak_working_iff w :
  let test_cmd := [ESPEAK_PATH; "-v"; "en"; "-w"; tmp_name (tmp_counter w) ".wav";
                   test_message] in
  (exists response,
     fst (check_espeak run_captured w) = Ret response /\
     response !! "working" = Some (JLeaf (JBool true)))
  <->
  is_Some (fs w !! ESPEAK_PATH) /\
  (exists version, snd (run_captured [ESPEAK_PATH; "--version"]) = Ret version /\
                   Captured.returncode version = 0%Z) /\
  (exists test, snd (run_captured test_cmd) = Ret test /\
                Captured.returncode test = 0%Z) /\
  fst (run_captured test_cmd) <> Removed /\
  (exists voices, snd (run_captured [ESPEAK_PATH; "--voices"]) = Ret voices).
Proof.
  cbv zeta. pose proof (check_espeak_working_run w) as Hrun.
  unfold post in Hrun. cbv zeta in Hrun.
  destruct Hrun as (response & Hret & Hiff & _). split.
  - intros (response' & Hret' & Hworking). apply Hiff. congruence.
  - intros Hconditions. exists response. split; [done|]. by apply Hiff.
Qed.

(** X23: A diagnosis that answers "working" has cleaned up after itself: with a
    fresh temporary name the disk is exactly as before, and the three
    commands run were the version call, the test synthesis and the voices
    call, in this order. *)
Theorem check_espeak_working_restores_disk w response :
  fs w !! tmp_name (tmp_counter w) ".wav" = None ->
  fst (check_espeak run_captured w) = Ret response ->
  response !! "working" = Some (JLeaf (JBool true)) ->
  fs (snd (check_espeak run_captured w)) = fs w /\
  emitted w (snd (check_espeak run_captured w))
  = [EvSubprocess [ESPEAK_PATH; "--version"];
     EvSubprocess [ESPEAK_PATH; "-v"; "en"; "-w"; tmp_name (tmp_counter w) ".wav";
                   test_message];
     EvSubprocess [ESPEAK_PATH; "--voices"]].
Proof.
  intros Hfresh Hresponse Hworking.
  pose proof (check_espeak_working_run w) as Hrun.
  unfold post in Hrun. cbv zeta in Hrun.
  destruct Hrun as (response' & Hret & _ & Hclean).
  assert (response' = response) as -> by congruence.
  destruct (Hclean Hworking) as (Hfs & Htrace & _).
  split; [|exact Htrace]. rewrite Hfs. by apply delete_id.
Qed.

(** X24: The test file is left behind when the test synthesis fails: if the
    version call succeeds but the synthesis exits with a non-zero status or
    cannot be started, the answer does not say "working", and the wav file
    created for the test is still on disk when [check_espeak] returns. *)
Theorem check_espeak_leaves_test_file w size version :
  let test_filename := tmp_name (tmp_counter w) ".wav" in
  let test_cmd := [ESPEAK_PATH; "-v"; "en"; "-w"; test_filename; test_message] in
  fs w !! ESPEAK_PATH = Some size ->
  snd (run_captured [ESPEAK_PATH; "--version"]) = Ret version ->
  Captured.returncode version = 0%Z ->
  fst (run_captured test_cmd) <> Removed ->
  (forall test, snd (run_captured test_cmd) = Ret test ->
                Captured.returncode test <> 0%Z) ->
  let run := check_espeak run_captured w in
  is_Some (fs (snd run) !! test_filename) /\
  exists response,
    fst run = Ret response /\
    response !! "working" <> Some (JLeaf (JBool true)).
Proof.
  intros test_filename test_cmd Hfound Hversion Hrc Heffect Hfails. cbv zeta.
  subst test_filename test_cmd.
  change (post (check_espeak run_captured) w
    (fun o w' =>
       is_Some (fs w' !! tmp_name (tmp_counter w) ".wav") /\
       exists response,
         o = Ret response /\ response !! "working" <> Some (JLeaf (JBool true)))).
  assert (Hthere : is_Some
            (apply_effect (tmp_name (tmp_counter w) ".wav")
               (fst (run_captured [ESPEAK_PATH; "-v"; "en"; "-w";
                                   tmp_name (tmp_counter w) ".wav"; test_message]))
               (<[tmp_name (tmp_counter w) ".wav" := 0%N]> (fs w))
             !! tmp_name (tmp_counter w) ".wav")).
  { apply not_eq_None_Some. by intros ?%apply_effect_created. }
  unfold check_espeak.
  repeat (post_step; try congruence); simplify_eq.
  all: repeat match goal with
              | H : bool_decide _ = true |- _ => apply bool_decide_eq_true in H
              | H : bool_decide _ = false |- _ =>
                  apply bool_decide_eq_false in H; apply dec_stable in H
              end.
  all: try (exfalso; by eapply Hfails).
  all: (split; [exact Hthere|]);
       (eexists; split; [reflexivity|]); response_lookup; discriminate.
Qed.
End CheckEspeakProperties.

Lemma check_espeak_program_missing_witness :
  fs empty_world !! ESPEAK_PATH = None /\
  fst (check_espeak working_espeak empty_world)
  = Ret (list_to_map
           [("installed", JLeaf (JBool false));
            ("message",
             JLeaf (JStr "eSpeak not found at C:\Program Files (x86)\eSpeak\command_line\espeak.exe. Please check the path."))]).
Proof.
  split; [reflexivity|].
  rewrite (check_espeak_program_missing working_espeak empty_world); reflexivity.
Defined.

Lemma check_espeak_working_restores_disk_witness :
  let response : gmap string jnode :=
    list_to_map
      [("installed", JLeaf (JBool true));
       ("working", JLeaf (JBool true));
       ("version", JLeaf (JStr "eSpeak text-to-speech: 1.48.03  04.Mar.14"));
       ("path", JLeaf (JStr ESPEAK_PATH));
       ("relevant_voices",
        JObj (list_to_map
                [("en", JLeaf (JList [" 5  en             M  default"]));
                 ("hi", JLeaf (JList [" 5  hi             M  hindi"]));
                 ("es", JLeaf (JList [" 5  es             M  spanish"]));
                 ("de", JLeaf (JList []));
                 ("ja", JLeaf (JList []));
                 ("zh", JLeaf (JList []))]))] in
  fst (check_espeak working_espeak espeak_world) = Ret response /\
  fs (snd (check_espeak working_espeak espeak_world)) = fs espeak_world.
Proof.
  intros response.
  assert (Hfresh : fs espeak_world !! tmp_name (tmp_counter espeak_world) ".wav" = None)
    by (vm_compute; reflexivity).
  assert (Hresponse : fst (check_espeak working_espeak espeak_world) = Ret response)
    by (vm_compute; reflexivity).
  assert (Hworking : response !! "working" = Some (JLeaf (JBool true)))
    by (vm_compute; reflexivity).
  split; [exact Hresponse|].
  exact (proj1 (check_espeak_working_restores_disk working_espeak espeak_world response
                  Hfresh Hresponse Hworking)).
Defined.

Lemma check_espeak_leaves_test_file_witness :
  fs espeak_world !! "/tmp/tmp0.wav" = None /\
  is_Some (fs (snd (check_espeak voiceless_espeak espeak_world)) !! "/tmp/tmp0.wav").
Proof.
  split; [vm_compute; reflexivity|].
  apply (check_espeak_leaves_test_file voiceless_espeak espeak_world 200000%N
           (Captured.mk 0 ("eSpeak text-to-speech: 1.48.03  04.Mar.14" +:+ nl) "")).
  - vm_compute. reflexivity.
  - vm_compute. reflexivity.
  - reflexivity.
  - discriminate.
  - intros test [= <-]. discriminate.
Defined.

Lemma check_espeak_working_iff_witness :
  exists response,
    fst (check_espeak working_espeak espeak_world) = Ret response /\
    response !! "working" = Some (JLeaf (JBool true)).
Proof.
  apply (check_espeak_working_iff working_espeak espeak_world).
  split; [by eexists|].
  split; [eexists; split; vm_compute; reflexivity|].
  split; [eexists; split; vm_compute; reflexivity|].
  split; [vm_compute; discriminate|].
  eexists. vm_compute. reflexivity.
Defined.

(** ** Loops with an invariant *)

Lemma post_for_each_from {A S} (Inv : list A -> S -> World -> Prop)
    (body : A -> S -> M S) (all : list A) :
  (forall done x s w,
     x ∈ all -> Inv done s w ->
     post (body x s) w (fun o w' => exists s', o = Ret s' /\ Inv (done ++ [x])%list s' w')) ->
  forall items done s w,
    (forall x, x ∈ items -> x ∈ all) ->
    Inv done s w ->
    post (for_each items body s) w
         (fun o w' => exists s', o = Ret s' /\ Inv (done ++ items)%list s' w').
Proof.
  intros Hbody. induction items as [|x items IH]; intros done s w Hall Hinv; simpl.
  - exists s. by rewrite app_nil_r.
  - apply post_bind. eapply post_mono; [apply Hbody; [apply Hall; left|done]|].
    intros o w1 (s1 & -> & Hinv1). cbv beta iota.
    eapply post_mono; [apply IH; [intros y Hy; apply Hall; by right|done]|].
    intros o w2 (s2 & -> & Hinv2). exists s2. split; [done|].
    by rewrite <- app_assoc in Hinv2.
Qed.

(** The rule for [for x in items]: [Inv done] holds when the loop has gone
    through [done]. *)
Lemma post_for_each {A S} (Inv : list A -> S -> World -> Prop)
    (body : A -> S -> M S) (items : list A) :
  (forall done x s w,
     x ∈ items -> Inv done s w ->
     post (body x s) w (fun o w' => exists s', o = Ret s' /\ Inv (done ++ [x])%list s' w')) ->
  forall s w,
    Inv [] s w ->
    post (for_each items body s) w (fun o w' => exists s', o = Ret s' /\ Inv items s' w').
Proof.
  intros Hbody s w Hinv.
  by apply (post_for_each_from Inv body items Hbody items [] s w).
Qed.

(** The first event of the list that equals [e] is found by walking. *)
Ltac find_event :=
  repeat first [ apply list_elem_of_here | apply list_elem_of_further ].

(** ** The handler's test of the recognition model *)

Lemma translate_model_gate lang_dict engine tts rec data w
    source source_code target target_code model_path :
  request_resolves data source source_code target target_code model_path ->
  let run := translate lang_dict engine tts rec data w in
  (fs w !! model_path = None ->
   fst run = Ret (error_response ("Model for " +:+ source +:+ " not found at "
                                  +:+ model_path +:+ "!"))) /\
  (is_Some (fs w !! model_path) -> EvModelLoad model_path ∈ emitted w (snd run)).
Proof.
  intros (Hs & Ht & Hsc & Htc & Hmp). cbv zeta.
  change (post (translate lang_dict engine tts rec data) w
    (fun o w' =>
       (fs w !! model_path = None ->
        o = Ret (error_response ("Model for " +:+ source +:+ " not found at "
                                 +:+ model_path +:+ "!"))) /\
       (is_Some (fs w !! model_path) -> EvModelLoad model_path ∈ emitted w w'))).
  unfold translate, recognize_speech.
  repeat (handler_step; try congruence); simplify_eq/=.
  all: split; [intros ?; congruence || done|].
  all: intros [size Hsize]; try congruence.
  all: trace_leaf_hyps; find_event.
Qed.

(** ** The stand-alone checker: [check_vosk_models] *)

Section CheckVoskProperties.
Variable rec : Recognizer.
Variable cwd : string.

Lemma check_vosk_model_step w0 done item w (u : unit) :
  let Inv := fun (done : list (string * string)) (_ : unit) (w' : World) =>
    fs w' = fs w0 /\
    exists evs,
      trace w' = (trace w0 ++ evs)%list /\
      Forall (checker_event (fs w0)) evs /\
      forall found, found ∈ done ->
        is_Some (fs w0 !! snd found) -> vosk_model rec (snd found) = Ret tt ->
        forall e, e ∈ model_found_lines found -> e ∈ evs in
  Inv done u w ->
  post (check_vosk_model rec item u) w
       (fun o w' => exists s', o = Ret s' /\ Inv (done ++ [item])%list s' w').
Proof.
  intros Inv (Hfs & evs & Htrace & Hevs & Hfound). subst Inv. cbv beta.
  unfold check_vosk_model.
  repeat post_step; (eexists; split; [reflexivity|]); (split; [done|]);
    rewrite Htrace, <- ?app_assoc; (eexists; split; [reflexivity|]).
  all: split;
    [ apply Forall_app; split; [done|];
      repeat (apply Forall_cons; split; [simpl; by rewrite <- ?Hfs|]); done
    | ].
  all: intros found [Hin | ->%list_elem_of_singleton]%elem_of_app Hthere Hloads ev Hev;
    [ apply elem_of_app; left; by eapply Hfound | ].
  all: try congruence.
  all: try (rewrite <- Hfs in Hthere; destruct Hthere; congruence).
  apply elem_of_app. by right.
Qed.

Lemma check_vosk_models_run w :
  post (check_vosk_models rec cwd) w
       (fun o w' =>
          o = Ret tt /\ fs w' = fs w /\
          Forall (checker_event (fs w)) (emitted w w') /\
          forall found, found ∈ CHECKER_MODEL_PATH_ITEMS ->
            is_Some (fs w !! snd found) -> vosk_model rec (snd found) = Ret tt ->
            forall e, e ∈ model_found_lines found -> e ∈ emitted w w').
Proof.
  unfold check_vosk_models.
  do 2 (apply post_bind, post_emit; cbn [fs tmp_counter trace]).
  apply post_bind.
  eapply post_mono.
  - apply (post_for_each
             (fun done (_ : unit) w' =>
                fs w' = fs w /\
                exists evs,
                  trace w' = (trace w ++ evs)%list /\
                  Forall (checker_event (fs w)) evs /\
                  forall found, found ∈ done ->
                    is_Some (fs w !! snd found) -> vosk_model rec (snd found) = Ret tt ->
                    forall e, e ∈ model_found_lines found -> e ∈ evs)
             (check_vosk_model rec) CHECKER_MODEL_PATH_ITEMS).
    + intros done item u w1 _. apply check_vosk_model_step.
    + split; [done|]. eexists. split; [by rewrite <- app_assoc|].
      split; [by repeat constructor|]. by intros found ?%elem_of_nil.
  - intros o w1 (u & -> & Hfs & evs & Htrace & Hevs & Hfound). cbv beta iota.
    apply post_emit. split; [by destruct u|]. split; [done|].
    unfold emitted. cbn [trace]. rewrite Htrace, <- app_assoc, drop_app_length.
    split.
    + apply Forall_app. split; [done | by repeat constructor].
    + intros found Hin Hthere Hloads e He. apply elem_of_app. left. by eapply Hfound.
Qed.
End CheckVoskProperties.

(** X25: The checker only looks: [check_vosk_models] never raises, leaves the
    disk as it was, and besides printing it only loads models, each from a
    path that exists. *)
Theorem check_vosk_models_reads_only rec cwd w :
  let run := check_vosk_models rec cwd w in
  fst run = Ret tt /\
  fs (snd run) = fs w /\
  Forall (checker_event (fs w)) (emitted w (snd run)).
Proof.
  cbv zeta. pose proof (check_vosk_models_run rec cwd w) as Hrun.
  unfold post in Hrun. destruct Hrun as (Hret & Hfs & Hevs & _). done.
Qed.

(** X26: The checker and the application disagree on the German model: the
    checker looks for [models/vosk-model-small-de-0.15], the application
    for [models/vosk-model-de-0.21].  On a machine holding the model the
    checker asks for, the checker reports German as found and loaded, and
    the application answers every request from German with "not found". *)
Theorem checker_passes_german_app_refuses
    lang_dict engine tts rec cwd data w target target_code size :
  fs w !! "models/vosk-model-small-de-0.15" = Some size ->
  vosk_model rec "models/vosk-model-small-de-0.15" = Ret tt ->
  fs w !! "models/vosk-model-de-0.21" = None ->
  data !! "source" = Some "German" ->
  data !! "target" = Some target ->
  LANGUAGES !! target = Some target_code ->
  let checked := emitted w (snd (check_vosk_models rec cwd w)) in
  Print (check_mark +:+ " de: Model found at models/vosk-model-small-de-0.15") ∈ checked /\
  Print ("  " +:+ check_mark +:+ " Model loaded successfully") ∈ checked /\
  fst (translate lang_dict engine tts rec data w)
  = Ret (error_response "Model for German not found at models/vosk-model-de-0.21!").
Proof.
  intros Hthere Hloads Hmissing Hsource Htarget Hcode. cbv zeta.
  pose proof (check_vosk_models_run rec cwd w) as Hrun.
  unfold post in Hrun. destruct Hrun as (_ & _ & _ & Hfound).
  assert (Hlines : forall e,
            e ∈ model_found_lines ("de", "models/vosk-model-small-de-0.15") ->
            e ∈ emitted w (snd (check_vosk_models rec cwd w))).
  { apply Hfound; [|by eexists|done].
    unfold CHECKER_MODEL_PATH_ITEMS. find_event. }
  split; [apply Hlines; unfold model_found_lines; find_event|].
  split; [apply Hlines; unfold model_found_lines; find_event|].
  destruct (translate_model_gate lang_dict engine tts rec data w
              "German" "de" target target_code "models/vosk-model-de-0.21")
    as [Hrefuse _].
  { repeat split; first [assumption | vm_compute; reflexivity]. }
  by rewrite Hrefuse.
Qed.

Lemma checker_passes_german_app_refuses_witness :
  fs checker_world !! "models/vosk-model-small-de-0.15" = Some 4096%N /\
  fs checker_world !! "models/vosk-model-de-0.21" = None /\
  Print (check_mark +:+ " de: Model found at models/vosk-model-small-de-0.15")
    ∈ emitted checker_world
        (snd (check_vosk_models (sample_recognizer "hallo") "C:\app" checker_world)) /\
  fst (translate sample_lang_dict pivot_only_engine dead_tts (sample_recognizer "hallo")
                 (request "German" "English") checker_world)
  = Ret (error_response "Model for German not found at models/vosk-model-de-0.21!").
Proof.
  assert (Hthere : fs checker_world !! "models/vosk-model-small-de-0.15" = Some 4096%N)
    by (vm_compute; reflexivity).
  assert (Hmissing : fs checker_world !! "models/vosk-model-de-0.21" = None)
    by (vm_compute; reflexivity).
  assert (Hsource : request "German" "English" !! "source" = Some "German")
    by (vm_compute; reflexivity).
  assert (Htarget : request "German" "English" !! "target" = Some "English")
    by (vm_compute; reflexivity).
  assert (Hcode : LANGUAGES !! "English" = Some "en") by (vm_compute; reflexivity).
  destruct (checker_passes_german_app_refuses sample_lang_dict pivot_only_engine dead_tts
              (sample_recognizer "hallo") "C:\app" (request "German" "English")
              checker_world "English" "en" 4096%N
              Hthere eq_refl Hmissing Hsource Htarget Hcode)
    as (Hfound & _ & Hrefuse).
  split; [exact Hthere|]. split; [exact Hmissing|]. split; [exact Hfound | exact Hrefuse].
Defined.

(** ** The capability report: [check_models] *)

Lemma pair_key_inj s t s' t' :
  String.length s = 2 -> String.length s' = 2 ->
  s +:+ "-" +:+ t = s' +:+ "-" +:+ t' -> s = s' /\ t = t'.
Proof.
  destruct s as [|a [|b [|c s]]]; simpl; try discriminate.
  destruct s' as [|a' [|b' [|c' s']]]; simpl; try discriminate.
  intros _ _ Heq. by simplify_eq/=.
Qed.

Lemma language_codes_length code :
  code ∈ LANGUAGE_CODES -> String.length code = 2.
Proof.
  unfold LANGUAGE_CODES, LANGUAGE_ITEMS. simpl.
  rewrite !elem_of_cons, elem_of_nil. intros H. by repeat destruct H as [->|H].
Qed.

Section CheckModelsProperties.
Variable lang_dict : gmap string Language.
Variable engine : TranslationEngine.
Variable pyttsx3_voice_ids : outcome (list string).

Lemma check_pair_run source target d w :
  post (check_pair lang_dict engine source target d) w
       (fun o w' =>
          o = Ret (if bool_decide (source <> target)
                   then <[source +:+ "-" +:+ target
                          := pair_entry lang_dict engine source target]> d
                   else d) /\
          fs w' = fs w /\
          exists evs, trace w' = (trace w ++ evs)%list /\
                      Forall (fun e => is_probe_event e = true) evs).
Proof.
  unfold check_pair, call_get_translation, pair_entry, can_translate_pair.
  destruct (bool_decide (source <> target)); [|apply post_ret; split; [done|];
    split; [done|]; exists []; by rewrite app_nil_r].
  destruct (lang_dict !! source) as [src|] eqn:Hsrc;
    destruct (lang_dict !! target) as [tgt|] eqn:Htgt;
    rewrite ?bool_decide_eq_true_2 by (by eexists);
    rewrite ?bool_decide_eq_false_2 by (by intros [? ?]);
    cbn [andb].
  - destruct (get_translation engine src tgt) as [translation|e] eqn:Hget;
      repeat (post_step; try congruence); simplify_eq/=;
      (split; [congruence || reflexivity|]); (split; [done|]);
      (eexists; split; [rewrite <- ?app_assoc; reflexivity|]); by repeat constructor.
  - repeat post_step. split; [reflexivity|]. split; [done|].
    exists []. by rewrite app_nil_r.
  - repeat post_step. split; [reflexivity|]. split; [done|].
    exists []. by rewrite app_nil_r.
  - repeat post_step. split; [reflexivity|]. split; [done|].
    exists []. by rewrite app_nil_r.
Qed.
(** What the two loops maintain: the disk is untouched, only probes were
    made, and every pair gone through has its entry. *)
Lemma check_pair_step w0 (pairs : list (string * string)) source target d w :
  let Core := fun (pairs : list (string * string)) (d : gmap string jnode) (w' : World) =>
    fs w' = fs w0 /\
    (exists evs, trace w' = (trace w0 ++ evs)%list /\
                 Forall (fun e => is_probe_event e = true) evs) /\
    forall s t, (s, t) ∈ pairs -> s <> t ->
                d !! (s +:+ "-" +:+ t) = Some (pair_entry lang_dict engine s t) in
  String.length source = 2 ->
  Forall (fun pair => String.length (fst pair) = 2) pairs ->
  Core pairs d w ->
  post (check_pair lang_dict engine source target d) w
       (fun o w' => exists d', o = Ret d' /\ Core (pairs ++ [(source, target)])%list d' w').
Proof.
  intros Core Hlen Hlens (Hfs & (evs & Htrace & Hevs) & Hentries). subst Core. cbv beta.
  eapply post_mono; [apply check_pair_run|].
  intros o w' (-> & Hfs' & evs' & Htrace' & Hevs').
  eexists. split; [reflexivity|]. split; [congruence|]. split.
  - exists (evs ++ evs')%list. split; [by rewrite Htrace', Htrace, app_assoc|].
    by apply Forall_app.
  - intros s t [Hin | [= -> ->]%list_elem_of_singleton]%elem_of_app Hne.
    + destruct (bool_decide (source <> target)); [|by apply Hentries].
      destruct (decide (source +:+ "-" +:+ target = s +:+ "-" +:+ t)) as [Hkey|Hkey].
      * apply pair_key_inj in Hkey as [-> ->]; [by rewrite lookup_insert_eq|done|].
        rewrite Forall_forall in Hlens. by apply (Hlens (s, t)).
      * rewrite lookup_insert_ne by done. by apply Hentries.
    + rewrite bool_decide_eq_true_2 by done. by rewrite lookup_insert_eq.
Qed.

Lemma check_pairs_run w :
  post (for_each LANGUAGE_CODES
          (fun source =>
             for_each LANGUAGE_CODES (fun target => check_pair lang_dict engine source target))
          ∅) w
       (fun o w' =>
          exists caps,
            o = Ret caps /\ fs w' = fs w /\
            (exists evs, trace w' = (trace w ++ evs)%list /\
                         Forall (fun e => is_probe_event e = true) evs) /\
            forall s t, s ∈ LANGUAGE_CODES -> t ∈ LANGUAGE_CODES -> s <> t ->
                        caps !! (s +:+ "-" +:+ t) = Some (pair_entry lang_dict engine s t)).
Proof.
  set (Core := fun (pairs : list (string * string)) (d : gmap string jnode) (w' : World) =>
    fs w' = fs w /\
    (exists evs, trace w' = (trace w ++ evs)%list /\
                 Forall (fun e => is_probe_event e = true) evs) /\
    forall s t, (s, t) ∈ pairs -> s <> t ->
                d !! (s +:+ "-" +:+ t) = Some (pair_entry lang_dict engine s t)).
  assert (Hlens : forall sources,
            Forall (fun code => String.length code = 2) sources ->
            Forall (fun pair : string * string => String.length (fst pair) = 2)
                   (pairs_of sources)).
  { intros sources Hsources. apply Forall_forall. intros [s t] Hin.
    apply list_elem_of_In, in_flat_map in Hin as (s' & Hs' & Hin).
    apply in_map_iff in Hin as (t' & [= <- <-] & _).
    rewrite Forall_forall in Hsources. apply Hsources. by apply list_elem_of_In. }
  assert (Hcodes : Forall (fun code => String.length code = 2) LANGUAGE_CODES).
  { apply Forall_forall. apply language_codes_length. }
  eapply post_mono.
  - apply (post_for_each
             (fun sources d w' =>
                Forall (fun code => String.length code = 2) sources /\
                Core (pairs_of sources) d w')
             _ LANGUAGE_CODES).
    + intros sources source d w1 Hlen%language_codes_length [Hsources Hcore].
      eapply post_mono.
      * apply (post_for_each
                 (fun targets d' w' =>
                    Core (pairs_of sources
                          ++ List.map (fun target => (source, target)) targets)%list d' w')
                 _ LANGUAGE_CODES).
        -- intros targets target d' w2 _ Hcore'.
           rewrite map_app, app_assoc. simpl.
           apply check_pair_step; [done| |done].
           apply Forall_app. split; [by apply Hlens|].
           apply Forall_forall. intros [s t] Hin.
           apply list_elem_of_In, in_map_iff in Hin as (t' & [= <- <-] & _). done.
        -- simpl. by rewrite app_nil_r.
      * intros o w2 (d' & -> & Hcore'). exists d'. split; [done|].
        split; [apply Forall_app; split; [done | by constructor]|].
        unfold pairs_of in *. rewrite flat_map_app. exact Hcore'.
    + split; [constructor|]. split; [done|]. split.
      * exists []. split; [by rewrite app_nil_r | constructor].
      * by intros s t ?%elem_of_nil.
  - intros o w' (caps & -> & _ & Hfs & Hevs & Hentries). exists caps.
    split; [done|]. split; [done|]. split; [done|].
    intros s t Hs Ht Hne. apply Hentries; [|done].
    apply list_elem_of_In, in_flat_map. exists s. split; [by apply list_elem_of_In|].
    apply in_map_iff. exists t. split; [done | by apply list_elem_of_In].
Qed.
Lemma check_model_paths_run w :
  for_each MODEL_PATH_ITEMS check_model_path ∅ w = (Ret (model_entries (fs w)), w).
Proof. reflexivity. Qed.

Lemma tts_entries_run espeak_available voice_found w :
  for_each LANGUAGE_CODES
    (fun lang_code => tts_entry espeak_available (voice_found lang_code) lang_code) ∅ w
  = (Ret (tts_entries espeak_available voice_found), w).
Proof. reflexivity. Qed.

Lemma check_models_run w :
  post (check_models lang_dict engine pyttsx3_voice_ids) w
       (fun o w' =>
          fs w' = fs w /\
          Forall (fun e => is_probe_event e = true) (emitted w w') /\
          exists caps,
            (forall s t, s ∈ LANGUAGE_CODES -> t ∈ LANGUAGE_CODES -> s <> t ->
                         caps !! (s +:+ "-" +:+ t) = Some (pair_entry lang_dict engine s t)) /\
            o = Ret (list_to_map
                       [("speech_recognition_models", JObj (model_entries (fs w)));
                        ("translation_capabilities", JObj caps);
                        ("tts_capabilities",
                         JObj (tts_entries (bool_decide (is_Some (fs w !! ESPEAK_PATH)))
                                           (pyttsx3_voice_found pyttsx3_voice_ids)));
                        ("espeak_installed",
                         JLeaf (JBool (bool_decide (is_Some (fs w !! ESPEAK_PATH)))));
                        ("espeak_path", JLeaf (JStr ESPEAK_PATH))])).
Proof.
  unfold check_models.
  apply post_bind. unfold post at 1. rewrite check_model_paths_run. cbn [fst snd].
  apply post_bind. eapply post_mono; [apply check_pairs_run|].
  intros o w1 (caps & -> & Hfs & (evs & Htrace & Hevs) & Hentries). cbv beta iota.
  apply post_bind. unfold post at 1, os_path_exists. cbn [fst snd]. rewrite Hfs.
  apply post_bind, post_try, post_bind, post_emit. cbn [fs tmp_counter trace].
  apply post_bind, post_lift.
  destruct pyttsx3_voice_ids as [voices|e] eqn:Hvoices.
  - unfold post at 1.
    rewrite (tts_entries_run _ (fun lang_code =>
               existsb (fun id => contains lang_code (lower id)) voices)).
    cbn [fst snd]. apply post_ret.
    split; [done|]. split.
    + unfold emitted. cbn [trace]. rewrite Htrace, <- app_assoc, drop_app_length.
      apply Forall_app. split; [done | by repeat constructor].
    + exists caps. split; [done|]. reflexivity.
  - apply post_bind, post_emit. cbn [fs tmp_counter trace].
    unfold post at 1.
    rewrite (tts_entries_run _ (fun _ => false)).
    cbn [fst snd]. apply post_ret.
    split; [done|]. split.
    + unfold emitted. cbn [trace]. rewrite Htrace, <- !app_assoc, drop_app_length.
      apply Forall_app. split; [done | by repeat constructor].
    + exists caps. split; [done|]. reflexivity.
Qed.
Lemma can_translate_pair_true source target :
  can_translate_pair lang_dict engine source target = true <->
  exists src tgt translation,
    lang_dict !! source = Some src /\ lang_dict !! target = Some tgt /\
    get_translation engine src tgt = Ret translation.
Proof.
  unfold can_translate_pair. split.
  - destruct (lang_dict !! source) as [src|]; [|discriminate].
    destruct (lang_dict !! target) as [tgt|]; [|discriminate].
    destruct (get_translation engine src tgt) as [translation|e] eqn:Hget; [|discriminate].
    intros _. by exists src, tgt, translation.
  - intros (src & tgt & translation & -> & -> & ->). done.
Qed.

(** X27: The report never fails and only looks: [check_models] always returns a
    report, whose "espeak_installed" says whether the file at
    [ESPEAK_PATH] exists; the disk is left as it was, and besides logging
    the route only asks the engine for translation objects and
    initialises pyttsx3: nothing is translated, synthesised, played or
    recorded. *)
Theorem check_models_reads_only w :
  let run := check_models lang_dict engine pyttsx3_voice_ids w in
  (exists report,
     fst run = Ret report /\
     jflag report "espeak_installed" = Some (bool_decide (is_Some (fs w !! ESPEAK_PATH)))) /\
  fs (snd run) = fs w /\
  Forall (fun e => is_probe_event e = true) (emitted w (snd run)).
Proof.
  cbv zeta. pose proof (check_models_run w) as Hrun. unfold post in Hrun.
  destruct Hrun as (Hfs & Hevs & caps & _ & Hret).
  split; [|done]. eexists. split; [exact Hret|].
  unfold jflag. response_lookup. reflexivity.
Qed.

(** X28: For every ordered pair of two different configured languages the
    report has an entry under "<source>-<target>"; its availability flags
    say whether the language is in [lang_dict], and "can_translate" is
    true exactly when both are and [get_translation] returns: no test
    translation is made. *)
Theorem check_models_can_translate_iff w source target :
  source ∈ LANGUAGE_CODES -> target ∈ LANGUAGE_CODES -> source <> target ->
  exists report caps entry,
    fst (check_models lang_dict engine pyttsx3_voice_ids w) = Ret report /\
    jobj report "translation_capabilities" = Some caps /\
    jobj caps (source +:+ "-" +:+ target) = Some entry /\
    jflag entry "source_available" = Some (bool_decide (is_Some (lang_dict !! source))) /\
    jflag entry "target_available" = Some (bool_decide (is_Some (lang_dict !! target))) /\
    (jflag entry "can_translate" = Some true <->
     exists src tgt translation,
       lang_dict !! source = Some src /\ lang_dict !! target = Some tgt /\
       get_translation engine src tgt = Ret translation).
Proof.
  intros Hsource Htarget Hne.
  pose proof (check_models_run w) as Hrun. unfold post in Hrun.
  destruct Hrun as (_ & _ & caps & Hentries & Hret).
  eexists _, caps, _. split; [exact Hret|].
  split; [unfold jobj; response_lookup; reflexivity|].
  split; [unfold jobj; rewrite (Hentries source target) by done; reflexivity|].
  split; [unfold jflag; response_lookup; reflexivity|].
  split; [unfold jflag; response_lookup; reflexivity|].
  unfold jflag. response_lookup. rewrite <- can_translate_pair_true.
  split; [by intros [= ->] | by intros ->].
Qed.

(** X29: The report predicts the handler: for a request that resolves, the
    "speech_recognition" flag of the source language is false exactly when
    the handler would answer "Model ... not found", and when it is true
    the handler goes on to load the model from the reported path. *)
Theorem check_models_predicts_handler tts rec data w
    source source_code target target_code model_path :
  request_resolves data source source_code target target_code model_path ->
  exists report models entry found,
    fst (check_models lang_dict engine pyttsx3_voice_ids w) = Ret report /\
    jobj report "speech_recognition_models" = Some models /\
    jobj models source_code = Some entry /\
    entry !! "path" = Some (JLeaf (JStr model_path)) /\
    jflag entry "speech_recognition" = Some found /\
    (found = false ->
     fst (translate lang_dict engine tts rec data w)
     = Ret (error_response ("Model for " +:+ source +:+ " not found at "
                            +:+ model_path +:+ "!"))) /\
    (found = true ->
     EvModelLoad model_path ∈ emitted w (snd (translate lang_dict engine tts rec data w))).
Proof.
  intros Hresolves.
  destruct (translate_model_gate lang_dict engine tts rec data w
              source source_code target target_code model_path Hresolves)
    as [Hrefuse Hload].
  destruct Hresolves as (_ & _ & _ & _ & Hpath).
  pose proof (check_models_run w) as Hrun. unfold post in Hrun.
  destruct Hrun as (_ & _ & caps & _ & Hret).
  eexists _, (model_entries (fs w)), _, (bool_decide (is_Some (fs w !! model_path))).
  split; [exact Hret|].
  split; [unfold jobj; response_lookup; reflexivity|].
  assert (Hitem : (source_code, model_path) ∈ MODEL_PATH_ITEMS).
  { apply elem_of_list_to_map_2. by destruct tables_in_source_order as [_ <-]. }
  unfold MODEL_PATH_ITEMS in Hitem.
  rewrite !elem_of_cons, elem_of_nil in Hitem.
  assert (Hflags :
    (bool_decide (is_Some (fs w !! model_path)) = false ->
     fst (translate lang_dict engine tts rec data w)
     = Ret (error_response ("Model for " +:+ source +:+ " not found at "
                            +:+ model_path +:+ "!"))) /\
    (bool_decide (is_Some (fs w !! model_path)) = true ->
     EvModelLoad model_path ∈ emitted w (snd (translate lang_dict engine tts rec data w)))).
  { split.
    - intros Hnone%bool_decide_eq_false. apply Hrefuse.
      by apply eq_None_not_Some.
    - intros Hsome%bool_decide_eq_true. by apply Hload. }
  repeat destruct Hitem as [[= -> ->] | Hitem]; try done;
    (split; [unfold jobj, model_entries, MODEL_PATH_ITEMS; cbn [foldl fst snd];
             response_lookup; reflexivity|]);
    (split; [response_lookup; reflexivity|]);
    (split; [unfold jflag; response_lookup; reflexivity|]);
    exact Hflags.
Qed.

(** X30: A failure of pyttsx3 does not fail the report: every configured
    language then has "pyttsx3": false, and in any case its "espeak" flag
    says whether the file at [ESPEAK_PATH] exists; with pyttsx3 working
    the flag says whether some voice id contains the language code. *)
Theorem check_models_tts_entries w lang_code :
  lang_code ∈ LANGUAGE_CODES ->
  exists report tts entry found,
    fst (check_models lang_dict engine pyttsx3_voice_ids w) = Ret report /\
    jobj report "tts_capabilities" = Some tts /\
    jobj tts lang_code = Some entry /\
    jflag entry "espeak" = Some (bool_decide (is_Some (fs w !! ESPEAK_PATH))) /\
    jflag entry "pyttsx3" = Some found /\
    (forall e, pyttsx3_voice_ids = Raise e -> found = false) /\
    (forall voices, pyttsx3_voice_ids = Ret voices ->
                    found = existsb (fun id => contains lang_code (lower id)) voices).
Proof.
  intros Hcode.
  pose proof (check_models_run w) as Hrun. unfold post in Hrun.
  destruct Hrun as (_ & _ & caps & _ & Hret).
  eexists _, _, _, (pyttsx3_voice_found pyttsx3_voice_ids lang_code).
  split; [exact Hret|].
  split; [unfold jobj; response_lookup; reflexivity|].
  unfold LANGUAGE_CODES, LANGUAGE_ITEMS in Hcode. simpl in Hcode.
  rewrite !elem_of_cons, elem_of_nil in Hcode.
  assert (Hfound :
    (forall e, pyttsx3_voice_ids = Raise e ->
               pyttsx3_voice_found pyttsx3_voice_ids lang_code = false) /\
    (forall voices, pyttsx3_voice_ids = Ret voices ->
               pyttsx3_voice_found pyttsx3_voice_ids lang_code
               = existsb (fun id => contains lang_code (lower id)) voices)).
  { split; intros ? ->; reflexivity. }
  repeat destruct Hcode as [-> | Hcode]; try done;
    (split; [unfold jobj, tts_entries, LANGUAGE_CODES, LANGUAGE_ITEMS;
             cbn [foldl fmap list_fmap snd]; response_lookup; reflexivity|]);
    (split; [unfold jflag; response_lookup; reflexivity|]);
    (split; [unfold jflag; response_lookup; reflexivity|]);
    exact Hfound.
Qed.
End CheckModelsProperties.

Lemma check_models_can_translate_iff_witness :
  exists report caps entry,
    fst (check_models sample_lang_dict pivot_only_engine (Ret ["HKEY\TTS_MS_EN-US_ZIRA"])
                      models_world) = Ret report /\
    jobj report "translation_capabilities" = Some caps /\
    jobj caps "en-hi" = Some entry /\
    jflag entry "can_translate" = Some true.
Proof.
  destruct (check_models_can_translate_iff sample_lang_dict pivot_only_engine
              (Ret ["HKEY\TTS_MS_EN-US_ZIRA"]) models_world "en" "hi")
    as (report & caps & entry & Hreport & Hcaps & Hentry & _ & _ & Hcan).
  - unfold LANGUAGE_CODES, LANGUAGE_ITEMS. simpl. find_event.
  - unfold LANGUAGE_CODES, LANGUAGE_ITEMS. simpl. find_event.
  - discriminate.
  - exists report, caps, entry. split; [exact Hreport|]. split; [exact Hcaps|].
    split; [exact Hentry|]. apply Hcan.
    exists (mkLanguage "en" "English"), (mkLanguage "hi" "Hindi"), ("en", "hi").
    split; [vm_compute; reflexivity|]. split; [vm_compute; reflexivity | reflexivity].
Defined.

Lemma check_models_predicts_handler_witness :
  exists report models entry found,
    fst (check_models sample_lang_dict pivot_only_engine (Ret []) empty_world) = Ret report /\
    jobj report "speech_recognition_models" = Some models /\
    jobj models "en" = Some entry /\
    entry !! "path" = Some (JLeaf (JStr "models/vosk-model-small-en-us-0.15")) /\
    jflag entry "speech_recognition" = Some found /\
    (found = false ->
     fst (translate sample_lang_dict pivot_only_engine dead_tts (sample_recognizer "hello")
                    (request "English" "Hindi") empty_world)
     = Ret (error_response ("Model for " +:+ "English" +:+ " not found at "
                            +:+ "models/vosk-model-small-en-us-0.15" +:+ "!"))) /\
    (found = true ->
     EvModelLoad "models/vosk-model-small-en-us-0.15"
     ∈ emitted empty_world
         (snd (translate sample_lang_dict pivot_only_engine dead_tts
                         (sample_recognizer "hello") (request "English" "Hindi")
                         empty_world))).
Proof.
  exact (check_models_predicts_handler sample_lang_dict pivot_only_engine (Ret [])
           dead_tts (sample_recognizer "hello") (request "English" "Hindi") empty_world
           "English" "en" "Hindi" "hi" "models/vosk-model-small-en-us-0.15"
           request_english_hindi_resolves).
Defined.

Lemma check_models_tts_entries_witness :
  exists report tts entry,
    fst (check_models sample_lang_dict pivot_only_engine
                      (Raise (Exception "No module named 'pyttsx3.drivers'"))
                      models_world) = Ret report /\
    jobj report "tts_capabilities" = Some tts /\
    jobj tts "hi" = Some entry /\
    jflag entry "pyttsx3" = Some false.
Proof.
  destruct (check_models_tts_entries sample_lang_dict pivot_only_engine
              (Raise (Exception "No module named 'pyttsx3.drivers'")) models_world "hi")
    as (report & tts & entry & found & Hreport & Htts & Hentry & _ & Hfound & Hfails & _).
  - unfold LANGUAGE_CODES, LANGUAGE_ITEMS. simpl. find_event.
  - exists report, tts, entry. split; [exact Hreport|]. split; [exact Htts|].
    split; [exact Hentry|]. rewrite Hfound. f_equal. by eapply Hfails.
Defined.
